(** * RetailCore: confirmation tokens, reserve, transfer, tickets, lookup

    A shallow embedding of [services/retailcore/app/main.py] (the FastAPI
    service that owns the SQLite database) and of the action functions of
    [services/retail_mcp/app/logic.py] (the layer that validates role, SKU,
    quantity and description before it calls RetailCore over HTTP).

    Conventions.
    - A SQL table is the list of its rows in rowid order; [fetchone] is the
      first matching row and [UPDATE ... WHERE] rewrites every matching row.
    - A Python [str] is a [string] whose characters are the code points
      below 256.
    - [datetime] values are integers: microseconds since the epoch; a
      [date] is the number of whole days since the epoch.  The ISO text
      that SQLite stores is not modelled.
    - [with connect_db(...) as conn] is a transaction: it commits when the
      block returns and rolls back when the block raises. *)

From Stdlib Require Import ZArith List String Ascii Bool Lia.
From Stdlib Require Import Permutation Sorted.
From Stdlib Require Import Reals Lra.
Import ListNotations.

#[local] Open Scope string_scope.
#[local] Open Scope list_scope.
#[local] Open Scope Z_scope.

(** ** Python strings *)

Module PyStr.

Definition dquote : ascii := ascii_of_nat 34.
Definition bslash : ascii := ascii_of_nat 92.

Definition code (c : ascii) : Z := Z.of_N (N_of_ascii c).

Definition chr (n : Z) : ascii := ascii_of_N (Z.to_N n).

(** [str.isspace] on the code points below 256. *)
Definition isspace (c : ascii) : bool :=
  let n := code c in
  ((9 <=? n) && (n <=? 13)) || ((28 <=? n) && (n <=? 32))
  || (n =? 133) || (n =? 160).

Fixpoint lstrip (s : string) : string :=
  match s with
  | EmptyString => EmptyString
  | String c r => if isspace c then lstrip r else s
  end.

Fixpoint rstrip (s : string) : string :=
  match s with
  | EmptyString => EmptyString
  | String c r =>
      match rstrip r with
      | EmptyString => if isspace c then EmptyString else String c EmptyString
      | r' => String c r'
      end
  end.

(** [s.strip()] *)
Definition strip (s : string) : string := rstrip (lstrip s).

(** [c.lower()] on the code points below 256: A-Z and the Latin-1 capitals
    (0xC0-0xDE without the multiplication sign 0xD7) move up by 32. *)
Definition lower_char (c : ascii) : ascii :=
  let n := code c in
  if ((65 <=? n) && (n <=? 90))
     || ((192 <=? n) && (n <=? 222) && negb (n =? 215))
  then chr (n + 32) else c.

Fixpoint lower (s : string) : string :=
  match s with
  | EmptyString => EmptyString
  | String c r => String (lower_char c) (lower r)
  end.

(** Truth value of a [str]: non-empty. *)
Definition truthy (s : string) : bool :=
  match s with EmptyString => false | _ => true end.

(** [s[:n]] for [n >= 0]. *)
Fixpoint take (n : nat) (s : string) : string :=
  match n, s with
  | S k, String c r => String c (take k r)
  | _, _ => EmptyString
  end.

Definition len (s : string) : Z := Z.of_nat (String.length s).

(** [x in xs] for a set or list of strings. *)
Fixpoint mem (x : string) (xs : list string) : bool :=
  match xs with
  | [] => false
  | y :: r => if String.eqb x y then true else mem x r
  end.

(** Decimal digits of a non-negative integer, most significant first.
    The fuel bounds the number of digits; [Z.to_nat n + 1] always
    suffices, [digits] below uses the bit length. *)
Fixpoint digits_fuel (fuel : nat) (n : Z) (acc : string) : string :=
  match fuel with
  | O => acc
  | S k =>
      let acc' := String (chr (48 + n mod 10)) acc in
      if n <? 10 then acc' else digits_fuel k (n / 10) acc'
  end.

Definition digits (n : Z) : string :=
  digits_fuel (S (Z.to_nat (Z.log2 n))) n EmptyString.

(** [str(n)] for an [int]. *)
Definition str_int (n : Z) : string :=
  if n <? 0 then String "-" (digits (- n)) else digits n.

Fixpoint zeros (k : nat) : string :=
  match k with O => EmptyString | S j => String "0" (zeros j) end.

(** [f"{n:04d}"]: sign first, then zeros up to a total width of at least
    four, then the digits. *)
Definition format_04d (n : Z) : string :=
  let d := digits (Z.abs n) in
  if n <? 0
  then String "-" (String.append (zeros (3 - String.length d)) d)
  else String.append (zeros (4 - String.length d)) d.

End PyStr.

(** ** [json.dumps] on the payload dictionaries *)

Module Json.

Inductive value : Type :=
| JStr (s : string)
| JInt (n : Z)
| JBool (b : bool).

(** A [dict] with [str] keys, in insertion order. *)
Definition dict : Type := list (string * value).

Definition hex_digit (n : Z) : ascii :=
  if n <? 10 then PyStr.chr (48 + n) else PyStr.chr (87 + n).

(** [ESCAPE_ASCII]: every character outside space..tilde, the quote and the
    backslash are escaped; the named escapes first, [\uXXXX] otherwise. *)
Definition escape_char (c : ascii) : string :=
  let n := PyStr.code c in
  let esc (x : ascii) := String PyStr.bslash (String x EmptyString) in
  if n =? 34 then esc PyStr.dquote
  else if n =? 92 then esc PyStr.bslash
  else if n =? 8 then esc "b"%char
  else if n =? 12 then esc "f"%char
  else if n =? 10 then esc "n"%char
  else if n =? 13 then esc "r"%char
  else if n =? 9 then esc "t"%char
  else if (32 <=? n) && (n <=? 126) then String c EmptyString
  else String PyStr.bslash
         (String "u" (String "0" (String "0"
            (String (hex_digit (n / 16))
               (String (hex_digit (n mod 16)) EmptyString))))).

Fixpoint escape (s : string) : string :=
  match s with
  | EmptyString => EmptyString
  | String c r => String.append (escape_char c) (escape r)
  end.

Definition encode_str (s : string) : string :=
  String PyStr.dquote (String.append (escape s) (String PyStr.dquote EmptyString)).

Definition encode_value (v : value) : string :=
  match v with
  | JStr s => encode_str s
  | JInt n => PyStr.str_int n
  | JBool true => "true"
  | JBool false => "false"
  end.

(** [sorted(d.items())]: stable insertion by key, code-point order. *)
Fixpoint insert_item (kv : string * value) (l : dict) : dict :=
  match l with
  | [] => [kv]
  | x :: r =>
      if String.ltb (fst x) (fst kv) then x :: insert_item kv r
      else kv :: x :: r
  end.

Definition sort_items (d : dict) : dict := fold_right insert_item [] d.

Definition encode_item (key_sep : string) (kv : string * value) : string :=
  String.append (encode_str (fst kv))
    (String.append key_sep (encode_value (snd kv))).

Fixpoint join (sep : string) (l : list string) : string :=
  match l with
  | [] => EmptyString
  | [x] => x
  | x :: r => String.append x (String.append sep (join sep r))
  end.

(** [json.dumps(d, sort_keys=True, separators=(item_sep, key_sep))] *)
Definition dumps_sorted (item_sep key_sep : string) (d : dict) : string :=
  String.append "{"
    (String.append (join item_sep (map (encode_item key_sep) (sort_items d)))
       "}").

End Json.

(** [_canonical_payload]: sorted keys, separators [(",", ":")]. *)
Definition _canonical_payload (payload : Json.dict) : string :=
  Json.dumps_sorted "," ":" payload.

(** ** The database *)

Record StoreRow : Type := {
  st_store_id : string;
  st_store_name : string;
  st_city : string;
  st_state : string;
  st_region : string
}.
(* latitude and longitude are read by inventory_lookup only; they live in
   the rows of module Lookup. *)

Record InventoryRow : Type := {
  inv_store_id : string;
  inv_sku : string;
  inv_on_hand : Z;
  inv_reserved : Z;
  inv_reorder_point : Z;
  inv_last_updated : Z
}.

Record TokenRow : Type := {
  tok_token : string;
  tok_action : string;
  tok_payload_json : string;
  tok_expires_at : Z;
  tok_used : Z
}.

Record AuditRow : Type := {
  aud_id : Z;
  aud_action : string;
  aud_role : string;
  aud_payload_json : string;
  aud_created_at : Z
}.

Record TransferRow : Type := {
  tr_transfer_id : Z;
  tr_from_store : string;
  tr_to_store : string;
  tr_sku : string;
  tr_qty : Z;
  tr_status : string;
  tr_created_at : Z;
  tr_created_by_role : string
}.

Record InboundRow : Type := {
  ib_inbound_id : Z;
  ib_transfer_id : Z;
  ib_store_id : string;
  ib_sku : string;
  ib_qty : Z;
  ib_expected_date : Z;
  ib_status : string
}.

Record TicketRow : Type := {
  tk_ticket_id : string;
  tk_opened_date : Z;
  tk_store_id : string;
  tk_category : string;
  tk_summary : string;
  tk_severity : string;
  tk_status : string;
  tk_channel : string;
  tk_description : string
}.

Record DB : Type := {
  stores : list StoreRow;
  inventory : list InventoryRow;
  confirm_tokens : list TokenRow;
  audit_log : list AuditRow;
  transfers : list TransferRow;
  inbound_transfers : list InboundRow;
  tickets : list TicketRow
}.

Definition set_inventory (db : DB) (x : list InventoryRow) : DB :=
  {| stores := stores db; inventory := x;
     confirm_tokens := confirm_tokens db; audit_log := audit_log db;
     transfers := transfers db; inbound_transfers := inbound_transfers db;
     tickets := tickets db |}.

Definition set_confirm_tokens (db : DB) (x : list TokenRow) : DB :=
  {| stores := stores db; inventory := inventory db;
     confirm_tokens := x; audit_log := audit_log db;
     transfers := transfers db; inbound_transfers := inbound_transfers db;
     tickets := tickets db |}.

Definition set_audit_log (db : DB) (x : list AuditRow) : DB :=
  {| stores := stores db; inventory := inventory db;
     confirm_tokens := confirm_tokens db; audit_log := x;
     transfers := transfers db; inbound_transfers := inbound_transfers db;
     tickets := tickets db |}.

Definition set_transfers (db : DB) (x : list TransferRow) : DB :=
  {| stores := stores db; inventory := inventory db;
     confirm_tokens := confirm_tokens db; audit_log := audit_log db;
     transfers := x; inbound_transfers := inbound_transfers db;
     tickets := tickets db |}.

Definition set_inbound_transfers (db : DB) (x : list InboundRow) : DB :=
  {| stores := stores db; inventory := inventory db;
     confirm_tokens := confirm_tokens db; audit_log := audit_log db;
     transfers := transfers db; inbound_transfers := x;
     tickets := tickets db |}.

Definition set_tickets (db : DB) (x : list TicketRow) : DB :=
  {| stores := stores db; inventory := inventory db;
     confirm_tokens := confirm_tokens db; audit_log := audit_log db;
     transfers := transfers db; inbound_transfers := inbound_transfers db;
     tickets := x |}.

(** [INTEGER PRIMARY KEY AUTOINCREMENT]: one more than the largest rowid the
    table has held.  No statement of the service deletes a row, so that is
    the largest rowid present. *)
Definition next_rowid (ids : list Z) : Z := 1 + fold_right Z.max 0 ids.

(** Microseconds in a second and in a day. *)
Definition usec : Z := 1000000.
Definition day_usec : Z := 86400 * usec.

(** [dt.date()] as a day number. *)
Definition date_of (t : Z) : Z := t / day_usec.

(** ** Requests, responses, exceptions *)

(** What a request reads from outside the database: the configuration, the
    random token and the successive readings of
    [datetime.now(timezone.utc)], named after the statement that takes
    them. *)
Record Env : Type := {
  confirm_token_ttl_seconds : Z;
  token_urlsafe : string;      (* secrets.token_urlsafe(24) *)
  now_request : Z;             (* update_time of reserve_inventory *)
  now_token : Z;               (* issue_/validate_confirmation_token *)
  now_created : Z;             (* created_at, opened_date *)
  now_expected : Z;            (* expected_date of create_transfer *)
  now_audit : Z                (* log_audit *)
}.

Inductive Exn : Type :=
| HTTPException (status_code : Z) (detail : string)
| PyError (name : string).     (* sqlite3.IntegrityError, TypeError *)

Inductive Result (A : Type) : Type :=
| Return (a : A)
| Raise (e : Exn).
Arguments Return {A} a.
Arguments Raise {A} e.

(** The JSON bodies the handlers return. *)
Inductive Body : Type :=
| ReservePreview (confirm_token : string) (confirm_token_expires_at : Z)
    (can_reserve : bool) (current_on_hand current_reserved : Z)
    (preview_on_hand_after preview_reserved_after : Z)
| Reserved (store_id sku : string) (qty on_hand reserved : Z)
    (last_updated : Z)
| TransferPreview (confirm_token : string) (confirm_token_expires_at : Z)
    (can_transfer : bool) (source_on_hand : Z)
| TransferCreated (transfer_id : Z) (from_store to_store sku : string)
    (qty : Z) (inbound_status : string) (expected_date : Z)
| TicketCreated (ticket_id : string) (opened_date : Z)
    (store_id category severity status : string).

(** [with _conn_from_request(request) as conn: body]: a fresh connection on
    the database; leaving the block by [return] commits what the body
    wrote, leaving it by an exception rolls it back. *)
Definition with_conn {A : Type} (db : DB) (body : DB -> Result A * DB)
  : Result A * DB :=
  match body db with
  | (Return a, conn) => (Return a, conn)
  | (Raise e, _) => (Raise e, db)
  end.

(** ** ConfirmationLedger *)

Definition token_is (token : string) (r : TokenRow) : bool :=
  String.eqb (tok_token r) token.

(** [issue_confirmation_token]; [None] is the [IntegrityError] of an
    [INSERT] that repeats the primary key. *)
Definition issue_confirmation_token (conn : DB) (env : Env)
    (action : string) (payload : Json.dict) (ttl_seconds : Z)
  : option ((string * Z) * DB) :=
  let token := token_urlsafe env in
  let expires_at := now_token env + ttl_seconds * usec in
  if existsb (token_is token) (confirm_tokens conn) then None
  else
    Some ((token, expires_at),
          set_confirm_tokens conn
            (confirm_tokens conn ++
             [{| tok_token := token; tok_action := action;
                 tok_payload_json := _canonical_payload payload;
                 tok_expires_at := expires_at; tok_used := 0 |}])).

Definition mark_used (r : TokenRow) : TokenRow :=
  {| tok_token := tok_token r; tok_action := tok_action r;
     tok_payload_json := tok_payload_json r;
     tok_expires_at := tok_expires_at r; tok_used := 1 |}.

(** [UPDATE confirm_tokens SET used = 1 WHERE token = ?] *)
Definition update_used (token : string) (rows : list TokenRow)
  : list TokenRow :=
  map (fun r => if token_is token r then mark_used r else r) rows.

Definition validate_confirmation_token (conn : DB) (env : Env)
    (token action : string) (payload : Json.dict) : bool * DB :=
  match find (token_is token) (confirm_tokens conn) with
  | None => (false, conn)
  | Some row =>
      if tok_used row =? 1 then (false, conn)
      else if negb (String.eqb (tok_action row) action) then (false, conn)
      else if negb (String.eqb (tok_payload_json row)
                      (_canonical_payload payload)) then (false, conn)
      else if tok_expires_at row <? now_token env then (false, conn)
      else (true,
            set_confirm_tokens conn (update_used token (confirm_tokens conn)))
  end.

(** ** AuditLog *)

(** [json.dumps(payload, sort_keys=True)]: the default separators. *)
Definition log_audit (conn : DB) (env : Env) (action role : string)
    (payload : Json.dict) : DB :=
  set_audit_log conn
    (audit_log conn ++
     [{| aud_id := next_rowid (map aud_id (audit_log conn));
         aud_action := action; aud_role := role;
         aud_payload_json := Json.dumps_sorted ", " ": " payload;
         aud_created_at := now_audit env |}]).

(** ** Reserve *)

Record ReserveRequest : Type := {
  rr_sku : string;
  rr_store_id : string;
  rr_qty : Z;
  rr_confirm : bool;
  rr_confirm_token : option string
}.

(** [if payload.confirm_token:] on an [Optional[str]]. *)
Definition token_given (t : option string) : option string :=
  match t with
  | Some s => if PyStr.truthy s then Some s else None
  | None => None
  end.

Definition inv_is (store_id sku : string) (r : InventoryRow) : bool :=
  String.eqb (inv_store_id r) store_id && String.eqb (inv_sku r) sku.

(** [UPDATE inventory SET on_hand = on_hand - ?, reserved = reserved + ?,
    last_updated = ? WHERE store_id = ? AND sku = ?] *)
Definition update_reserve (qty update_time : Z) (store_id sku : string)
    (rows : list InventoryRow) : list InventoryRow :=
  map (fun r =>
         if inv_is store_id sku r then
           {| inv_store_id := inv_store_id r; inv_sku := inv_sku r;
              inv_on_hand := inv_on_hand r - qty;
              inv_reserved := inv_reserved r + qty;
              inv_reorder_point := inv_reorder_point r;
              inv_last_updated := update_time |}
         else r) rows.

Definition reserve_payload (payload : ReserveRequest) : Json.dict :=
  [("sku", Json.JStr (rr_sku payload));
   ("store_id", Json.JStr (rr_store_id payload));
   ("qty", Json.JInt (rr_qty payload))].

(** Lines 589-623: the feasibility check, the update, the audit entry. *)
Definition reserve_apply (conn : DB) (env : Env) (role : string)
    (payload : ReserveRequest) (on_hand : Z) : Result Body * DB :=
  if on_hand <? rr_qty payload then
    (Raise (HTTPException 409
              "Insufficient on_hand inventory to reserve qty"), conn)
  else
    let conn1 :=
      set_inventory conn
        (update_reserve (rr_qty payload) (now_request env)
           (rr_store_id payload) (rr_sku payload) (inventory conn)) in
    match find (inv_is (rr_store_id payload) (rr_sku payload))
            (inventory conn1) with
    | None => (Raise (PyError "TypeError"), conn1)
    | Some updated =>
        let conn2 :=
          log_audit conn1 env "reserve" role
            (reserve_payload payload ++ [("confirmed", Json.JBool true)]) in
        (Return (Reserved (rr_store_id payload) (rr_sku payload)
                   (rr_qty payload) (inv_on_hand updated)
                   (inv_reserved updated) (inv_last_updated updated)),
         conn2)
    end.

Definition reserve_inventory (db : DB) (env : Env) (role : string)
    (payload : ReserveRequest) : Result Body * DB :=
  with_conn db (fun conn =>
    match find (inv_is (rr_store_id payload) (rr_sku payload))
            (inventory conn) with
    | None =>
        (Raise (HTTPException 404 "Inventory row not found for store/SKU"),
         conn)
    | Some row =>
        let on_hand := inv_on_hand row in
        let reserved := inv_reserved row in
        if negb (rr_confirm payload) then
          match token_given (rr_confirm_token payload) with
          | Some token =>
              let (token_ok, conn1) :=
                validate_confirmation_token conn env token "reserve"
                  (reserve_payload payload) in
              if negb token_ok then
                (Raise (HTTPException 400
                          "Invalid or expired confirm_token"), conn1)
              else reserve_apply conn1 env role payload on_hand
          | None =>
              match issue_confirmation_token conn env "reserve"
                      (reserve_payload payload)
                      (confirm_token_ttl_seconds env) with
              | None => (Raise (PyError "IntegrityError"), conn)
              | Some ((token, expires_at), conn1) =>
                  (Return (ReservePreview token expires_at
                             (rr_qty payload <=? on_hand) on_hand reserved
                             (on_hand - rr_qty payload)
                             (reserved + rr_qty payload)), conn1)
              end
          end
        else reserve_apply conn env role payload on_hand
    end).

(** ** Transfer *)

Record TransferRequest : Type := {
  tq_from_store : string;
  tq_to_store : string;
  tq_sku : string;
  tq_qty : Z;
  tq_confirm : bool;
  tq_confirm_token : option string
}.

Definition transfer_payload (payload : TransferRequest) : Json.dict :=
  [("from_store", Json.JStr (tq_from_store payload));
   ("to_store", Json.JStr (tq_to_store payload));
   ("sku", Json.JStr (tq_sku payload));
   ("qty", Json.JInt (tq_qty payload))].

(** Lines 693-744: the feasibility check, the two inserts, the audit
    entry.  The foreign keys of the inserted rows name a store and a SKU of
    an inventory row that was just read, so they hold. *)
Definition transfer_apply (conn : DB) (env : Env) (role : string)
    (payload : TransferRequest) (source_on_hand : Z) : Result Body * DB :=
  if source_on_hand <? tq_qty payload then
    (Raise (HTTPException 409
              "Insufficient source on_hand inventory for transfer"), conn)
  else
    let created_at := now_created env in
    let expected_date := date_of (now_expected env + 2 * day_usec) in
    let transfer_id := next_rowid (map tr_transfer_id (transfers conn)) in
    let conn1 :=
      set_transfers conn
        (transfers conn ++
         [{| tr_transfer_id := transfer_id;
             tr_from_store := tq_from_store payload;
             tr_to_store := tq_to_store payload;
             tr_sku := tq_sku payload; tr_qty := tq_qty payload;
             tr_status := "pending"; tr_created_at := created_at;
             tr_created_by_role := role |}]) in
    let conn2 :=
      set_inbound_transfers conn1
        (inbound_transfers conn1 ++
         [{| ib_inbound_id :=
               next_rowid (map ib_inbound_id (inbound_transfers conn1));
             ib_transfer_id := transfer_id;
             ib_store_id := tq_to_store payload;
             ib_sku := tq_sku payload; ib_qty := tq_qty payload;
             ib_expected_date := expected_date;
             ib_status := "inbound_pending" |}]) in
    let conn3 :=
      log_audit conn2 env "transfer" role
        (transfer_payload payload ++ [("confirmed", Json.JBool true)]) in
    (Return (TransferCreated transfer_id (tq_from_store payload)
               (tq_to_store payload) (tq_sku payload) (tq_qty payload)
               "inbound_pending" expected_date), conn3).

Definition create_transfer (db : DB) (env : Env) (role : string)
    (payload : TransferRequest) : Result Body * DB :=
  if negb (String.eqb role "merch") then
    (Raise (HTTPException 403 "Only merch role can create transfers"), db)
  else if String.eqb (tq_from_store payload) (tq_to_store payload) then
    (Raise (HTTPException 400 "from_store and to_store must differ"), db)
  else
  with_conn db (fun conn =>
    let source_row :=
      find (inv_is (tq_from_store payload) (tq_sku payload))
        (inventory conn) in
    let target_row :=
      find (inv_is (tq_to_store payload) (tq_sku payload))
        (inventory conn) in
    match source_row, target_row with
    | None, _ =>
        (Raise (HTTPException 404 "Source inventory row not found"), conn)
    | Some _, None =>
        (Raise (HTTPException 404 "Target inventory row not found"), conn)
    | Some src, Some _ =>
        let source_on_hand := inv_on_hand src in
        if negb (tq_confirm payload) then
          match token_given (tq_confirm_token payload) with
          | Some token =>
              let (token_ok, conn1) :=
                validate_confirmation_token conn env token "transfer"
                  (transfer_payload payload) in
              if negb token_ok then
                (Raise (HTTPException 400
                          "Invalid or expired confirm_token"), conn1)
              else transfer_apply conn1 env role payload source_on_hand
          | None =>
              match issue_confirmation_token conn env "transfer"
                      (transfer_payload payload)
                      (confirm_token_ttl_seconds env) with
              | None => (Raise (PyError "IntegrityError"), conn)
              | Some ((token, expires_at), conn1) =>
                  (Return (TransferPreview token expires_at
                             (tq_qty payload <=? source_on_hand)
                             source_on_hand), conn1)
              end
          end
        else transfer_apply conn env role payload source_on_hand
    end).

(** ** Tickets *)

Record TicketCreateRequest : Type := {
  tc_store_id : string;
  tc_category : string;
  tc_severity : string;
  tc_description : string
}.

Module Sql.

(** [SUBSTR(s, 5)]: from the fifth character to the end. *)
Fixpoint drop (n : nat) (s : string) : string :=
  match n, s with
  | S k, String _ r => drop k r
  | _, _ => s
  end.

Definition substr5 (s : string) : string := drop 4 s.

Definition is_space (c : ascii) : bool :=
  let n := PyStr.code c in (n =? 32) || ((9 <=? n) && (n <=? 13)).

Fixpoint skip_spaces (s : string) : string :=
  match s with
  | String c r => if is_space c then skip_spaces r else s
  | EmptyString => s
  end.

Definition is_digit (c : ascii) : bool :=
  let n := PyStr.code c in (48 <=? n) && (n <=? 57).

(** The value of the longest prefix of decimal digits, after [acc]. *)
Fixpoint parse_digits (acc : Z) (s : string) : Z :=
  match s with
  | String c r =>
      if is_digit c then parse_digits (10 * acc + (PyStr.code c - 48)) r
      else acc
  | EmptyString => acc
  end.

Definition int64_min : Z := - 2 ^ 63.
Definition int64_max : Z := 2 ^ 63 - 1.

Definition clamp64 (z : Z) : Z := Z.max int64_min (Z.min int64_max z).

(** [CAST(s AS INTEGER)] on TEXT: leading spaces skipped, an optional
    sign, the longest prefix of digits (0 when there is none), saturating
    at the 64-bit bounds. *)
Definition cast_integer (s : string) : Z :=
  match skip_spaces s with
  | String "-" r => clamp64 (- parse_digits 0 r)
  | String "+" r => clamp64 (parse_digits 0 r)
  | t => clamp64 (parse_digits 0 t)
  end.

(** [COALESCE(MAX(x), 0)] over the rows. *)
Definition coalesce_max (xs : list Z) : Z :=
  match xs with
  | [] => 0
  | x :: r => fold_left Z.max r x
  end.

End Sql.

Definition ticket_suffix (t : TicketRow) : Z :=
  Sql.cast_integer (Sql.substr5 (tk_ticket_id t)).

(** [SELECT COALESCE(MAX(CAST(SUBSTR(ticket_id, 5) AS INTEGER)), 0)] *)
Definition max_existing (rows : list TicketRow) : Z :=
  Sql.coalesce_max (map ticket_suffix rows).

Definition next_ticket_id (rows : list TicketRow) : string :=
  String.append "TCKT" (PyStr.format_04d (max_existing rows + 1)).

Definition store_is (store_id : string) (r : StoreRow) : bool :=
  String.eqb (st_store_id r) store_id.

Definition ticket_is (ticket_id : string) (r : TicketRow) : bool :=
  String.eqb (tk_ticket_id r) ticket_id.

Definition create_ticket (db : DB) (env : Env) (role : string)
    (payload : TicketCreateRequest) : Result Body * DB :=
  with_conn db (fun conn =>
    match find (store_is (tc_store_id payload)) (stores conn) with
    | None =>
        (Raise (HTTPException 404
                  (String.append "Store not found: " (tc_store_id payload))),
         conn)
    | Some _ =>
        let ticket_id := next_ticket_id (tickets conn) in
        let opened_date := date_of (now_created env) in
        let summary := PyStr.take 80 (tc_description payload) in
        if existsb (ticket_is ticket_id) (tickets conn) then
          (Raise (PyError "IntegrityError"), conn)
        else
          let conn1 :=
            set_tickets conn
              (tickets conn ++
               [{| tk_ticket_id := ticket_id; tk_opened_date := opened_date;
                   tk_store_id := tc_store_id payload;
                   tk_category := tc_category payload;
                   tk_summary := summary;
                   tk_severity := tc_severity payload;
                   tk_status := "open"; tk_channel := "api";
                   tk_description := tc_description payload |}]) in
          let conn2 :=
            log_audit conn1 env "create_ticket" role
              [("ticket_id", Json.JStr ticket_id);
               ("store_id", Json.JStr (tc_store_id payload));
               ("category", Json.JStr (tc_category payload));
               ("severity", Json.JStr (tc_severity payload))] in
          (Return (TicketCreated ticket_id opened_date (tc_store_id payload)
                     (tc_category payload) (tc_severity payload) "open"),
           conn2)
    end).

(** ** The HTTP application: middleware, request validation, routes *)

Definition VALID_ROLES : list string := ["associate"; "merch"; "support"].

Inductive Request : Type :=
| PostReserve (body : ReserveRequest)
| PostTransfer (body : TransferRequest)
| PostTickets (body : TicketCreateRequest).

(** The constraints of the request models: [qty: int = Field(gt=0)] and
    [description: str = Field(min_length=1)]. *)
Definition request_valid (r : Request) : bool :=
  match r with
  | PostReserve b => 0 <? rr_qty b
  | PostTransfer b => 0 <? tq_qty b
  | PostTickets b => 1 <=? PyStr.len (tc_description b)
  end.

(** [role_auth_middleware], then FastAPI's validation of the body (422),
    then the handler. *)
Definition app (db : DB) (env : Env) (x_demo_role : option string)
    (r : Request) : Result Body * DB :=
  match x_demo_role with
  | None =>
      (Raise (HTTPException 401 "Missing or invalid X-DEMO-ROLE header"), db)
  | Some role =>
      if negb (PyStr.mem role VALID_ROLES) then
        (Raise (HTTPException 401 "Missing or invalid X-DEMO-ROLE header"),
         db)
      else if negb (request_valid r) then
        (Raise (HTTPException 422 "Unprocessable Entity"), db)
      else
        match r with
        | PostReserve b => reserve_inventory db env role b
        | PostTransfer b => create_transfer db env role b
        | PostTickets b => create_ticket db env role b
        end
  end.

(** ** The action layer of retail_mcp *)

Module Mcp.

Definition MIN_QTY : Z := 1.
Definition MAX_QTY : Z := 20.

Inductive ActionExn : Type :=
| ValueError (msg : string)
| RuntimeError (status_code : Z) (detail : string).

Inductive ActionResult : Type :=
| ActionRaise (e : ActionExn)
| ActionOk (upstream_status : Z) (data : Body).

Definition _validate_role (role : string) : ActionExn + string :=
  let normalized := PyStr.strip (PyStr.lower role) in
  if negb (PyStr.mem normalized VALID_ROLES) then
    inl (ValueError (String.append "Invalid role '" (String.append role "'.")))
  else inr normalized.

(** [known_skus()] is the set of SKUs of products.csv, read once. *)
Definition _validate_sku (known_skus : list string) (sku : string)
  : option ActionExn :=
  if negb (PyStr.mem sku known_skus) then
    Some (ValueError (String.append "Unknown SKU '" (String.append sku "'.")))
  else None.

Definition _validate_qty (qty : Z) : option ActionExn :=
  if (qty <? MIN_QTY) || (MAX_QTY <? qty) then
    Some (ValueError
            (String.append "qty must be between 1 and 20. Received "
               (String.append (PyStr.str_int qty) ".")))
  else None.

(** The status line of a returned body: 202 for the previews
    ([JSONResponse(status_code=202)]), 201 for [/tickets], 200 otherwise. *)
Definition status_of (b : Body) : Z :=
  match b with
  | ReservePreview _ _ _ _ _ _ _ => 202
  | TransferPreview _ _ _ _ => 202
  | TicketCreated _ _ _ _ _ _ => 201
  | _ => 200
  end.

(** [_http_json] followed by [_with_status]: the request reaches the
    application with the role as its X-DEMO-ROLE header; a 4xx or 5xx
    answer is [urllib]'s [HTTPError], re-raised as [RuntimeError]. *)
Definition _http_json (db : DB) (env : Env) (role : string) (r : Request)
  : ActionResult * DB :=
  match app db env (Some role) r with
  | (Return b, db') => (ActionOk (status_of b) b, db')
  | (Raise (HTTPException c d), db') => (ActionRaise (RuntimeError c d), db')
  | (Raise (PyError _), db') =>
      (ActionRaise (RuntimeError 500 "Internal Server Error"), db')
  end.

Definition reserve_item_action (known_skus : list string) (db : DB)
    (env : Env) (sku store_id : string) (qty : Z) (confirm : bool)
    (role : string) : ActionResult * DB :=
  match _validate_role role with
  | inl e => (ActionRaise e, db)
  | inr normalized_role =>
      match _validate_sku known_skus sku with
      | Some e => (ActionRaise e, db)
      | None =>
          match _validate_qty qty with
          | Some e => (ActionRaise e, db)
          | None =>
              _http_json db env normalized_role
                (PostReserve
                   {| rr_sku := sku; rr_store_id := store_id; rr_qty := qty;
                      rr_confirm := confirm; rr_confirm_token := None |})
          end
      end
  end.

Definition create_transfer_action (known_skus : list string) (db : DB)
    (env : Env) (from_store to_store sku : string) (qty : Z)
    (confirm : bool) (role : string) : ActionResult * DB :=
  match _validate_role role with
  | inl e => (ActionRaise e, db)
  | inr normalized_role =>
      if negb (String.eqb normalized_role "merch") then
        (ActionRaise (ValueError "create_transfer requires role=merch."), db)
      else
        match _validate_sku known_skus sku with
        | Some e => (ActionRaise e, db)
        | None =>
            match _validate_qty qty with
            | Some e => (ActionRaise e, db)
            | None =>
                _http_json db env normalized_role
                  (PostTransfer
                     {| tq_from_store := from_store; tq_to_store := to_store;
                        tq_sku := sku; tq_qty := qty; tq_confirm := confirm;
                        tq_confirm_token := None |})
            end
        end
  end.

Definition create_ticket_action (db : DB) (env : Env)
    (store_id category severity description role : string)
  : ActionResult * DB :=
  match _validate_role role with
  | inl e => (ActionRaise e, db)
  | inr normalized_role =>
      if negb (PyStr.truthy (PyStr.strip description)) then
        (ActionRaise (ValueError "description must not be empty."), db)
      else
        _http_json db env normalized_role
          (PostTickets
             {| tc_store_id := store_id; tc_category := category;
                tc_severity := severity; tc_description := description |})
  end.

End Mcp.

(** ** Inventory lookup

    Distances are [float] in the source.  Here they are real numbers:
    [math.sin], [math.cos], [math.sqrt] and [math.atan2] are the functions
    of real analysis and rounding error is not modelled. *)

Module Lookup.

#[local] Open Scope R_scope.

(** A row of the JOIN of inventory and stores for one SKU.  SQL leaves
    the order of the rows open: the handler is modelled on the list
    [fetchall()] returns. *)
Record Row : Type := {
  store_id : string;
  store_name : string;
  city : string;
  state : string;
  latitude : R;
  longitude : R;
  on_hand : Z;
  reserved : Z;
  last_updated : Z
}.

Record BaseStore : Type := {
  base_store_id : string;
  base_store_name : string;
  base_latitude : R;
  base_longitude : R
}.

(** An entry of the [stores] list of the answer. *)
Record Item : Type := {
  item_store_id : string;
  item_store_name : string;
  item_city : string;
  item_state : string;
  distance_miles : R;
  item_on_hand : Z;
  item_reserved : Z;
  available : Z;
  item_last_updated : Z
}.

(** [math.radians] *)
Definition radians (deg : R) : R := deg * (PI / 180).

(** [math.atan2(y, x)] *)
Definition atan2 (y x : R) : R :=
  if Rlt_dec 0 x then atan (y / x)
  else if Rlt_dec x 0 then
    if Rle_dec 0 y then atan (y / x) + PI else atan (y / x) - PI
  else if Rlt_dec 0 y then PI / 2
  else if Rlt_dec y 0 then - (PI / 2)
  else 0.

Definition haversine_miles (lat1 lon1 lat2 lon2 : R) : R :=
  let radius_miles := 39588 / 10 in
  let lat1_rad := radians lat1 in
  let lon1_rad := radians lon1 in
  let lat2_rad := radians lat2 in
  let lon2_rad := radians lon2 in
  let d_lat := lat2_rad - lat1_rad in
  let d_lon := lon2_rad - lon1_rad in
  let a := sin (d_lat / 2) ^ 2
           + cos lat1_rad * cos lat2_rad * sin (d_lon / 2) ^ 2 in
  let c := 2 * atan2 (sqrt a) (sqrt (1 - a)) in
  radius_miles * c.

(** The nearest integer, halves to the even one. *)
Definition round_half_even (x : R) : Z :=
  let f := Int_part x in
  let d := x - IZR f in
  if Rlt_dec d (1 / 2) then f
  else if Rlt_dec (1 / 2) d then (f + 1)%Z
  else if Z.even f then f else (f + 1)%Z.

(** [round(x, 2)] *)
Definition round2 (x : R) : R := IZR (round_half_even (x * 100)) / 100.

Definition distance_to (base : BaseStore) (row : Row) : R :=
  haversine_miles (base_latitude base) (base_longitude base)
    (latitude row) (longitude row).

Definition item_of (base : BaseStore) (row : Row) : Item :=
  {| item_store_id := store_id row;
     item_store_name := store_name row;
     item_city := city row;
     item_state := state row;
     distance_miles := round2 (distance_to base row);
     item_on_hand := on_hand row;
     item_reserved := reserved row;
     available := (on_hand row - reserved row)%Z;
     item_last_updated := last_updated row |}.

(** The loop that fills [nearby]. *)
Fixpoint collect (base : BaseStore) (radius_miles : R) (rows : list Row)
  : list Item :=
  match rows with
  | [] => []
  | row :: rest =>
      if Rle_dec (distance_to base row) radius_miles
      then item_of base row :: collect base radius_miles rest
      else collect base radius_miles rest
  end.

(** [nearby.sort(key=lambda item: item["distance_miles"])]: a stable
    sort on the key, written as an insertion sort; each item goes behind
    the items with a smaller key and before the others. *)
Fixpoint insert (x : Item) (l : list Item) : list Item :=
  match l with
  | [] => [x]
  | y :: r =>
      if Rlt_dec (distance_miles y) (distance_miles x)
      then y :: insert x r
      else x :: y :: r
  end.

Definition sort (l : list Item) : list Item := fold_right insert [] l.

Definition nearby (base : BaseStore) (radius_miles : R) (rows : list Row)
  : list Item :=
  sort (collect base radius_miles rows).

Inductive Answer : Type :=
| NotFound (detail : string)
| Found (sku query_store_id : string) (radius_miles : R)
    (stores : list Item).

(** [inventory_lookup] after the two queries: [base_store] is the row of
    the query store, [rows] the rows of the JOIN. *)
Definition inventory_lookup (sku store_id : string)
    (base_store : option BaseStore) (rows : list Row) (radius_miles : R)
  : Answer :=
  match base_store with
  | None => NotFound (String.append "Store not found: " store_id)
  | Some base =>
      match rows with
      | [] => NotFound (String.append "SKU not found in inventory: " sku)
      | _ => Found sku store_id radius_miles (nearby base radius_miles rows)
      end
  end.


End Lookup.

(** ** A sample database: the rows of the demo pack the tests rely on *)

Module Demo.

Definition sku : string := "AST-LIN-BLZ-SND-M".

Definition store (i n c s : string) : StoreRow :=
  {| st_store_id := i; st_store_name := n; st_city := c; st_state := s;
     st_region := "Northeast" |}.

Definition tee : string := "MRD-CRW-TEE-WHT-M".

Definition inv (i k : string) (on_hand reserved : Z) : InventoryRow :=
  {| inv_store_id := i; inv_sku := k; inv_on_hand := on_hand;
     inv_reserved := reserved; inv_reorder_point := 5;
     inv_last_updated := 0 |}.

Definition db : DB :=
  {| stores := [store "ST001" "SoHo Flagship" "New York" "NY";
                store "ST002" "Chelsea Market" "New York" "NY";
                store "ST003" "Brooklyn Heights" "Brooklyn" "NY"];
     inventory := [inv "ST001" sku 0 0; inv "ST001" tee 30 2;
                   inv "ST002" sku 4 0; inv "ST003" sku 2 1];
     confirm_tokens := []; audit_log := []; transfers := [];
     inbound_transfers := []; tickets := [] |}.

Definition known_skus : list string := [sku; tee].

Definition env : Env :=
  {| confirm_token_ttl_seconds := 900;
     token_urlsafe := "q3Zk0V7cJmXh2o1sYb8TtE4uWnR5LdPa";
     now_request := 1000 * usec; now_token := 1001 * usec;
     now_created := 1002 * usec; now_expected := 1003 * usec;
     now_audit := 1004 * usec |}.

(** A later request: the clock has moved on, the next random token. *)
Definition env2 : Env :=
  {| confirm_token_ttl_seconds := 900;
     token_urlsafe := "Hn5rC1dQeX9fU2kMzB6wGyS0vJ7aTo3i";
     now_request := 1060 * usec; now_token := 1061 * usec;
     now_created := 1062 * usec; now_expected := 1063 * usec;
     now_audit := 1064 * usec |}.

Definition reserve_req (store_id : string) (qty : Z) (confirm : bool)
    (tok : option string) : ReserveRequest :=
  {| rr_sku := sku; rr_store_id := store_id; rr_qty := qty;
     rr_confirm := confirm; rr_confirm_token := tok |}.

Definition transfer_req (qty : Z) (confirm : bool) (tok : option string)
  : TransferRequest :=
  {| tq_from_store := "ST002"; tq_to_store := "ST001"; tq_sku := sku;
     tq_qty := qty; tq_confirm := confirm; tq_confirm_token := tok |}.

Definition ticket_req : TicketCreateRequest :=
  {| tc_store_id := "ST001"; tc_category := "POS Sync Failure";
     tc_severity := "high";
     tc_description :=
       "POS synchronization is failing during evening rush window." |}.

Definition token : string := token_urlsafe env.

(** The database after a preview of reserving one unit at ST002, and
    after a preview of reserving five, one more than is on hand. *)
Definition db_preview_1 : DB :=
  snd (reserve_inventory db env "associate" (reserve_req "ST002" 1 false None)).

Definition db_preview_5 : DB :=
  snd (reserve_inventory db env "associate" (reserve_req "ST002" 5 false None)).

End Demo.

(** ** Predicates of the statements *)

(** The ledger holds a row for the token that is unused, bound to the
    action and to the canonical form of the payload, and not expired at
    the reading of the clock. *)
Definition redeemable (db : DB) (env : Env) (token action : string)
    (payload : Json.dict) : Prop :=
  exists row,
    find (token_is token) (confirm_tokens db) = Some row /\
    tok_used row = 0 /\
    tok_action row = action /\
    tok_payload_json row = _canonical_payload payload /\
    now_token env <= tok_expires_at row.

(** Every used flag is 0 or 1: the only values the service writes. *)
Definition ledger_ok (db : DB) : Prop :=
  Forall (fun r => tok_used r = 0 \/ tok_used r = 1) (confirm_tokens db).

(** The request presents a token and its redemption succeeds. *)
Definition redeems (db : DB) (env : Env) (confirm_token : option string)
    (action : string) (payload : Json.dict) : Prop :=
  exists t,
    token_given confirm_token = Some t /\
    fst (validate_confirmation_token db env t action payload) = true.

(** The request is applied: explicit confirm, or a token that redeems. *)
Definition applied (confirm : bool) (db : DB) (env : Env)
    (confirm_token : option string) (action : string)
    (payload : Json.dict) : Prop :=
  confirm = true \/ redeems db env confirm_token action payload.

(** The connection on which the guarded mutation runs. *)
Definition gate_conn (db : DB) (env : Env) (confirm : bool)
    (confirm_token : option string) (action : string)
    (payload : Json.dict) : DB :=
  if confirm then db
  else match token_given confirm_token with
       | Some t => snd (validate_confirmation_token db env t action payload)
       | None => db
       end.

(** Empty, or whitespace only. *)
Fixpoint blank (s : string) : bool :=
  match s with
  | EmptyString => true
  | String c r => PyStr.isspace c && blank r
  end.

(** Decimal text. *)

Fixpoint all_digits (s : string) : bool :=
  match s with
  | EmptyString => true
  | String c r => Sql.is_digit c && all_digits r
  end.

(** The value reached from [a] by reading the characters of [s] as
    decimal digits. *)
Fixpoint eat (a : Z) (s : string) : Z :=
  match s with
  | EmptyString => a
  | String c r => eat (10 * a + (PyStr.code c - 48)) r
  end.

(** The order of the keys of a sorted dictionary. *)
Definition key_lt (a b : string * Json.value) : Prop :=
  String.ltb (fst a) (fst b) = true.


(** A query store on the equator and inventory rows of stores on the
    equator, at a longitude in degrees. *)
Definition equator_base : Lookup.BaseStore :=
  {| Lookup.base_store_id := "ST001"; Lookup.base_store_name := "Origin";
     Lookup.base_latitude := 0%R; Lookup.base_longitude := 0%R |}.

Definition equator_row (i : string) (lon : R) (n : Z) : Lookup.Row :=
  {| Lookup.store_id := i; Lookup.store_name := i; Lookup.city := "Quito";
     Lookup.state := "EC"; Lookup.latitude := 0%R; Lookup.longitude := lon;
     Lookup.on_hand := n; Lookup.reserved := 0; Lookup.last_updated := 0 |}.

(** ** Outcomes and invariants of a request *)

Definition is_preview (b : Body) : bool :=
  match b with
  | ReservePreview _ _ _ _ _ _ _ => true
  | TransferPreview _ _ _ _ => true
  | _ => false
  end.

(** The body of an applied mutation. *)
Definition is_applied (b : Body) : bool :=
  match b with
  | Reserved _ _ _ _ _ _ => true
  | TransferCreated _ _ _ _ _ _ _ => true
  | TicketCreated _ _ _ _ _ _ => true
  | _ => false
  end.

(** The row [issue_confirmation_token] inserts. *)
Definition issued_row (env : Env) (action : string) (payload : Json.dict)
  : TokenRow :=
  {| tok_token := token_urlsafe env; tok_action := action;
     tok_payload_json := _canonical_payload payload;
     tok_expires_at :=
       now_token env + confirm_token_ttl_seconds env * usec;
     tok_used := 0 |}.

(** The connection after the mode branch of an applied request: the
    database itself, or the database with one token marked used. *)
Definition redeemed (db conn : DB) : Prop :=
  conn = db \/
  exists t, conn = set_confirm_tokens db (update_used t (confirm_tokens db)).

Definition reserved_row (qty update_time : Z) (r : InventoryRow)
  : InventoryRow :=
  {| inv_store_id := inv_store_id r; inv_sku := inv_sku r;
     inv_on_hand := inv_on_hand r - qty;
     inv_reserved := inv_reserved r + qty;
     inv_reorder_point := inv_reorder_point r;
     inv_last_updated := update_time |}.

(** What a request does to the database, by the kind of its answer. *)
Inductive Effect (db : DB) (env : Env) : Result Body -> DB -> Prop :=
| eff_error (e : Exn) :
    Effect db env (Raise e) db
| eff_preview (b : Body) (action : string) (payload : Json.dict) :
    is_preview b = true ->
    existsb (token_is (token_urlsafe env)) (confirm_tokens db) = false ->
    Effect db env (Return b)
      (set_confirm_tokens db
         (confirm_tokens db ++ [issued_row env action payload]))
| eff_reserved (role : string) (p : ReserveRequest) (row : InventoryRow)
    (conn : DB) :
    redeemed db conn ->
    find (inv_is (rr_store_id p) (rr_sku p)) (inventory db) = Some row ->
    0 < rr_qty p <= inv_on_hand row ->
    Effect db env
      (Return (Reserved (rr_store_id p) (rr_sku p) (rr_qty p)
                 (inv_on_hand row - rr_qty p) (inv_reserved row + rr_qty p)
                 (now_request env)))
      (log_audit
         (set_inventory conn
            (update_reserve (rr_qty p) (now_request env) (rr_store_id p)
               (rr_sku p) (inventory db)))
         env "reserve" role
         (reserve_payload p ++ [("confirmed", Json.JBool true)]))
| eff_transfer (p : TransferRequest) (src tgt : InventoryRow) (conn : DB) :
    redeemed db conn ->
    tq_from_store p <> tq_to_store p ->
    find (inv_is (tq_from_store p) (tq_sku p)) (inventory db) = Some src ->
    find (inv_is (tq_to_store p) (tq_sku p)) (inventory db) = Some tgt ->
    0 < tq_qty p <= inv_on_hand src ->
    Effect db env
      (fst (transfer_apply conn env "merch" p (inv_on_hand src)))
      (snd (transfer_apply conn env "merch" p (inv_on_hand src)))
| eff_ticket (role : string) (p : TicketCreateRequest) (tk : TicketRow) :
    existsb (ticket_is (next_ticket_id (tickets db))) (tickets db) = false ->
    tk = {| tk_ticket_id := next_ticket_id (tickets db);
            tk_opened_date := date_of (now_created env);
            tk_store_id := tc_store_id p; tk_category := tc_category p;
            tk_summary := PyStr.take 80 (tc_description p);
            tk_severity := tc_severity p; tk_status := "open";
            tk_channel := "api"; tk_description := tc_description p |} ->
    Effect db env
      (Return (TicketCreated (tk_ticket_id tk) (tk_opened_date tk)
                 (tc_store_id p) (tc_category p) (tc_severity p) "open"))
      (log_audit (set_tickets db (tickets db ++ [tk])) env "create_ticket"
         role
         [("ticket_id", Json.JStr (tk_ticket_id tk));
          ("store_id", Json.JStr (tc_store_id p));
          ("category", Json.JStr (tc_category p));
          ("severity", Json.JStr (tc_severity p))]).

(** A sequence of requests, each with what it reads from outside. *)
Fixpoint run (db : DB) (trace : list (Env * option string * Request)) : DB :=
  match trace with
  | [] => db
  | (env, h, r) :: rest => run (snd (app db env h r)) rest
  end.

Definition inv_key (r : InventoryRow) : string * string :=
  (inv_store_id r, inv_sku r).

(** The primary key of inventory holds and no quantity is negative. *)
Definition stock_ok (db : DB) : Prop :=
  NoDup (map inv_key (inventory db)) /\
  Forall (fun r => 0 <= inv_on_hand r /\ 0 <= inv_reserved r) (inventory db).

(** The ids of the audit log grow along the table. *)
Definition audit_ids_ok (db : DB) : Prop :=
  StronglySorted Z.lt (map aud_id (audit_log db)).

(** Every inbound row names a transfer of the table, whose ids are
    distinct. *)
Definition transfers_ok (db : DB) : Prop :=
  NoDup (map tr_transfer_id (transfers db)) /\
  Forall (fun ib =>
            In (ib_transfer_id ib) (map tr_transfer_id (transfers db)))
    (inbound_transfers db).


(** ** The audit log endpoint *)

(** An entry of the answer of [get_audit_log]; [J] is the type of the
    values [json.loads] returns. *)
Record AuditEntry (J : Type) : Type := {
  ae_id : Z;
  ae_action : string;
  ae_role : string;
  ae_payload : J;
  ae_created_at : Z
}.
Arguments ae_id {J} _.
Arguments ae_action {J} _.
Arguments ae_role {J} _.
Arguments ae_payload {J} _.
Arguments ae_created_at {J} _.

(** [ORDER BY id ASC] *)
Fixpoint insert_by_id (x : AuditRow) (l : list AuditRow) : list AuditRow :=
  match l with
  | [] => [x]
  | y :: r =>
      if aud_id y <? aud_id x then y :: insert_by_id x r else x :: y :: r
  end.

Definition order_by_id (rows : list AuditRow) : list AuditRow :=
  fold_right insert_by_id [] rows.

Definition audit_entry {J : Type} (json_loads : string -> J) (row : AuditRow)
  : AuditEntry J :=
  {| ae_id := aud_id row; ae_action := aud_action row;
     ae_role := aud_role row;
     ae_payload := json_loads (aud_payload_json row);
     ae_created_at := aud_created_at row |}.

(** [get_audit_log]: the pair of ["count"] and ["entries"].  [json.loads]
    is a parameter; the rows it reads were written by [json.dumps]. *)
Definition get_audit_log {J : Type} (json_loads : string -> J) (db : DB)
  : Z * list (AuditEntry J) :=
  let rows := order_by_id (audit_log db) in
  let entries := map (audit_entry json_loads) rows in
  (Z.of_nat (List.length entries), entries).

(** The action an applied mutation is logged under. *)
Definition action_of (b : Body) : string :=
  match b with
  | Reserved _ _ _ _ _ _ => "reserve"
  | TransferCreated _ _ _ _ _ _ _ => "transfer"
  | TicketCreated _ _ _ _ _ _ => "create_ticket"
  | _ => EmptyString
  end.

(** The rows a feasible transfer inserts. *)
Definition transfer_row (conn : DB) (env : Env) (role : string)
    (p : TransferRequest) : TransferRow :=
  {| tr_transfer_id := next_rowid (map tr_transfer_id (transfers conn));
     tr_from_store := tq_from_store p; tr_to_store := tq_to_store p;
     tr_sku := tq_sku p; tr_qty := tq_qty p; tr_status := "pending";
     tr_created_at := now_created env; tr_created_by_role := role |}.

Definition inbound_row (conn : DB) (env : Env) (p : TransferRequest)
  : InboundRow :=
  {| ib_inbound_id :=
       next_rowid (map ib_inbound_id (inbound_transfers conn));
     ib_transfer_id := next_rowid (map tr_transfer_id (transfers conn));
     ib_store_id := tq_to_store p; ib_sku := tq_sku p; ib_qty := tq_qty p;
     ib_expected_date := date_of (now_expected env + 2 * day_usec);
     ib_status := "inbound_pending" |}.

(** ** Decoding, to show that the canonical payload binds its fields *)

Definition hex_val (c : ascii) : Z :=
  let n := PyStr.code c in if n <=? 57 then n - 48 else n - 87.

(** The first character of an escaped text and the rest: the inverse of
    [Json.escape_char]. *)
Definition decode1 (s : string) : option (ascii * string) :=
  match s with
  | String c r =>
      if PyStr.code c =? 92 then
        match r with
        | String e r2 =>
            let n := PyStr.code e in
            if n =? 34 then Some (PyStr.dquote, r2)
            else if n =? 92 then Some (PyStr.bslash, r2)
            else if n =? 98 then Some (PyStr.chr 8, r2)
            else if n =? 102 then Some (PyStr.chr 12, r2)
            else if n =? 110 then Some (PyStr.chr 10, r2)
            else if n =? 114 then Some (PyStr.chr 13, r2)
            else if n =? 116 then Some (PyStr.chr 9, r2)
            else
              match r2 with
              | String _ (String _ (String h1 (String h2 r3))) =>
                  Some (PyStr.chr (16 * hex_val h1 + hex_val h2), r3)
              | _ => None
              end
        | EmptyString => None
        end
      else Some (c, r)
  | EmptyString => None
  end.

(** The characters of the decimal text of an integer. *)
Definition int_char (c : ascii) : bool :=
  Sql.is_digit c || (PyStr.code c =? 45).

Fixpoint all_int_chars (s : string) : bool :=
  match s with
  | EmptyString => true
  | String c r => int_char c && all_int_chars r
  end.

(** A ticket as [create_ticket] writes it, for a store of [sts]. *)
Definition api_ticket (sts : list StoreRow) (tk : TicketRow) : Prop :=
  existsb (store_is (tk_store_id tk)) sts = true /\
  tk_status tk = "open" /\ tk_channel tk = "api" /\
  1 <= PyStr.len (tk_description tk) /\
  tk_summary tk = PyStr.take 80 (tk_description tk).

(** A preview at ST002, its confirmation with the token, then a ticket. *)
Definition demo_trace : list (Env * option string * Request) :=
  [(Demo.env, Some "associate",
    PostReserve (Demo.reserve_req "ST002" 1 false None));
   (Demo.env2, Some "associate",
    PostReserve (Demo.reserve_req "ST002" 1 false (Some Demo.token)));
   (Demo.env2, Some "support", PostTickets Demo.ticket_req)].

(** ** Lemmas on the tables *)

Lemma find_update_reserve (qty t : Z) (store_id sku : string)
    (rows : list InventoryRow) (row : InventoryRow) :
  find (inv_is store_id sku) rows = Some row ->
  find (inv_is store_id sku) (update_reserve qty t store_id sku rows) =
    Some {| inv_store_id := inv_store_id row; inv_sku := inv_sku row;
            inv_on_hand := inv_on_hand row - qty;
            inv_reserved := inv_reserved row + qty;
            inv_reorder_point := inv_reorder_point row;
            inv_last_updated := t |}.
Proof.
  induction rows as [|r rows IH]; simpl; [discriminate|].
  destruct (inv_is store_id sku r) eqn:E.
  - intros [= ->]. unfold inv_is at 1. simpl. fold (inv_is store_id sku row).
    now rewrite E.
  - intros H. rewrite E. auto.
Qed.

Lemma validate_frame (db : DB) (env : Env) (t action : string)
    (payload : Json.dict) :
  let db' := snd (validate_confirmation_token db env t action payload) in
  stores db' = stores db /\ inventory db' = inventory db /\
  audit_log db' = audit_log db /\ transfers db' = transfers db /\
  inbound_transfers db' = inbound_transfers db /\ tickets db' = tickets db.
Proof.
  unfold validate_confirmation_token.
  destruct (find (token_is t) (confirm_tokens db)) as [row|]; simpl; auto 10.
  destruct (tok_used row =? 1); simpl; auto 10.
  destruct (negb (tok_action row =? action)%string); simpl; auto 10.
  destruct (negb (tok_payload_json row =? _canonical_payload payload)%string);
    simpl; auto 10.
  destruct (tok_expires_at row <? now_token env); simpl; auto 10.
Qed.

Lemma validate_false_unchanged (db : DB) (env : Env) (t action : string)
    (payload : Json.dict) :
  fst (validate_confirmation_token db env t action payload) = false ->
  snd (validate_confirmation_token db env t action payload) = db.
Proof.
  unfold validate_confirmation_token.
  destruct (find (token_is t) (confirm_tokens db)) as [row|]; simpl; auto.
  destruct (tok_used row =? 1); simpl; auto.
  destruct (negb (tok_action row =? action)%string); simpl; auto.
  destruct (negb (tok_payload_json row =? _canonical_payload payload)%string);
    simpl; auto.
  destruct (tok_expires_at row <? now_token env); simpl; auto. discriminate.
Qed.

Lemma validate_true_inv (db : DB) (env : Env) (t action : string)
    (payload : Json.dict) :
  fst (validate_confirmation_token db env t action payload) = true ->
  exists row,
    find (token_is t) (confirm_tokens db) = Some row /\
    tok_used row <> 1 /\ tok_action row = action /\
    tok_payload_json row = _canonical_payload payload /\
    now_token env <= tok_expires_at row /\
    snd (validate_confirmation_token db env t action payload) =
      set_confirm_tokens db (update_used t (confirm_tokens db)).
Proof.
  unfold validate_confirmation_token.
  destruct (find (token_is t) (confirm_tokens db)) as [row|];
    simpl; [|discriminate].
  destruct (tok_used row =? 1) eqn:E1; simpl; [discriminate|].
  destruct (tok_action row =? action)%string eqn:E2; simpl; [|discriminate].
  destruct (tok_payload_json row =? _canonical_payload payload)%string eqn:E3;
    simpl; [|discriminate].
  destruct (tok_expires_at row <? now_token env) eqn:E4; simpl;
    [discriminate|].
  intros _. exists row. repeat split; auto.
  - apply Z.eqb_neq; assumption.
  - apply String.eqb_eq; assumption.
  - apply String.eqb_eq; assumption.
  - apply Z.ltb_ge; assumption.
Qed.

Lemma redeemable_validate (db : DB) (env : Env) (t action : string)
    (payload : Json.dict) :
  redeemable db env t action payload ->
  validate_confirmation_token db env t action payload =
    (true, set_confirm_tokens db (update_used t (confirm_tokens db))).
Proof.
  intros (row & Hf & Hu & Ha & Hp & He).
  unfold validate_confirmation_token. rewrite Hf, Hu. simpl.
  rewrite Ha, Hp, !String.eqb_refl. simpl.
  destruct (tok_expires_at row <? now_token env) eqn:E; [|reflexivity].
  apply Z.ltb_lt in E. lia.
Qed.

Lemma find_update_used (t : string) (rows : list TokenRow) (row : TokenRow) :
  find (token_is t) rows = Some row ->
  find (token_is t) (update_used t rows) = Some (mark_used row).
Proof.
  induction rows as [|r rows IH]; simpl; [discriminate|].
  destruct (token_is t r) eqn:E.
  - intros [= ->]. unfold token_is at 1. simpl. fold (token_is t row).
    now rewrite E.
  - intros H. rewrite E. auto.
Qed.

Lemma find_update_used_other (t t' : string) (rows : list TokenRow) :
  t' <> t ->
  find (token_is t') (update_used t rows) = find (token_is t') rows.
Proof.
  intros Hne. induction rows as [|r rows IH]; simpl; [reflexivity|].
  destruct (token_is t r) eqn:E.
  - unfold token_is at 1. simpl. fold (token_is t' r).
    destruct (token_is t' r) eqn:E'; [|exact IH].
    unfold token_is in E, E'. apply String.eqb_eq in E, E'. congruence.
  - destruct (token_is t' r); [reflexivity|exact IH].
Qed.

Lemma with_conn_raise {A : Type} (db db' : DB) (body : DB -> Result A * DB)
    (e : Exn) :
  with_conn db body = (Raise e, db') -> db' = db.
Proof.
  unfold with_conn. destruct (body db) as [[a|e'] conn]; congruence.
Qed.

(** ** The handlers, by calling mode *)

Lemma gate_conn_frame (db : DB) (env : Env) (confirm : bool)
    (tok : option string) (action : string) (payload : Json.dict) :
  let c := gate_conn db env confirm tok action payload in
  stores c = stores db /\ inventory c = inventory db /\
  audit_log c = audit_log db /\ transfers c = transfers db /\
  inbound_transfers c = inbound_transfers db /\ tickets c = tickets db.
Proof.
  unfold gate_conn. destruct confirm; [simpl; auto 10|].
  destruct (token_given tok) as [t|]; [|simpl; auto 10].
  apply validate_frame.
Qed.

Lemma reserve_inventory_applied (db : DB) (env : Env) (role : string)
    (payload : ReserveRequest) (row : InventoryRow) :
  find (inv_is (rr_store_id payload) (rr_sku payload)) (inventory db)
    = Some row ->
  applied (rr_confirm payload) db env (rr_confirm_token payload) "reserve"
    (reserve_payload payload) ->
  reserve_inventory db env role payload =
    with_conn db (fun _ =>
      reserve_apply
        (gate_conn db env (rr_confirm payload) (rr_confirm_token payload)
           "reserve" (reserve_payload payload))
        env role payload (inv_on_hand row)).
Proof.
  intros Hf Ha. unfold reserve_inventory, with_conn, gate_conn. rewrite Hf.
  destruct (rr_confirm payload) eqn:Ec; simpl; [reflexivity|].
  destruct Ha as [Ha|(t & Ht & Hv)]; [discriminate|].
  rewrite Ht.
  destruct (validate_confirmation_token db env t "reserve"
              (reserve_payload payload)) as [ok conn1].
  simpl in Hv. subst ok. reflexivity.
Qed.

Lemma create_transfer_applied (db : DB) (env : Env) (role : string)
    (payload : TransferRequest) (src tgt : InventoryRow) :
  role = "merch" ->
  tq_from_store payload <> tq_to_store payload ->
  find (inv_is (tq_from_store payload) (tq_sku payload)) (inventory db)
    = Some src ->
  find (inv_is (tq_to_store payload) (tq_sku payload)) (inventory db)
    = Some tgt ->
  applied (tq_confirm payload) db env (tq_confirm_token payload) "transfer"
    (transfer_payload payload) ->
  create_transfer db env role payload =
    with_conn db (fun _ =>
      transfer_apply
        (gate_conn db env (tq_confirm payload) (tq_confirm_token payload)
           "transfer" (transfer_payload payload))
        env role payload (inv_on_hand src)).
Proof.
  intros -> Hne Hs Ht Ha. unfold create_transfer. simpl.
  destruct (String.eqb_spec (tq_from_store payload) (tq_to_store payload))
    as [E|_]; [contradiction|].
  unfold with_conn, gate_conn. rewrite Hs, Ht.
  destruct (tq_confirm payload) eqn:Ec; simpl; [reflexivity|].
  destruct Ha as [Ha|(t & Hg & Hv)]; [discriminate|].
  rewrite Hg.
  destruct (validate_confirmation_token db env t "transfer"
              (transfer_payload payload)) as [ok conn1].
  simpl in Hv. subst ok. reflexivity.
Qed.

(** ** Reserve: the applied mutation *)


Lemma reserve_conflict_aux (db : DB) (env : Env) (role : string)
    (payload : ReserveRequest) (row : InventoryRow) :
  find (inv_is (rr_store_id payload) (rr_sku payload)) (inventory db)
    = Some row ->
  applied (rr_confirm payload) db env (rr_confirm_token payload) "reserve"
    (reserve_payload payload) ->
  inv_on_hand row < rr_qty payload ->
  reserve_inventory db env role payload =
    (Raise (HTTPException 409
              "Insufficient on_hand inventory to reserve qty"), db).
Proof.
  intros Hf Ha Hq.
  rewrite (reserve_inventory_applied db env role payload row Hf Ha).
  unfold with_conn, reserve_apply.
  apply Z.ltb_lt in Hq. now rewrite Hq.
Qed.

(** C3. A reserve that is applied with qty > on_hand fails with 409
    Conflict and leaves the database as it was: the inventory record keeps
    on_hand, reserved and last_updated, and the audit log gains nothing. *)
Theorem reserve_conflict_unchanged (db : DB) (env : Env) (role : string)
    (payload : ReserveRequest) (row : InventoryRow) :
  find (inv_is (rr_store_id payload) (rr_sku payload)) (inventory db)
    = Some row ->
  applied (rr_confirm payload) db env (rr_confirm_token payload) "reserve"
    (reserve_payload payload) ->
  inv_on_hand row < rr_qty payload ->
  exists db',
    reserve_inventory db env role payload =
      (Raise (HTTPException 409
                "Insufficient on_hand inventory to reserve qty"), db') /\
    db' = db /\
    find (inv_is (rr_store_id payload) (rr_sku payload)) (inventory db')
      = Some row /\
    audit_log db' = audit_log db.
Proof.
  intros Hf Ha Hq. exists db.
  rewrite (reserve_conflict_aux db env role payload row Hf Ha Hq). auto.
Qed.

(** ** Token redemption and the guarded mutation *)

Lemma reserve_inventory_raise (db db' : DB) (env : Env) (role : string)
    (payload : ReserveRequest) (e : Exn) :
  reserve_inventory db env role payload = (Raise e, db') -> db' = db.
Proof. unfold reserve_inventory. apply with_conn_raise. Qed.

Lemma create_transfer_raise (db db' : DB) (env : Env) (role : string)
    (payload : TransferRequest) (e : Exn) :
  create_transfer db env role payload = (Raise e, db') -> db' = db.
Proof.
  unfold create_transfer.
  destruct (negb (role =? "merch")%string); [congruence|].
  destruct (tq_from_store payload =? tq_to_store payload)%string;
    [congruence|].
  apply with_conn_raise.
Qed.


(** C4. A reserve or transfer request that carries a redeemable token
    (present, unused, same action, same canonical payload, not expired) and
    whose handler then fails leaves the database as it was before the
    request: the token's row is still there with used = 0, still
    redeemable.  The write of used = 1 and the mutation belong to one
    transaction, which the failure rolls back. *)
Theorem token_unused_when_mutation_fails (db : DB) (env : Env)
    (role : string) :
  (forall (payload : ReserveRequest) (t : string) (e : Exn) (db' : DB),
      rr_confirm payload = false ->
      token_given (rr_confirm_token payload) = Some t ->
      redeemable db env t "reserve" (reserve_payload payload) ->
      reserve_inventory db env role payload = (Raise e, db') ->
      db' = db /\
      (exists row, find (token_is t) (confirm_tokens db') = Some row /\
                   tok_used row = 0) /\
      redeemable db' env t "reserve" (reserve_payload payload)) /\
  (forall (payload : TransferRequest) (t : string) (e : Exn) (db' : DB),
      tq_confirm payload = false ->
      token_given (tq_confirm_token payload) = Some t ->
      redeemable db env t "transfer" (transfer_payload payload) ->
      create_transfer db env role payload = (Raise e, db') ->
      db' = db /\
      (exists row, find (token_is t) (confirm_tokens db') = Some row /\
                   tok_used row = 0) /\
      redeemable db' env t "transfer" (transfer_payload payload)).
Proof.
  split; intros payload t e db' _ _ Hr H.
  - apply reserve_inventory_raise in H. subst db'.
    split; [reflexivity|]. split; [|exact Hr].
    destruct Hr as (row & Hf & Hu & _). eauto.
  - apply create_transfer_raise in H. subst db'.
    split; [reflexivity|]. split; [|exact Hr].
    destruct Hr as (row & Hf & Hu & _). eauto.
Qed.

(** The failure that C4 names does occur: with a redeemable token and
    on_hand < qty the handler has marked the token used on its connection
    when it raises 409. *)
Lemma reserve_token_then_conflict (db : DB) (env : Env) (role : string)
    (payload : ReserveRequest) (t : string) (row : InventoryRow) :
  rr_confirm payload = false ->
  token_given (rr_confirm_token payload) = Some t ->
  redeemable db env t "reserve" (reserve_payload payload) ->
  find (inv_is (rr_store_id payload) (rr_sku payload)) (inventory db)
    = Some row ->
  inv_on_hand row < rr_qty payload ->
  reserve_inventory db env role payload =
    (Raise (HTTPException 409
              "Insufficient on_hand inventory to reserve qty"), db) /\
  exists conn row',
    validate_confirmation_token db env t "reserve" (reserve_payload payload)
      = (true, conn) /\
    find (token_is t) (confirm_tokens conn) = Some row' /\
    tok_used row' = 1.
Proof.
  intros Hc Ht Hr Hf Hq. split.
  - assert (Ha : applied (rr_confirm payload) db env
                   (rr_confirm_token payload) "reserve"
                   (reserve_payload payload)).
    { right. exists t. split; [exact Ht|].
      now rewrite (redeemable_validate _ _ _ _ _ Hr). }
    exact (reserve_conflict_aux db env role payload row Hf Ha Hq).
  - rewrite (redeemable_validate _ _ _ _ _ Hr).
    destruct Hr as (r & Hfind & _).
    eexists; eexists; split; [reflexivity|]. simpl.
    rewrite (find_update_used _ _ _ Hfind). split; reflexivity.
Qed.

(** ** Explicit confirm *)

Lemma reserve_apply_tokens (conn : DB) (env : Env) (role : string)
    (payload : ReserveRequest) (on_hand : Z) :
  confirm_tokens (snd (reserve_apply conn env role payload on_hand)) =
  confirm_tokens conn.
Proof.
  unfold reserve_apply.
  destruct (on_hand <? rr_qty payload); [reflexivity|].
  destruct (find _ _); reflexivity.
Qed.

Lemma transfer_apply_tokens (conn : DB) (env : Env) (role : string)
    (payload : TransferRequest) (on_hand : Z) :
  confirm_tokens (snd (transfer_apply conn env role payload on_hand)) =
  confirm_tokens conn.
Proof.
  unfold transfer_apply.
  destruct (on_hand <? tq_qty payload); reflexivity.
Qed.

Lemma with_conn_tokens {A : Type} (db : DB) (body : DB -> Result A * DB) :
  confirm_tokens (snd (body db)) = confirm_tokens db ->
  confirm_tokens (snd (with_conn db body)) = confirm_tokens db.
Proof.
  unfold with_conn. destruct (body db) as [[a|e] conn]; simpl; auto.
Qed.

Lemma redeemable_ext (db db' : DB) (env : Env) (t action : string)
    (payload : Json.dict) :
  confirm_tokens db' = confirm_tokens db ->
  redeemable db env t action payload ->
  redeemable db' env t action payload.
Proof. unfold redeemable. intros ->. auto. Qed.

(** C10. With confirm=true a supplied confirm_token is ignored, by
    /reserve and by /transfer: the answer and the database after the
    request are those of the same request without the token, the
    confirm_tokens table is left as it was (no used flag changes), and
    every token that was redeemable before the request is redeemable
    after it. *)
Theorem confirm_true_ignores_token (db : DB) (env : Env) (role : string) :
  (forall payload : ReserveRequest,
      rr_confirm payload = true ->
      let out := reserve_inventory db env role payload in
      out = reserve_inventory db env role
              {| rr_sku := rr_sku payload;
                 rr_store_id := rr_store_id payload;
                 rr_qty := rr_qty payload; rr_confirm := true;
                 rr_confirm_token := None |} /\
      confirm_tokens (snd out) = confirm_tokens db /\
      forall env' t action p,
        redeemable db env' t action p ->
        redeemable (snd out) env' t action p) /\
  (forall payload : TransferRequest,
      tq_confirm payload = true ->
      let out := create_transfer db env role payload in
      out = create_transfer db env role
              {| tq_from_store := tq_from_store payload;
                 tq_to_store := tq_to_store payload;
                 tq_sku := tq_sku payload; tq_qty := tq_qty payload;
                 tq_confirm := true; tq_confirm_token := None |} /\
      confirm_tokens (snd out) = confirm_tokens db /\
      forall env' t action p,
        redeemable db env' t action p ->
        redeemable (snd out) env' t action p).
Proof.
  split; intros payload Hc out.
  - assert (Ht : confirm_tokens (snd out) = confirm_tokens db).
    { subst out. unfold reserve_inventory. apply with_conn_tokens.
      destruct (find _ _); [|reflexivity].
      rewrite Hc. simpl. apply reserve_apply_tokens. }
    split; [|split; [exact Ht|]].
    + subst out. destruct payload as [sku store qty c tok].
      simpl in Hc. subst c. reflexivity.
    + intros env' t action p. apply redeemable_ext. exact Ht.
  - assert (Ht : confirm_tokens (snd out) = confirm_tokens db).
    { subst out. unfold create_transfer.
      destruct (negb (role =? "merch")%string); [reflexivity|].
      destruct (tq_from_store payload =? tq_to_store payload)%string;
        [reflexivity|].
      apply with_conn_tokens.
      destruct (find _ _); [|reflexivity].
      destruct (find _ _); [|reflexivity].
      rewrite Hc. simpl. apply transfer_apply_tokens. }
    split; [|split; [exact Ht|]].
    + subst out. destruct payload as [f t sku qty c tok].
      simpl in Hc. subst c. reflexivity.
    + intros env' t action p. apply redeemable_ext. exact Ht.
Qed.

(** ** Transfer: the applied mutation *)

Lemma date_of_plus_two_days (t : Z) :
  date_of (t + 2 * day_usec) = date_of t + 2.
Proof.
  unfold date_of. rewrite Z.div_add by (unfold day_usec, usec; lia).
  reflexivity.
Qed.

(** C5. A transfer that is applied (role merch, distinct stores, both
    inventory rows present, confirm=true or a token that redeems, source
    on_hand >= qty) leaves the inventory table as it was, source and
    destination rows included; it appends exactly one row to transfers,
    with status "pending", exactly one row to inbound_transfers, for the
    destination store with status "inbound_pending" and the date two days
    after the clock reading the handler takes for it, which is two days
    after the date of created_at when both readings fall on one day, and
    exactly one row to the audit log. *)
Theorem transfer_applied_effects (db : DB) (env : Env) (role : string)
    (payload : TransferRequest) (src tgt : InventoryRow) :
  role = "merch" ->
  tq_from_store payload <> tq_to_store payload ->
  find (inv_is (tq_from_store payload) (tq_sku payload)) (inventory db)
    = Some src ->
  find (inv_is (tq_to_store payload) (tq_sku payload)) (inventory db)
    = Some tgt ->
  applied (tq_confirm payload) db env (tq_confirm_token payload) "transfer"
    (transfer_payload payload) ->
  tq_qty payload <= inv_on_hand src ->
  exists (db' : DB) (tr : TransferRow) (ib : InboundRow) (au : AuditRow),
    create_transfer db env role payload =
      (Return (TransferCreated (tr_transfer_id tr) (tq_from_store payload)
                 (tq_to_store payload) (tq_sku payload) (tq_qty payload)
                 "inbound_pending" (ib_expected_date ib)), db') /\
    inventory db' = inventory db /\
    find (inv_is (tq_from_store payload) (tq_sku payload)) (inventory db')
      = Some src /\
    find (inv_is (tq_to_store payload) (tq_sku payload)) (inventory db')
      = Some tgt /\
    transfers db' = transfers db ++ [tr] /\
    tr_status tr = "pending" /\
    tr_from_store tr = tq_from_store payload /\
    tr_to_store tr = tq_to_store payload /\
    tr_sku tr = tq_sku payload /\ tr_qty tr = tq_qty payload /\
    tr_created_at tr = now_created env /\
    inbound_transfers db' = inbound_transfers db ++ [ib] /\
    ib_transfer_id ib = tr_transfer_id tr /\
    ib_store_id ib = tq_to_store payload /\
    ib_sku ib = tq_sku payload /\ ib_qty ib = tq_qty payload /\
    ib_status ib = "inbound_pending" /\
    ib_expected_date ib = date_of (now_expected env) + 2 /\
    (date_of (now_expected env) = date_of (now_created env) ->
     ib_expected_date ib = date_of (tr_created_at tr) + 2) /\
    audit_log db' = audit_log db ++ [au] /\
    aud_action au = "transfer" /\ aud_role au = role /\
    stores db' = stores db /\ tickets db' = tickets db.
Proof.
  intros Hr Hne Hs Ht Ha Hq.
  rewrite (create_transfer_applied db env role payload src tgt
             Hr Hne Hs Ht Ha).
  set (conn := gate_conn _ _ _ _ _ _).
  destruct (gate_conn_frame db env (tq_confirm payload)
              (tq_confirm_token payload) "transfer"
              (transfer_payload payload))
    as (Hst & Hinv & Haud & Htr & Hib & Htk).
  fold conn in Hst, Hinv, Haud, Htr, Hib, Htk.
  unfold with_conn, transfer_apply.
  destruct (inv_on_hand src <? tq_qty payload) eqn:E;
    [apply Z.ltb_lt in E; lia|].
  eexists.
  exists {| tr_transfer_id := next_rowid (map tr_transfer_id (transfers conn));
            tr_from_store := tq_from_store payload;
            tr_to_store := tq_to_store payload;
            tr_sku := tq_sku payload; tr_qty := tq_qty payload;
            tr_status := "pending"; tr_created_at := now_created env;
            tr_created_by_role := role |}.
  exists {| ib_inbound_id :=
              next_rowid (map ib_inbound_id (inbound_transfers conn));
            ib_transfer_id :=
              next_rowid (map tr_transfer_id (transfers conn));
            ib_store_id := tq_to_store payload;
            ib_sku := tq_sku payload; ib_qty := tq_qty payload;
            ib_expected_date := date_of (now_expected env + 2 * day_usec);
            ib_status := "inbound_pending" |}.
  eexists. split; [reflexivity|]. simpl.
  rewrite Hinv, Htr, Hib, Haud, Hst, Htk, Hs, Ht, date_of_plus_two_days.
  repeat split; try reflexivity.
  intros Hday. now rewrite Hday.
Qed.

(** ** Redemption *)

Lemma ledger_ok_find (db : DB) (t : string) (row : TokenRow) :
  ledger_ok db ->
  find (token_is t) (confirm_tokens db) = Some row ->
  tok_used row = 0 \/ tok_used row = 1.
Proof.
  unfold ledger_ok. intros Hok Hf. apply find_some in Hf as [Hin _].
  rewrite Forall_forall in Hok. exact (Hok row Hin).
Qed.

(** C2. On a ledger whose used flags are 0 or 1, redeeming a token
    succeeds exactly when the ledger holds a row for it with used = 0, the
    same action, a payload_json equal to the canonical serialization of the
    supplied payload, and an expiry not before the current time.  On
    success the row's used flag becomes 1, the rows of other tokens are
    untouched, and every later redemption of that token fails whatever the
    action, payload or time.  On failure the database is unchanged. *)
Theorem redeem_iff_valid (db : DB) (env : Env) (token action : string)
    (payload : Json.dict) :
  ledger_ok db ->
  let out := validate_confirmation_token db env token action payload in
  (fst out = true <-> redeemable db env token action payload) /\
  (fst out = true ->
   exists row,
     find (token_is token) (confirm_tokens db) = Some row /\
     find (token_is token) (confirm_tokens (snd out)) =
       Some (mark_used row) /\
     tok_used (mark_used row) = 1 /\
     (forall t', t' <> token ->
        find (token_is t') (confirm_tokens (snd out)) =
        find (token_is t') (confirm_tokens db)) /\
     (forall env' action' payload',
        validate_confirmation_token (snd out) env' token action' payload' =
          (false, snd out))) /\
  (fst out = false -> snd out = db).
Proof.
  intros Hok out. subst out. split; [split|split].
  - intros H. apply validate_true_inv in H
      as (row & Hf & Hu & Ha & Hp & He & _).
    exists row. repeat split; auto.
    destruct (ledger_ok_find db token row Hok Hf); [assumption|contradiction].
  - intros H. now rewrite (redeemable_validate _ _ _ _ _ H).
  - intros H. apply validate_true_inv in H
      as (row & Hf & Hu & Ha & Hp & He & Hs).
    exists row. rewrite Hs. simpl.
    pose proof (find_update_used _ _ _ Hf) as Hf'.
    repeat split; auto.
    + intros t' Hne. now apply find_update_used_other.
    + intros env' action' payload'.
      unfold validate_confirmation_token. simpl. rewrite Hf'. reflexivity.
  - apply validate_false_unchanged.
Qed.

(** The used flags stay 0 or 1 under every statement that writes the
    ledger, hence under every request. *)
Lemma ledger_ok_validate (db : DB) (env : Env) (t action : string)
    (payload : Json.dict) :
  ledger_ok db ->
  ledger_ok (snd (validate_confirmation_token db env t action payload)).
Proof.
  intros Hok.
  destruct (fst (validate_confirmation_token db env t action payload)) eqn:E.
  - apply validate_true_inv in E as (row & _ & _ & _ & _ & _ & ->).
    unfold ledger_ok, update_used in *. simpl.
    rewrite Forall_forall in *. intros r Hin.
    apply in_map_iff in Hin as (r0 & <- & Hin0).
    destruct (token_is t r0); [right; reflexivity|auto].
  - now rewrite validate_false_unchanged.
Qed.

Lemma ledger_ok_issue (db db' : DB) (env : Env) (action : string)
    (payload : Json.dict) (ttl : Z) (x : string * Z) :
  ledger_ok db ->
  issue_confirmation_token db env action payload ttl = Some (x, db') ->
  ledger_ok db'.
Proof.
  unfold issue_confirmation_token, ledger_ok.
  destruct (existsb _ _); [discriminate|].
  intros Hok [= _ <-]. simpl. apply Forall_app. split; [assumption|].
  constructor; [left; reflexivity|constructor].
Qed.

Lemma ledger_ok_ext (db db' : DB) :
  confirm_tokens db' = confirm_tokens db -> ledger_ok db -> ledger_ok db'.
Proof. unfold ledger_ok. now intros ->. Qed.

Lemma ledger_ok_with_conn {A : Type} (db : DB)
    (body : DB -> Result A * DB) :
  ledger_ok db -> ledger_ok (snd (body db)) ->
  ledger_ok (snd (with_conn db body)).
Proof.
  unfold with_conn. destruct (body db) as [[a|e] conn]; simpl; auto.
Qed.

Lemma ledger_ok_reserve (db : DB) (env : Env) (role : string)
    (payload : ReserveRequest) :
  ledger_ok db -> ledger_ok (snd (reserve_inventory db env role payload)).
Proof.
  intros Hok. unfold reserve_inventory.
  apply ledger_ok_with_conn; [assumption|].
  destruct (find _ _); [|assumption].
  destruct (negb (rr_confirm payload)).
  - destruct (token_given _) as [t|].
    + pose proof (ledger_ok_validate db env t "reserve"
                    (reserve_payload payload) Hok) as Hv.
      destruct (validate_confirmation_token _ _ _ _ _) as [ok conn1].
      simpl in Hv. destruct (negb ok); [assumption|].
      eapply ledger_ok_ext; [apply reserve_apply_tokens|assumption].
    + destruct (issue_confirmation_token _ _ _ _ _) as [[[tk ex] c]|] eqn:E;
        [|assumption].
      simpl. eapply ledger_ok_issue; eassumption.
  - eapply ledger_ok_ext; [apply reserve_apply_tokens|assumption].
Qed.

Lemma ledger_ok_transfer (db : DB) (env : Env) (role : string)
    (payload : TransferRequest) :
  ledger_ok db -> ledger_ok (snd (create_transfer db env role payload)).
Proof.
  intros Hok. unfold create_transfer.
  destruct (negb (role =? "merch")%string); [assumption|].
  destruct (tq_from_store payload =? tq_to_store payload)%string;
    [assumption|].
  apply ledger_ok_with_conn; [assumption|].
  destruct (find _ _); [|assumption].
  destruct (find _ _); [|assumption].
  destruct (negb (tq_confirm payload)).
  - destruct (token_given _) as [t|].
    + pose proof (ledger_ok_validate db env t "transfer"
                    (transfer_payload payload) Hok) as Hv.
      destruct (validate_confirmation_token _ _ _ _ _) as [ok conn1].
      simpl in Hv. destruct (negb ok); [assumption|].
      eapply ledger_ok_ext; [apply transfer_apply_tokens|assumption].
    + destruct (issue_confirmation_token _ _ _ _ _) as [[[tk ex] c]|] eqn:E;
        [|assumption].
      simpl. eapply ledger_ok_issue; eassumption.
  - eapply ledger_ok_ext; [apply transfer_apply_tokens|assumption].
Qed.

Lemma create_ticket_tokens (db : DB) (env : Env) (role : string)
    (payload : TicketCreateRequest) :
  confirm_tokens (snd (create_ticket db env role payload)) =
  confirm_tokens db.
Proof.
  unfold create_ticket. apply with_conn_tokens.
  destruct (find _ _); [|reflexivity].
  destruct (existsb _ _); reflexivity.
Qed.

Lemma ledger_ok_app (db : DB) (env : Env) (h : option string)
    (r : Request) :
  ledger_ok db -> ledger_ok (snd (app db env h r)).
Proof.
  intros Hok. unfold app. destruct h as [role|]; [|assumption].
  destruct (negb (PyStr.mem role VALID_ROLES)); [assumption|].
  destruct (negb (request_valid r)); [assumption|].
  destruct r as [b|b|b].
  - now apply ledger_ok_reserve.
  - now apply ledger_ok_transfer.
  - eapply ledger_ok_ext; [apply create_ticket_tokens|assumption].
Qed.

(** ** Validation of quantity *)

Lemma validate_qty_out_of_range (qty : Z) :
  ~ (Mcp.MIN_QTY <= qty <= Mcp.MAX_QTY) ->
  exists e, Mcp._validate_qty qty = Some e.
Proof.
  intros H. unfold Mcp._validate_qty.
  destruct (qty <? Mcp.MIN_QTY) eqn:E1; simpl; [eauto|].
  destruct (Mcp.MAX_QTY <? qty) eqn:E2; simpl; [eauto|].
  apply Z.ltb_ge in E1, E2. lia.
Qed.

Lemma validate_qty_in_range (qty : Z) :
  Mcp._validate_qty qty = None -> Mcp.MIN_QTY <= qty <= Mcp.MAX_QTY.
Proof.
  unfold Mcp._validate_qty.
  destruct (qty <? Mcp.MIN_QTY) eqn:E1; simpl; [discriminate|].
  destruct (Mcp.MAX_QTY <? qty) eqn:E2; simpl; [discriminate|].
  apply Z.ltb_ge in E1, E2. lia.
Qed.

Lemma app_invalid_request (db : DB) (env : Env) (h : option string)
    (r : Request) :
  request_valid r = false ->
  exists e, app db env h r = (Raise e, db).
Proof.
  intros Hv. unfold app. destruct h as [role|]; [|eauto].
  destruct (negb (PyStr.mem role VALID_ROLES)); [eauto|].
  rewrite Hv. simpl. eauto.
Qed.

(** C8, as stated, fails on RetailCore: POST /reserve with qty = 21 and
    confirm=true, on a row with on_hand = 30, is applied. *)
Lemma reserve_qty_21_applied :
  let req := {| rr_sku := Demo.tee; rr_store_id := "ST001"; rr_qty := 21;
                rr_confirm := true; rr_confirm_token := None |} in
  ~ (1 <= rr_qty req <= 20) /\
  exists db',
    app Demo.db Demo.env (Some "associate") (PostReserve req) =
      (Return (Reserved "ST001" Demo.tee 21 9 23 (now_request Demo.env)),
       db') /\
    find (inv_is "ST001" Demo.tee) (inventory db') =
      Some {| inv_store_id := "ST001"; inv_sku := Demo.tee;
              inv_on_hand := 9; inv_reserved := 23;
              inv_reorder_point := 5;
              inv_last_updated := now_request Demo.env |} /\
    List.length (audit_log db') = S (List.length (audit_log Demo.db)).
Proof.
  split; [simpl; lia|]. eexists. split; [vm_compute; reflexivity|].
  split; reflexivity.
Qed.

(** C8 (amended). The action layer forwards a reserve or a transfer to
    RetailCore only if qty is in [1,20]: with qty outside the range
    reserve_item_action and create_transfer_action raise ValueError
    before any HTTP request, so that no token is issued or redeemed and
    the database is unchanged.  The endpoints of RetailCore accept every
    qty > 0 their handlers are given; a request with qty <= 0 is answered
    with an error before the handler runs, the database unchanged. *)
Theorem qty_gate (known_skus : list string) (db : DB) (env : Env) :
  (forall sku store_id qty confirm role,
      ~ (1 <= qty <= 20) ->
      exists msg,
        Mcp.reserve_item_action known_skus db env sku store_id qty confirm
          role = (Mcp.ActionRaise (Mcp.ValueError msg), db)) /\
  (forall from_store to_store sku qty confirm role,
      ~ (1 <= qty <= 20) ->
      exists msg,
        Mcp.create_transfer_action known_skus db env from_store to_store sku
          qty confirm role = (Mcp.ActionRaise (Mcp.ValueError msg), db)) /\
  (forall sku store_id qty confirm role st b db',
      Mcp.reserve_item_action known_skus db env sku store_id qty confirm
        role = (Mcp.ActionOk st b, db') ->
      1 <= qty <= 20) /\
  (forall from_store to_store sku qty confirm role st b db',
      Mcp.create_transfer_action known_skus db env from_store to_store sku
        qty confirm role = (Mcp.ActionOk st b, db') ->
      1 <= qty <= 20) /\
  (forall h (req : ReserveRequest),
      rr_qty req <= 0 ->
      exists e, app db env h (PostReserve req) = (Raise e, db)) /\
  (forall h (req : TransferRequest),
      tq_qty req <= 0 ->
      exists e, app db env h (PostTransfer req) = (Raise e, db)) /\
  (forall h (req : ReserveRequest) b db',
      app db env h (PostReserve req) = (Return b, db') -> 0 < rr_qty req) /\
  (forall h (req : TransferRequest) b db',
      app db env h (PostTransfer req) = (Return b, db') -> 0 < tq_qty req).
Proof.
  repeat split.
  - intros sku store_id qty confirm role Hq.
    unfold Mcp.reserve_item_action, Mcp._validate_role, Mcp._validate_sku.
    destruct (negb (PyStr.mem _ VALID_ROLES)); [eauto|].
    destruct (negb (PyStr.mem sku known_skus)); [eauto|].
    destruct (validate_qty_out_of_range qty Hq) as [e He]. rewrite He.
    revert He. unfold Mcp._validate_qty.
    destruct (_ || _); [intros [= <-]; eauto|discriminate].
  - intros from_store to_store sku qty confirm role Hq.
    unfold Mcp.create_transfer_action, Mcp._validate_role, Mcp._validate_sku.
    destruct (negb (PyStr.mem _ VALID_ROLES)); [eauto|].
    destruct (negb (_ =? "merch")%string); [eauto|].
    destruct (negb (PyStr.mem sku known_skus)); [eauto|].
    destruct (validate_qty_out_of_range qty Hq) as [e He]. rewrite He.
    revert He. unfold Mcp._validate_qty.
    destruct (_ || _); [intros [= <-]; eauto|discriminate].
  - revert H. unfold Mcp.reserve_item_action.
    destruct (Mcp._validate_role role); [discriminate|].
    destruct (Mcp._validate_sku known_skus sku); [discriminate|].
    destruct (Mcp._validate_qty qty) eqn:E; [discriminate|].
    intros _. apply validate_qty_in_range in E.
    unfold Mcp.MIN_QTY in E. lia.
  - revert H. unfold Mcp.reserve_item_action.
    destruct (Mcp._validate_role role); [discriminate|].
    destruct (Mcp._validate_sku known_skus sku); [discriminate|].
    destruct (Mcp._validate_qty qty) eqn:E; [discriminate|].
    intros _. apply validate_qty_in_range in E.
    unfold Mcp.MAX_QTY in E. lia.
  - revert H. unfold Mcp.create_transfer_action.
    destruct (Mcp._validate_role role); [discriminate|].
    destruct (negb _); [discriminate|].
    destruct (Mcp._validate_sku known_skus sku); [discriminate|].
    destruct (Mcp._validate_qty qty) eqn:E; [discriminate|].
    intros _. apply validate_qty_in_range in E.
    unfold Mcp.MIN_QTY in E. lia.
  - revert H. unfold Mcp.create_transfer_action.
    destruct (Mcp._validate_role role); [discriminate|].
    destruct (negb _); [discriminate|].
    destruct (Mcp._validate_sku known_skus sku); [discriminate|].
    destruct (Mcp._validate_qty qty) eqn:E; [discriminate|].
    intros _. apply validate_qty_in_range in E.
    unfold Mcp.MAX_QTY in E. lia.
  - intros h req Hq. apply app_invalid_request. simpl.
    apply Z.ltb_ge. assumption.
  - intros h req Hq. apply app_invalid_request. simpl.
    apply Z.ltb_ge. assumption.
  - intros h req b db' H.
    destruct (Z.ltb_spec 0 (rr_qty req)) as [Hlt|Hge]; [assumption|].
    destruct (app_invalid_request db env h (PostReserve req)) as [e He].
    { simpl. apply Z.ltb_ge. assumption. }
    congruence.
  - intros h req b db' H.
    destruct (Z.ltb_spec 0 (tq_qty req)) as [Hlt|Hge]; [assumption|].
    destruct (app_invalid_request db env h (PostTransfer req)) as [e He].
    { simpl. apply Z.ltb_ge. assumption. }
    congruence.
Qed.

(** ** Validation of the ticket description *)

Lemma lstrip_blank (s : string) :
  blank s = true -> PyStr.lstrip s = EmptyString.
Proof.
  induction s as [|c r IH]; simpl; [reflexivity|].
  intros H. apply andb_true_iff in H as [Hc Hr]. rewrite Hc. auto.
Qed.

Lemma rstrip_empty_blank (s : string) :
  PyStr.rstrip s = EmptyString -> blank s = true.
Proof.
  induction s as [|c r IH]; simpl; [reflexivity|].
  destruct (PyStr.rstrip r) eqn:E; [|discriminate].
  destruct (PyStr.isspace c); [|discriminate].
  intros _. simpl. auto.
Qed.

Lemma lstrip_blank_inv (s : string) :
  blank (PyStr.lstrip s) = true -> blank s = true.
Proof.
  induction s as [|c r IH]; simpl; [reflexivity|].
  destruct (PyStr.isspace c) eqn:E; simpl; [auto|].
  rewrite E. discriminate.
Qed.

Lemma strip_empty_iff (s : string) :
  PyStr.strip s = EmptyString <-> blank s = true.
Proof.
  unfold PyStr.strip. split.
  - intros H. apply lstrip_blank_inv, rstrip_empty_blank, H.
  - intros H. rewrite (lstrip_blank s H). reflexivity.
Qed.

(** C9, as stated, fails on RetailCore: POST /tickets with a description
    of one space creates the ticket and its audit entry. *)
Lemma ticket_blank_description_created :
  let req := {| tc_store_id := "ST001"; tc_category := "POS Sync Failure";
                tc_severity := "high"; tc_description := " " |} in
  blank (tc_description req) = true /\
  exists db' tk au,
    app Demo.db Demo.env (Some "support") (PostTickets req) =
      (Return (TicketCreated "TCKT0001" (date_of (now_created Demo.env))
                 "ST001" "POS Sync Failure" "high" "open"), db') /\
    tickets db' = tickets Demo.db ++ [tk] /\
    tk_description tk = " " /\
    audit_log db' = audit_log Demo.db ++ [au] /\
    aud_action au = "create_ticket".
Proof.
  split; [reflexivity|]. do 3 eexists.
  split; [vm_compute; reflexivity|]. simpl.
  split; [reflexivity|]. split; [reflexivity|].
  split; reflexivity.
Qed.

(** C9 (amended). create_ticket_action, the action layer's entry, fails
    with ValueError on a description that is empty or whitespace only,
    before any HTTP request: no ticket row, no audit entry, the database
    unchanged.  RetailCore's POST /tickets rejects the empty description
    only, the database unchanged. *)
Theorem blank_description_rejected (db : DB) (env : Env) :
  (forall store_id category severity description role,
      blank description = true ->
      exists msg db',
        Mcp.create_ticket_action db env store_id category severity
          description role = (Mcp.ActionRaise (Mcp.ValueError msg), db') /\
        db' = db /\ tickets db' = tickets db /\
        audit_log db' = audit_log db) /\
  (forall h (req : TicketCreateRequest),
      tc_description req = EmptyString ->
      exists e db',
        app db env h (PostTickets req) = (Raise e, db') /\
        db' = db /\ tickets db' = tickets db /\
        audit_log db' = audit_log db).
Proof.
  split.
  - intros store_id category severity description role Hb.
    apply strip_empty_iff in Hb.
    unfold Mcp.create_ticket_action, Mcp._validate_role.
    destruct (negb (PyStr.mem _ VALID_ROLES)); [eauto 6|].
    rewrite Hb. simpl. eauto 6.
  - intros h req Hd.
    destruct (app_invalid_request db env h (PostTickets req)) as [e He].
    { simpl. rewrite Hd. reflexivity. }
    exists e, db. auto.
Qed.

(** ** Decimal text: printing and SQLite's CAST *)

Lemma append_assoc (a b c : string) :
  String.append (String.append a b) c = String.append a (String.append b c).
Proof. induction a as [|x a IH]; simpl; [reflexivity|now rewrite IH]. Qed.

Lemma append_nil_r (a : string) : String.append a EmptyString = a.
Proof. induction a as [|x a IH]; simpl; [reflexivity|now rewrite IH]. Qed.


Lemma all_digits_append (a b : string) :
  all_digits (String.append a b) = all_digits a && all_digits b.
Proof.
  induction a as [|x a IH]; simpl; [reflexivity|].
  now rewrite IH, andb_assoc.
Qed.

Lemma eat_append (a : Z) (s t : string) :
  eat a (String.append s t) = eat (eat a s) t.
Proof. revert a. induction s as [|x s IH]; simpl; intros; auto. Qed.


Lemma digit_char (d : Z) :
  0 <= d < 10 ->
  Sql.is_digit (PyStr.chr (48 + d)) = true /\
  PyStr.code (PyStr.chr (48 + d)) - 48 = d.
Proof.
  intros H.
  assert (d = 0 \/ d = 1 \/ d = 2 \/ d = 3 \/ d = 4 \/ d = 5 \/ d = 6 \/
          d = 7 \/ d = 8 \/ d = 9) as Hd by lia.
  repeat (destruct Hd as [->|Hd]; [split; reflexivity|]).
  subst d. split; reflexivity.
Qed.

Lemma digits_fuel_spec (fuel : nat) :
  forall n acc,
    0 <= n < 10 ^ Z.of_nat fuel ->
    exists ds,
      PyStr.digits_fuel fuel n acc = String.append ds acc /\
      all_digits ds = true /\ eat 0 ds = n.
Proof.
  induction fuel as [|k IH]; intros n acc Hn.
  - exists EmptyString. simpl in *. repeat split; lia.
  - cbn [PyStr.digits_fuel].
    assert (Hd : 0 <= n mod 10 < 10) by (apply Z.mod_pos_bound; lia).
    destruct (digit_char (n mod 10) Hd) as [Hc Hv].
    destruct (n <? 10) eqn:E.
    + apply Z.ltb_lt in E.
      exists (String (PyStr.chr (48 + n mod 10)) EmptyString).
      cbn [String.append all_digits eat]. rewrite Hc, Hv.
      repeat split. rewrite Z.mod_small; lia.
    + apply Z.ltb_ge in E.
      destruct (IH (n / 10)
                  (String (PyStr.chr (48 + n mod 10)) acc)) as (ds & He & Ha & Hv').
      { split; [apply Z.div_pos; lia|].
        apply Z.div_lt_upper_bound; [lia|].
        rewrite Nat2Z.inj_succ, Z.pow_succ_r in Hn; lia. }
      exists (String.append ds
                (String (PyStr.chr (48 + n mod 10)) EmptyString)).
      rewrite He, append_assoc. cbn [String.append].
      split; [reflexivity|].
      rewrite all_digits_append, Ha. cbn [all_digits andb]. rewrite Hc.
      split; [reflexivity|].
      rewrite eat_append, Hv'. cbn [eat]. rewrite Hv.
      pose proof (Z.div_mod n 10). lia.
Qed.

Lemma digits_spec (n : Z) :
  0 <= n -> all_digits (PyStr.digits n) = true /\ eat 0 (PyStr.digits n) = n.
Proof.
  intros Hn. unfold PyStr.digits.
  destruct (digits_fuel_spec (S (Z.to_nat (Z.log2 n))) n EmptyString)
    as (ds & He & Ha & Hv).
  - split; [assumption|].
    rewrite Nat2Z.inj_succ, Z2Nat.id by apply Z.log2_nonneg.
    destruct (Z.eq_dec n 0) as [->|Hz]; [reflexivity|].
    apply Z.lt_le_trans with (2 ^ Z.succ (Z.log2 n)).
    + apply Z.log2_spec. lia.
    + apply Z.pow_le_mono_l. lia.
  - rewrite He, append_nil_r. auto.
Qed.











(** ** Ticket ids *)











(** ** Lookup: the filter and the stable sort *)

Section LookupSort.

#[local] Open Scope R_scope.

Import Lookup.








End LookupSort.

(** ** Lookup: distances along the equator *)

Section LookupEquator.

#[local] Open Scope R_scope.

Import Lookup.


Lemma haversine_equator (lon : R) :
  0 <= lon < 180 ->
  haversine_miles 0 0 0 lon = 39588 / 10 * radians lon.
Proof.
  intros [H0 H180]. unfold haversine_miles.
  assert (Hr0 : radians 0 = 0) by (unfold radians; lra).
  rewrite Hr0.
  set (h := (radians lon - 0) / 2).
  assert (Hpi := PI_RGT_0).
  assert (Hh : 0 <= h < PI / 2).
  { unfold h, radians. split.
    - apply Rmult_le_pos; [|lra].
      assert (0 <= lon * (PI / 180)) by (apply Rmult_le_pos; lra). lra.
    - assert (lon * (PI / 180) < 180 * (PI / 180))
        by (apply Rmult_lt_compat_r; lra).
      lra. }
  replace ((0 - 0) / 2) with 0 by lra.
  rewrite sin_0, cos_0.
  replace (0 ^ 2 + 1 * 1 * sin h ^ 2) with ((sin h)²) by (unfold Rsqr; ring).
  assert (Hs : 0 <= sin h) by (apply sin_ge_0; lra).
  assert (Hc : 0 < cos h) by (apply cos_gt_0; lra).
  rewrite sqrt_Rsqr by exact Hs.
  replace (1 - (sin h)²) with ((cos h)²)
    by (pose proof (sin2_cos2 h); lra).
  rewrite sqrt_Rsqr by lra.
  unfold atan2. destruct (Rlt_dec 0 (cos h)) as [_|Hn]; [|contradiction].
  fold (tan h). rewrite atan_tan by lra.
  unfold h. lra.
Qed.


End LookupEquator.

(** ** Lookup: order of the answer *)

Section LookupOrder.

#[local] Open Scope R_scope.

Import Lookup.



Lemma round2_small (x : R) : 0 <= x < 1 / 200 -> round2 x = 0.
Proof.
  intros Hx. unfold round2, round_half_even.
  assert (Hi : Int_part (x * 100) = 0%Z).
  { symmetry. apply Int_part_spec. simpl. lra. }
  rewrite Hi. simpl.
  destruct (Rlt_dec (x * 100 - 0) (1 / 2)) as [_|N]; [simpl; lra|].
  exfalso. apply N. lra.
Qed.

(** The sort key is the rounded distance: of two stores a few yards east
    of the query store, both reported at 0.0 miles, the farther one stays
    first when the query returns it first. *)
Lemma lookup_rounded_tie_farther_first :
  let far := equator_row "ST002" (5 / 100000) 4 in
  let near := equator_row "ST003" (2 / 100000) 2 in
  exists i1 i2,
    inventory_lookup Demo.sku "ST001" (Some equator_base) [far; near] 25 =
      Found Demo.sku "ST001" 25 [i1; i2] /\
    item_store_id i1 = "ST002" /\ item_store_id i2 = "ST003" /\
    distance_miles i1 = 0 /\ distance_miles i2 = 0 /\
    distance_to equator_base near < distance_to equator_base far.
Proof.
  intros far near.
  assert (Hpi := PI_RGT_0). assert (Hpi4 := PI_4).
  assert (Hf : distance_to equator_base far
               = 39588 / 10 * radians (5 / 100000)).
  { unfold distance_to. cbn. apply haversine_equator. lra. }
  assert (Hn : distance_to equator_base near
               = 39588 / 10 * radians (2 / 100000)).
  { unfold distance_to. cbn. apply haversine_equator. lra. }
  unfold radians in Hf, Hn.
  assert (Hrf : round2 (distance_to equator_base far) = 0)
    by (apply round2_small; lra).
  assert (Hrn : round2 (distance_to equator_base near) = 0)
    by (apply round2_small; lra).
  exists (item_of equator_base far), (item_of equator_base near).
  split.
  - unfold inventory_lookup, nearby. cbn [collect].
    destruct (Rle_dec _ 25) as [_|N]; [|exfalso; apply N; lra].
    destruct (Rle_dec _ 25) as [_|N]; [|exfalso; apply N; lra].
    cbn [sort fold_right insert].
    destruct (Rlt_dec _ _) as [Hlt|_]; [|reflexivity].
    exfalso. cbn [item_of distance_miles] in Hlt. lra.
  - cbn [item_of item_store_id distance_miles].
    repeat split; try reflexivity; try assumption. lra.
Qed.


End LookupOrder.

(** ** The canonical payload does not depend on the order of the keys *)

Lemma ascii_compare_refl (c : ascii) : Ascii.compare c c = Eq.
Proof. unfold Ascii.compare. apply N.compare_refl. Qed.

Lemma string_compare_refl (s : string) : String.compare s s = Eq.
Proof.
  induction s as [|c s IH]; simpl; [reflexivity|].
  now rewrite ascii_compare_refl.
Qed.

Lemma string_compare_trans (a : string) :
  forall b c,
    String.compare a b = Lt -> String.compare b c = Lt ->
    String.compare a c = Lt.
Proof.
  induction a as [|x a IH]; intros [|y b] [|z c]; simpl;
    try discriminate; try reflexivity.
  destruct (Ascii.compare x y) eqn:Exy; try discriminate;
    destruct (Ascii.compare y z) eqn:Eyz; try discriminate.
  - apply Ascii.compare_eq_iff in Exy, Eyz. subst.
    rewrite ascii_compare_refl. apply IH.
  - apply Ascii.compare_eq_iff in Exy. subst. rewrite Eyz. reflexivity.
  - apply Ascii.compare_eq_iff in Eyz. subst. rewrite Exy. reflexivity.
  - intros _ _. unfold Ascii.compare in *.
    rewrite N.compare_lt_iff in *.
    assert (H : (N_of_ascii x < N_of_ascii z)%N) by lia.
    apply N.compare_lt_iff in H. now rewrite H.
Qed.

Lemma string_ltb_irrefl (a : string) : String.ltb a a = false.
Proof. unfold String.ltb. now rewrite string_compare_refl. Qed.

Lemma string_ltb_trans (a b c : string) :
  String.ltb a b = true -> String.ltb b c = true -> String.ltb a c = true.
Proof.
  unfold String.ltb.
  destruct (String.compare a b) eqn:E1; try discriminate.
  destruct (String.compare b c) eqn:E2; try discriminate.
  now rewrite (string_compare_trans a b c E1 E2).
Qed.

Lemma string_ltb_total (a b : string) :
  String.ltb a b = false -> a <> b -> String.ltb b a = true.
Proof.
  unfold String.ltb. intros H Hne.
  rewrite (String.compare_antisym b a).
  destruct (String.compare a b) eqn:E; try discriminate.
  - apply String.compare_eq_iff in E. contradiction.
  - reflexivity.
Qed.

Lemma insert_item_perm (kv : string * Json.value) (l : Json.dict) :
  Permutation (Json.insert_item kv l) (kv :: l).
Proof.
  induction l as [|x r IH]; simpl; [apply Permutation_refl|].
  destruct (String.ltb (fst x) (fst kv)).
  - apply Permutation_trans with (x :: kv :: r).
    + now apply perm_skip.
    + apply perm_swap.
  - apply Permutation_refl.
Qed.

Lemma sort_items_perm (d : Json.dict) : Permutation (Json.sort_items d) d.
Proof.
  induction d as [|kv d IH]; simpl; [apply perm_nil|].
  apply Permutation_trans with (kv :: Json.sort_items d).
  - apply insert_item_perm.
  - now apply perm_skip.
Qed.

Lemma insert_item_sorted (kv : string * Json.value) (l : Json.dict) :
  ~ In (fst kv) (map fst l) ->
  StronglySorted key_lt l -> StronglySorted key_lt (Json.insert_item kv l).
Proof.
  intros Hnin Hs. induction Hs as [|x r Hs IH Hx]; simpl.
  - constructor; constructor.
  - destruct (String.ltb (fst x) (fst kv)) eqn:E.
    + constructor.
      * apply IH. intros Hin. apply Hnin. now right.
      * rewrite Forall_forall in *. intros z Hz.
        apply (Permutation_in _ (insert_item_perm kv r)) in Hz.
        destruct Hz as [<-|Hz]; [exact E|auto].
    + assert (Hkx : key_lt kv x).
      { unfold key_lt. apply string_ltb_total; [exact E|].
        intros Heq. apply Hnin. left. exact Heq. }
      constructor; [constructor; assumption|].
      constructor; [exact Hkx|].
      rewrite Forall_forall in *. intros z Hz.
      unfold key_lt in *. eapply string_ltb_trans; eauto.
Qed.

Lemma sort_items_sorted (d : Json.dict) :
  NoDup (map fst d) -> StronglySorted key_lt (Json.sort_items d).
Proof.
  induction d as [|kv d IH]; simpl; intros Hnd; [constructor|].
  inversion Hnd as [|k ks Hnin Hnd' E]; subst.
  apply insert_item_sorted; [|auto].
  intros Hin. apply Hnin.
  apply (Permutation_in _ (Permutation_map fst (sort_items_perm d))).
  exact Hin.
Qed.

Lemma sorted_perm_unique (l1 : Json.dict) :
  forall l2,
    StronglySorted key_lt l1 -> StronglySorted key_lt l2 ->
    Permutation l1 l2 -> l1 = l2.
Proof.
  induction l1 as [|x r1 IH]; intros l2 H1 H2 Hp.
  - apply Permutation_nil in Hp. now subst.
  - destruct l2 as [|y r2];
      [apply Permutation_sym, Permutation_nil in Hp; discriminate|].
    inversion H1 as [|? ? Hs1 Hx]; subst.
    inversion H2 as [|? ? Hs2 Hy]; subst.
    rewrite Forall_forall in Hx, Hy.
    assert (Hxy : x = y).
    { assert (Hin1 : In x (y :: r2))
        by (apply (Permutation_in _ Hp); now left).
      assert (Hin2 : In y (x :: r1))
        by (apply (Permutation_in _ (Permutation_sym Hp)); now left).
      destruct Hin1 as [->|Hin1]; [reflexivity|].
      destruct Hin2 as [->|Hin2]; [reflexivity|].
      specialize (Hx y Hin2). specialize (Hy x Hin1).
      unfold key_lt in *.
      pose proof (string_ltb_trans _ _ _ Hx Hy) as Hc.
      rewrite string_ltb_irrefl in Hc. discriminate. }
    subst y. f_equal. apply IH; try assumption.
    eapply Permutation_cons_inv; eassumption.
Qed.

(** Two dictionaries with the same items, whatever the order in which
    their keys were inserted, have the same canonical payload. *)
Lemma canonical_payload_order_independent (d d' : Json.dict) :
  NoDup (map fst d) -> Permutation d d' ->
  _canonical_payload d = _canonical_payload d'.
Proof.
  intros Hnd Hp. unfold _canonical_payload, Json.dumps_sorted.
  assert (Hnd' : NoDup (map fst d'))
    by (eapply Permutation_NoDup; [apply Permutation_map, Hp|exact Hnd]).
  rewrite (sorted_perm_unique (Json.sort_items d) (Json.sort_items d')).
  - reflexivity.
  - now apply sort_items_sorted.
  - now apply sort_items_sorted.
  - eapply Permutation_trans; [apply sort_items_perm|].
    eapply Permutation_trans; [exact Hp|].
    apply Permutation_sym, sort_items_perm.
Qed.

(** ** The theorems at the rows of the demo pack *)


Lemma redeem_iff_valid_witness :
  ledger_ok Demo.db_preview_1 /\
  fst (validate_confirmation_token Demo.db_preview_1 Demo.env2 Demo.token
         "reserve" (reserve_payload (Demo.reserve_req "ST002" 1 false None)))
    = true /\
  redeemable Demo.db_preview_1 Demo.env2 Demo.token "reserve"
    (reserve_payload (Demo.reserve_req "ST002" 1 false None)).
Proof.
  assert (Hok : ledger_ok Demo.db_preview_1).
  { constructor; [left; reflexivity|constructor]. }
  assert (Hv : fst (validate_confirmation_token Demo.db_preview_1 Demo.env2
                      Demo.token "reserve"
                      (reserve_payload (Demo.reserve_req "ST002" 1 false None)))
               = true) by reflexivity.
  split; [exact Hok|]. split; [exact Hv|].
  exact (proj1 (proj1 (redeem_iff_valid Demo.db_preview_1 Demo.env2
                         Demo.token "reserve"
                         (reserve_payload
                            (Demo.reserve_req "ST002" 1 false None)) Hok))
           Hv).
Defined.

Lemma reserve_conflict_unchanged_witness :
  find (inv_is "ST002" Demo.sku) (inventory Demo.db) =
    Some (Demo.inv "ST002" Demo.sku 4 0) /\
  applied true Demo.db Demo.env None "reserve"
    (reserve_payload (Demo.reserve_req "ST002" 5 true None)) /\
  4 < 5 /\
  exists db',
    reserve_inventory Demo.db Demo.env "associate"
      (Demo.reserve_req "ST002" 5 true None) =
      (Raise (HTTPException 409
                "Insufficient on_hand inventory to reserve qty"), db') /\
    db' = Demo.db /\
    find (inv_is "ST002" Demo.sku) (inventory db') =
      Some (Demo.inv "ST002" Demo.sku 4 0) /\
    audit_log db' = audit_log Demo.db.
Proof.
  assert (H1 : find (inv_is "ST002" Demo.sku) (inventory Demo.db) =
               Some (Demo.inv "ST002" Demo.sku 4 0)) by reflexivity.
  assert (H2 : applied true Demo.db Demo.env None "reserve"
                 (reserve_payload (Demo.reserve_req "ST002" 5 true None)))
    by (left; reflexivity).
  assert (H3 : 4 < 5) by lia.
  split; [exact H1|]. split; [exact H2|]. split; [exact H3|].
  exact (reserve_conflict_unchanged Demo.db Demo.env "associate"
           (Demo.reserve_req "ST002" 5 true None)
           (Demo.inv "ST002" Demo.sku 4 0) H1 H2 H3).
Defined.

Lemma token_unused_when_mutation_fails_witness :
  redeemable Demo.db_preview_5 Demo.env2 Demo.token "reserve"
    (reserve_payload (Demo.reserve_req "ST002" 5 false (Some Demo.token))) /\
  reserve_inventory Demo.db_preview_5 Demo.env2 "associate"
    (Demo.reserve_req "ST002" 5 false (Some Demo.token)) =
    (Raise (HTTPException 409
              "Insufficient on_hand inventory to reserve qty"),
     Demo.db_preview_5) /\
  (exists row,
      find (token_is Demo.token) (confirm_tokens Demo.db_preview_5) =
        Some row /\ tok_used row = 0).
Proof.
  assert (Hr : redeemable Demo.db_preview_5 Demo.env2 Demo.token "reserve"
                 (reserve_payload
                    (Demo.reserve_req "ST002" 5 false (Some Demo.token)))).
  { eexists. split; [reflexivity|].
    split; [reflexivity|]. split; [reflexivity|]. split; [reflexivity|].
    vm_compute. discriminate. }
  assert (Hx : reserve_inventory Demo.db_preview_5 Demo.env2 "associate"
                 (Demo.reserve_req "ST002" 5 false (Some Demo.token)) =
               (Raise (HTTPException 409
                         "Insufficient on_hand inventory to reserve qty"),
                Demo.db_preview_5)) by reflexivity.
  split; [exact Hr|]. split; [exact Hx|].
  exact (proj1 (proj2 (proj1 (token_unused_when_mutation_fails
                                Demo.db_preview_5 Demo.env2 "associate")
                         (Demo.reserve_req "ST002" 5 false (Some Demo.token))
                         Demo.token _ Demo.db_preview_5
                         eq_refl eq_refl Hr Hx))).
Defined.

Lemma confirm_true_ignores_token_witness :
  confirm_tokens
    (snd (reserve_inventory Demo.db_preview_1 Demo.env2 "associate"
            (Demo.reserve_req "ST002" 1 true (Some Demo.token)))) =
  confirm_tokens Demo.db_preview_1.
Proof.
  exact (proj1 (proj2 (proj1 (confirm_true_ignores_token Demo.db_preview_1
                                Demo.env2 "associate")
                         (Demo.reserve_req "ST002" 1 true (Some Demo.token))
                         eq_refl))).
Defined.

Lemma transfer_applied_effects_witness :
  exists (db' : DB) (tr : TransferRow) (ib : InboundRow),
    create_transfer Demo.db Demo.env "merch" (Demo.transfer_req 1 true None) =
      (Return (TransferCreated (tr_transfer_id tr) "ST002" "ST001" Demo.sku 1
                 "inbound_pending" (ib_expected_date ib)), db') /\
    inventory db' = inventory Demo.db /\
    transfers db' = [tr] /\ inbound_transfers db' = [ib].
Proof.
  destruct (transfer_applied_effects Demo.db Demo.env "merch"
              (Demo.transfer_req 1 true None)
              (Demo.inv "ST002" Demo.sku 4 0) (Demo.inv "ST001" Demo.sku 0 0))
    as (db' & tr & ib & au & H & Hinv & _ & _ & Htr & _ & _ & _ & _ & _ & _
        & Hib & _).
  - reflexivity.
  - simpl. discriminate.
  - reflexivity.
  - reflexivity.
  - left. reflexivity.
  - simpl. lia.
  - exists db', tr, ib. auto.
Defined.


Lemma qty_gate_witness :
  exists msg,
    Mcp.reserve_item_action Demo.known_skus Demo.db Demo.env Demo.tee
      "ST001" 21 true "associate" =
      (Mcp.ActionRaise (Mcp.ValueError msg), Demo.db).
Proof.
  apply (proj1 (qty_gate Demo.known_skus Demo.db Demo.env)). lia.
Defined.

Lemma blank_description_rejected_witness :
  exists msg db',
    Mcp.create_ticket_action Demo.db Demo.env "ST001" "POS Sync Failure"
      "high" " " "support" =
      (Mcp.ActionRaise (Mcp.ValueError msg), db') /\
    db' = Demo.db /\ tickets db' = tickets Demo.db /\
    audit_log db' = audit_log Demo.db.
Proof.
  apply (proj1 (blank_description_rejected Demo.db Demo.env)). reflexivity.
Defined.


(** ** The outcome of every request *)

Lemma gate_conn_redeemed (db : DB) (env : Env) (confirm : bool)
    (tok : option string) (action : string) (payload : Json.dict) :
  applied confirm db env tok action payload ->
  redeemed db (gate_conn db env confirm tok action payload).
Proof.
  intros Ha. unfold gate_conn. destruct confirm; [left; reflexivity|].
  destruct Ha as [Ha|(t & Ht & Hv)]; [discriminate|].
  rewrite Ht. right. exists t.
  apply validate_true_inv in Hv as (_ & _ & _ & _ & _ & _ & Hs). exact Hs.
Qed.

Lemma issue_some (db : DB) (env : Env) (action : string)
    (payload : Json.dict) (x : string * Z) (db' : DB) :
  issue_confirmation_token db env action payload
    (confirm_token_ttl_seconds env) = Some (x, db') ->
  existsb (token_is (token_urlsafe env)) (confirm_tokens db) = false /\
  x = (token_urlsafe env,
       now_token env + confirm_token_ttl_seconds env * usec) /\
  db' = set_confirm_tokens db
          (confirm_tokens db ++ [issued_row env action payload]).
Proof.
  unfold issue_confirmation_token.
  destruct (existsb _ _); [discriminate|].
  intros [= <- <-]. auto.
Qed.

Lemma reserve_inventory_effect (db : DB) (env : Env) (role : string)
    (p : ReserveRequest) :
  0 < rr_qty p ->
  Effect db env (fst (reserve_inventory db env role p))
    (snd (reserve_inventory db env role p)).
Proof.
  intros Hq.
  destruct (find (inv_is (rr_store_id p) (rr_sku p)) (inventory db))
    as [row|] eqn:Hf.
  2:{ unfold reserve_inventory, with_conn. rewrite Hf. apply eff_error. }
  assert (Happ : applied (rr_confirm p) db env (rr_confirm_token p)
                   "reserve" (reserve_payload p) ->
                 Effect db env (fst (reserve_inventory db env role p))
                   (snd (reserve_inventory db env role p))).
  { intros Ha.
    rewrite (reserve_inventory_applied db env role p row Hf Ha).
    pose proof (gate_conn_redeemed _ _ _ _ _ _ Ha) as Hred.
    pose proof (gate_conn_frame db env (rr_confirm p) (rr_confirm_token p)
                  "reserve" (reserve_payload p)) as (_ & Hinv & _).
    set (conn := gate_conn _ _ _ _ _ _) in *.
    unfold with_conn, reserve_apply.
    destruct (inv_on_hand row <? rr_qty p) eqn:E; [apply eff_error|].
    apply Z.ltb_ge in E. cbn [inventory set_inventory].
    rewrite Hinv, (find_update_reserve _ _ _ _ _ _ Hf).
    cbn [fst snd inv_on_hand inv_reserved inv_last_updated].
    apply eff_reserved; auto. }
  destruct (rr_confirm p) eqn:Ec; [apply Happ; left; reflexivity|].
  destruct (token_given (rr_confirm_token p)) as [t|] eqn:Et.
  - destruct (fst (validate_confirmation_token db env t "reserve"
                     (reserve_payload p))) eqn:Ev.
    + apply Happ. right. exists t. auto.
    + unfold reserve_inventory, with_conn. rewrite Hf, Ec, Et.
      cbn [negb].
      destruct (validate_confirmation_token db env t "reserve"
                  (reserve_payload p)) as [ok c].
      simpl in Ev. subst ok. apply eff_error.
  - unfold reserve_inventory, with_conn. rewrite Hf, Ec, Et. cbn [negb].
    destruct (issue_confirmation_token db env "reserve" (reserve_payload p)
                (confirm_token_ttl_seconds env))
      as [[[tk ex] c]|] eqn:Ei; [|apply eff_error].
    apply issue_some in Ei as (Hfresh & _ & ->).
    apply eff_preview; [reflexivity|exact Hfresh].
Qed.

Lemma create_transfer_effect (db : DB) (env : Env) (role : string)
    (p : TransferRequest) :
  0 < tq_qty p ->
  Effect db env (fst (create_transfer db env role p))
    (snd (create_transfer db env role p)).
Proof.
  intros Hq.
  destruct (String.eqb_spec role "merch") as [->|Hr].
  2:{ unfold create_transfer.
      destruct (String.eqb_spec role "merch"); [contradiction|].
      apply eff_error. }
  destruct (String.eqb_spec (tq_from_store p) (tq_to_store p)) as [He|Hne].
  { unfold create_transfer. cbn [String.eqb negb].
    destruct (String.eqb_spec (tq_from_store p) (tq_to_store p));
      [|contradiction].
    apply eff_error. }
  destruct (find (inv_is (tq_from_store p) (tq_sku p)) (inventory db))
    as [src|] eqn:Hs.
  2:{ unfold create_transfer, with_conn. rewrite Hs.
      destruct (String.eqb_spec (tq_from_store p) (tq_to_store p));
        [contradiction|].
      apply eff_error. }
  destruct (find (inv_is (tq_to_store p) (tq_sku p)) (inventory db))
    as [tgt|] eqn:Ht.
  2:{ unfold create_transfer, with_conn. rewrite Hs, Ht.
      destruct (String.eqb_spec (tq_from_store p) (tq_to_store p));
        [contradiction|].
      apply eff_error. }
  assert (Happ : applied (tq_confirm p) db env (tq_confirm_token p)
                   "transfer" (transfer_payload p) ->
                 Effect db env (fst (create_transfer db env "merch" p))
                   (snd (create_transfer db env "merch" p))).
  { intros Ha.
    rewrite (create_transfer_applied db env "merch" p src tgt
               eq_refl Hne Hs Ht Ha).
    pose proof (gate_conn_redeemed _ _ _ _ _ _ Ha) as Hred.
    set (conn := gate_conn _ _ _ _ _ _) in *.
    unfold with_conn.
    destruct (inv_on_hand src <? tq_qty p) eqn:E.
    - unfold transfer_apply. rewrite E. apply eff_error.
    - apply Z.ltb_ge in E.
      pose proof (eff_transfer db env p src tgt conn Hred Hne Hs Ht
                    (conj Hq E)) as Heff.
      revert Heff. unfold transfer_apply. rewrite (proj2 (Z.ltb_ge _ _) E).
      cbn [fst snd]. auto. }
  destruct (tq_confirm p) eqn:Ec; [apply Happ; left; reflexivity|].
  destruct (token_given (tq_confirm_token p)) as [t|] eqn:Et.
  - destruct (fst (validate_confirmation_token db env t "transfer"
                     (transfer_payload p))) eqn:Ev.
    + apply Happ. right. exists t. auto.
    + unfold create_transfer, with_conn. rewrite Hs, Ht, Ec, Et.
      destruct (String.eqb_spec (tq_from_store p) (tq_to_store p));
        [contradiction|].
      cbn [String.eqb negb].
      destruct (validate_confirmation_token db env t "transfer"
                  (transfer_payload p)) as [ok c].
      simpl in Ev. subst ok. apply eff_error.
  - unfold create_transfer, with_conn. rewrite Hs, Ht, Ec, Et.
    destruct (String.eqb_spec (tq_from_store p) (tq_to_store p));
      [contradiction|].
    cbn [String.eqb negb].
    destruct (issue_confirmation_token db env "transfer"
                (transfer_payload p) (confirm_token_ttl_seconds env))
      as [[[tk ex] c]|] eqn:Ei; [|apply eff_error].
    apply issue_some in Ei as (Hfresh & _ & ->).
    apply eff_preview; [reflexivity|exact Hfresh].
Qed.

Lemma create_ticket_effect (db : DB) (env : Env) (role : string)
    (p : TicketCreateRequest) :
  Effect db env (fst (create_ticket db env role p))
    (snd (create_ticket db env role p)).
Proof.
  unfold create_ticket, with_conn.
  destruct (find _ _); [|apply eff_error].
  destruct (existsb _ _) eqn:E; [apply eff_error|].
  cbn [fst snd]. exact (eff_ticket db env role p _ E eq_refl).
Qed.

Lemma app_effect (db : DB) (env : Env) (h : option string) (r : Request) :
  Effect db env (fst (app db env h r)) (snd (app db env h r)).
Proof.
  unfold app. destruct h as [role|]; [|apply eff_error].
  destruct (negb (PyStr.mem role VALID_ROLES)); [apply eff_error|].
  destruct (request_valid r) eqn:Hv; [|apply eff_error].
  cbn [negb]. destruct r as [b|b|b]; simpl in Hv.
  - apply reserve_inventory_effect. now apply Z.ltb_lt.
  - apply create_transfer_effect. now apply Z.ltb_lt.
  - apply create_ticket_effect.
Qed.

(** ** Invariants along a sequence of requests *)



Lemma update_reserve_keys (qty t : Z) (s k : string)
    (rows : list InventoryRow) :
  map inv_key (update_reserve qty t s k rows) = map inv_key rows.
Proof.
  induction rows as [|r rows IH]; simpl; [reflexivity|].
  rewrite IH. destruct (inv_is s k r); reflexivity.
Qed.


Lemma redeemed_frame (db conn : DB) :
  redeemed db conn ->
  stores conn = stores db /\ inventory conn = inventory db /\
  audit_log conn = audit_log db /\ transfers conn = transfers db /\
  inbound_transfers conn = inbound_transfers db /\
  tickets conn = tickets db.
Proof. intros [->|(t & ->)]; simpl; auto 10. Qed.

Lemma transfer_apply_inventory (conn : DB) (env : Env) (role : string)
    (p : TransferRequest) (n : Z) :
  inventory (snd (transfer_apply conn env role p n)) = inventory conn.
Proof. unfold transfer_apply. destruct (n <? tq_qty p); reflexivity. Qed.

Lemma effect_inventory (db db' : DB) (env : Env) (res : Result Body) :
  Effect db env res db' ->
  inventory db' = inventory db \/
  exists qty t s k row,
    inventory db' = update_reserve qty t s k (inventory db) /\
    find (inv_is s k) (inventory db) = Some row /\
    0 < qty <= inv_on_hand row.
Proof.
  intros H. destruct H as [e|b a pl Hp Hf|role p row conn Hr Hf Hq
                           |p src tgt conn Hr Hne Hs Ht Hq|role p tk Hf Hk].
  - left. reflexivity.
  - left. reflexivity.
  - right. exists (rr_qty p), (now_request env), (rr_store_id p),
      (rr_sku p), row. simpl. auto.
  - left. rewrite transfer_apply_inventory.
    apply (redeemed_frame db conn Hr).
  - left. reflexivity.
Qed.



Lemma inv_is_key (s k : string) (r : InventoryRow) :
  inv_is s k r = true <-> inv_key r = (s, k).
Proof.
  unfold inv_is, inv_key. rewrite andb_true_iff, !String.eqb_eq.
  split; [intros [-> ->]; reflexivity|intros [= -> ->]; auto].
Qed.

Lemma find_unique_key (s k : string) (rows : list InventoryRow)
    (row r : InventoryRow) :
  NoDup (map inv_key rows) ->
  find (inv_is s k) rows = Some row ->
  In r rows -> inv_is s k r = true -> r = row.
Proof.
  induction rows as [|x rows IH]; simpl; [contradiction|].
  intros Hnd Hf Hin Hr. inversion Hnd as [|? ? Hnin Hnd']; subst.
  destruct (inv_is s k x) eqn:Ex.
  - injection Hf as <-. destruct Hin as [->|Hin]; [reflexivity|].
    exfalso. apply Hnin. apply inv_is_key in Ex, Hr. rewrite Ex, <- Hr.
    now apply in_map.
  - destruct Hin as [->|Hin]; [congruence|]. now apply IH.
Qed.

Lemma update_reserve_nonneg (qty t : Z) (s k : string)
    (rows : list InventoryRow) (row : InventoryRow) :
  NoDup (map inv_key rows) ->
  find (inv_is s k) rows = Some row ->
  0 < qty <= inv_on_hand row ->
  Forall (fun r => 0 <= inv_on_hand r /\ 0 <= inv_reserved r) rows ->
  Forall (fun r => 0 <= inv_on_hand r /\ 0 <= inv_reserved r)
    (update_reserve qty t s k rows).
Proof.
  intros Hnd Hf Hq Hall. rewrite Forall_forall in *. intros r' Hin.
  unfold update_reserve in Hin. apply in_map_iff in Hin as (r & <- & Hin).
  destruct (inv_is s k r) eqn:E; [|auto].
  rewrite (find_unique_key s k rows row r Hnd Hf Hin E).
  apply find_some in Hf as [Hrow _]. specialize (Hall row Hrow).
  simpl. lia.
Qed.

Lemma stock_ok_app (db : DB) (env : Env) (h : option string) (r : Request) :
  stock_ok db -> stock_ok (snd (app db env h r)).
Proof.
  intros [Hnd Hall]. unfold stock_ok.
  destruct (effect_inventory _ _ _ _ (app_effect db env h r))
    as [->|(q & t & s & k & row & -> & Hf & Hq)]; [auto|].
  rewrite update_reserve_keys. split; [exact Hnd|].
  now apply (update_reserve_nonneg q t s k _ row).
Qed.

(** X3. On a database whose inventory has one row per (store, sku) and no
    negative on_hand or reserved, every sequence of requests keeps both:
    on_hand is never overdrawn and reserved never drops below zero. *)
Theorem stock_never_negative (db : DB)
    (trace : list (Env * option string * Request)) :
  stock_ok db -> stock_ok (run db trace).
Proof.
  revert db. induction trace as [|[[env h] r] rest IH]; intros db H; simpl.
  - exact H.
  - apply IH, stock_ok_app, H.
Qed.

Lemma transfer_apply_ok (conn : DB) (env : Env) (role : string)
    (p : TransferRequest) (n : Z) :
  tq_qty p <= n ->
  transfer_apply conn env role p n =
    (Return (TransferCreated
               (next_rowid (map tr_transfer_id (transfers conn)))
               (tq_from_store p) (tq_to_store p) (tq_sku p) (tq_qty p)
               "inbound_pending" (date_of (now_expected env + 2 * day_usec))),
     log_audit
       (set_inbound_transfers
          (set_transfers conn
             (transfers conn ++ [transfer_row conn env role p]))
          (inbound_transfers conn ++ [inbound_row conn env p]))
       env "transfer" role
       (transfer_payload p ++ [("confirmed", Json.JBool true)])).
Proof.
  intros H. unfold transfer_apply.
  destruct (n <? tq_qty p) eqn:E; [apply Z.ltb_lt in E; lia|].
  reflexivity.
Qed.

Lemma effect_audit (db db' : DB) (env : Env) (res : Result Body) :
  Effect db env res db' ->
  match res with
  | Return b =>
      if is_applied b then
        exists a,
          audit_log db' = audit_log db ++ [a] /\
          aud_id a = next_rowid (map aud_id (audit_log db)) /\
          aud_action a = action_of b /\
          aud_created_at a = now_audit env
      else audit_log db' = audit_log db
  | Raise _ => audit_log db' = audit_log db
  end.
Proof.
  intros H. destruct H as [e|b a pl Hp Hf|role p row conn Hr Hf Hq
                           |p src tgt conn Hr Hne Hs Ht Hq|role p tk Hf Hk].
  - reflexivity.
  - destruct b; try discriminate Hp; reflexivity.
  - destruct (redeemed_frame db conn Hr) as (_ & _ & Ha & _).
    cbn [is_applied]. eexists. cbn [log_audit audit_log set_audit_log
      set_inventory]. rewrite Ha. repeat split.
  - destruct (redeemed_frame db conn Hr) as (_ & _ & Ha & _).
    rewrite (transfer_apply_ok conn env "merch" p (inv_on_hand src))
      by lia.
    cbn [fst snd is_applied]. eexists.
    cbn [log_audit audit_log set_audit_log set_inbound_transfers
           set_transfers]. rewrite Ha. repeat split.
  - cbn [is_applied]. eexists.
    cbn [log_audit audit_log set_audit_log set_tickets]. repeat split.
Qed.

Lemma app_audit_grows (db : DB) (env : Env) (h : option string)
    (r : Request) :
  exists added,
    audit_log (snd (app db env h r)) = audit_log db ++ added.
Proof.
  pose proof (effect_audit _ _ _ _ (app_effect db env h r)) as H.
  destruct (fst (app db env h r)) as [b|e].
  - destruct (is_applied b).
    + destruct H as (a & -> & _). eauto.
    + exists []. now rewrite app_nil_r.
  - exists []. now rewrite app_nil_r.
Qed.

(** X4. The audit log is append-only and gains exactly one entry per
    applied mutation: a request answered "reserved", "created" or with a
    new ticket appends one entry, with the next id, the action of the
    mutation and the time of the call; a preview or an error appends
    nothing; and after any sequence of requests the entries present at the
    start are still there, unchanged, at the head of the table. *)
Theorem audit_log_append_only (db : DB) :
  (forall env h r,
      match fst (app db env h r) with
      | Return b =>
          if is_applied b then
            exists a,
              audit_log (snd (app db env h r)) = audit_log db ++ [a] /\
              aud_id a = next_rowid (map aud_id (audit_log db)) /\
              aud_action a = action_of b /\
              aud_created_at a = now_audit env
          else audit_log (snd (app db env h r)) = audit_log db
      | Raise _ => audit_log (snd (app db env h r)) = audit_log db
      end) /\
  (forall trace,
      exists added, audit_log (run db trace) = audit_log db ++ added).
Proof.
  split.
  - intros env h r. apply effect_audit, app_effect.
  - intros trace. revert db.
    induction trace as [|[[env h] r] rest IH]; intros db; simpl.
    + exists []. now rewrite app_nil_r.
    + destruct (IH (snd (app db env h r))) as [a2 H2].
      destruct (app_audit_grows db env h r) as [a1 H1].
      exists (a1 ++ a2). now rewrite H2, H1, app_assoc.
Qed.

Lemma next_rowid_gt (ids : list Z) (i : Z) :
  In i ids -> i < next_rowid ids.
Proof.
  unfold next_rowid. induction ids as [|x ids IH]; [contradiction|].
  cbn [fold_right In]. intros [->|H]; [lia|]. specialize (IH H). lia.
Qed.

Lemma sorted_snoc (ids : list Z) (n : Z) :
  StronglySorted Z.lt ids -> (forall i, In i ids -> i < n) ->
  StronglySorted Z.lt (ids ++ [n]).
Proof.
  induction 1 as [|x l Hs IH Hx]; intros Hn; simpl.
  - constructor; constructor.
  - constructor.
    + apply IH. intros i Hi. apply Hn. now right.
    + rewrite Forall_forall in *. intros y Hy.
      apply in_app_or in Hy as [Hy|[<-|[]]]; [auto|].
      apply Hn. now left.
Qed.

Lemma audit_ids_ok_app (db : DB) (env : Env) (h : option string)
    (r : Request) :
  audit_ids_ok db -> audit_ids_ok (snd (app db env h r)).
Proof.
  unfold audit_ids_ok. intros Hok.
  pose proof (effect_audit _ _ _ _ (app_effect db env h r)) as H.
  destruct (fst (app db env h r)) as [b|e]; [|now rewrite H].
  destruct (is_applied b); [|now rewrite H].
  destruct H as (a & -> & Hid & _). rewrite map_app. simpl. rewrite Hid.
  apply sorted_snoc; [exact Hok|]. apply next_rowid_gt.
Qed.

Lemma audit_ids_ok_run (db : DB)
    (trace : list (Env * option string * Request)) :
  audit_ids_ok db -> audit_ids_ok (run db trace).
Proof.
  revert db. induction trace as [|[[env h] r] rest IH]; intros db H; simpl.
  - exact H.
  - apply IH, audit_ids_ok_app, H.
Qed.

Lemma insert_by_id_head (x : AuditRow) (l : list AuditRow) :
  Forall (fun y => aud_id x < aud_id y) l -> insert_by_id x l = x :: l.
Proof.
  destruct l as [|y r]; simpl; [reflexivity|].
  intros H. inversion H as [|? ? Hy _]; subst.
  destruct (aud_id y <? aud_id x) eqn:E; [|reflexivity].
  apply Z.ltb_lt in E. lia.
Qed.

Lemma order_by_id_sorted (l : list AuditRow) :
  StronglySorted Z.lt (map aud_id l) -> order_by_id l = l.
Proof.
  induction l as [|x l IH]; simpl; [reflexivity|].
  intros H. inversion H as [|? ? Hs Hx]; subst.
  unfold order_by_id in *. simpl. rewrite (IH Hs).
  apply insert_by_id_head. rewrite Forall_forall in *.
  intros y Hy. apply Hx. now apply in_map.
Qed.

(** X5. The ids of the audit log grow strictly along the table under
    every sequence of requests, so that get_audit_log, which orders by id,
    returns all entries in the order in which they were written, oldest
    first, with count equal to their number. *)
Theorem audit_log_listed_in_insertion_order (J : Type)
    (json_loads : string -> J) (db : DB)
    (trace : list (Env * option string * Request)) :
  audit_ids_ok db ->
  audit_ids_ok (run db trace) /\
  get_audit_log json_loads (run db trace) =
    (Z.of_nat (List.length (audit_log (run db trace))),
     map (audit_entry json_loads) (audit_log (run db trace))).
Proof.
  intros Hok. pose proof (audit_ids_ok_run db trace Hok) as H.
  split; [exact H|]. unfold get_audit_log.
  rewrite (order_by_id_sorted _ H), length_map. reflexivity.
Qed.

Lemma effect_transfers (db db' : DB) (env : Env) (res : Result Body) :
  Effect db env res db' ->
  (transfers db' = transfers db /\
   inbound_transfers db' = inbound_transfers db) \/
  exists tr ib,
    transfers db' = transfers db ++ [tr] /\
    inbound_transfers db' = inbound_transfers db ++ [ib] /\
    tr_transfer_id tr = next_rowid (map tr_transfer_id (transfers db)) /\
    ib_transfer_id ib = tr_transfer_id tr /\
    tr_status tr = "pending" /\ ib_status ib = "inbound_pending" /\
    tr_created_by_role tr = "merch".
Proof.
  intros H. destruct H as [e|b a pl Hp Hf|role p row conn Hr Hf Hq
                           |p src tgt conn Hr Hne Hs Ht Hq|role p tk Hf Hk].
  - left. auto.
  - left. auto.
  - left. destruct (redeemed_frame db conn Hr) as (_ & _ & _ & Ht & Hi & _).
    simpl. auto.
  - right. destruct (redeemed_frame db conn Hr) as (_ & _ & _ & Htr & Hi & _).
    rewrite (transfer_apply_ok conn env "merch" p (inv_on_hand src))
      by lia.
    exists (transfer_row conn env "merch" p), (inbound_row conn env p).
    cbn [snd log_audit set_audit_log transfers inbound_transfers
           set_inbound_transfers set_transfers].
    unfold transfer_row, inbound_row. rewrite Htr, Hi. simpl.
    repeat split.
  - left. auto.
Qed.

Lemma transfers_ok_app (db : DB) (env : Env) (h : option string)
    (r : Request) :
  transfers_ok db -> transfers_ok (snd (app db env h r)).
Proof.
  intros [Hnd Hfk]. unfold transfers_ok.
  destruct (effect_transfers _ _ _ _ (app_effect db env h r))
    as [[-> ->]|(tr & ib & -> & -> & Hid & Hib & _)]; [auto|].
  rewrite map_app. simpl. split.
  - apply NoDup_app_remove_l with (l := []). simpl.
    apply Permutation_NoDup with
      (l := tr_transfer_id tr :: map tr_transfer_id (transfers db)).
    + apply Permutation_cons_append.
    + constructor; [|exact Hnd]. intros Hin.
      apply next_rowid_gt in Hin. lia.
  - apply Forall_app. split.
    + rewrite Forall_forall in *. intros x Hx. apply in_or_app. left. auto.
    + constructor; [|constructor]. apply in_or_app. right. left.
      symmetry. exact Hib.
Qed.

(** X6. Transfer ids are never reused and every inbound expectation names
    a transfer of the table: both hold after every sequence of requests
    when they hold at the start; a request that creates a transfer appends
    one "pending" transfer with the next id, created by merch, and one
    "inbound_pending" row that carries that id. *)
Theorem transfers_and_inbound_stay_linked (db : DB) :
  (forall env h r,
      (transfers (snd (app db env h r)) = transfers db /\
       inbound_transfers (snd (app db env h r)) = inbound_transfers db) \/
      exists tr ib,
        transfers (snd (app db env h r)) = transfers db ++ [tr] /\
        inbound_transfers (snd (app db env h r)) =
          inbound_transfers db ++ [ib] /\
        tr_transfer_id tr = next_rowid (map tr_transfer_id (transfers db)) /\
        ib_transfer_id ib = tr_transfer_id tr /\
        tr_status tr = "pending" /\ ib_status ib = "inbound_pending" /\
        tr_created_by_role tr = "merch") /\
  (forall trace, transfers_ok db -> transfers_ok (run db trace)).
Proof.
  split.
  - intros env h r.
    exact (effect_transfers _ _ _ _ (app_effect db env h r)).
  - intros trace. revert db.
    induction trace as [|[[env h] r] rest IH]; intros db H; simpl.
    + exact H.
    + apply IH, transfers_ok_app, H.
Qed.

(** ** The canonical payload determines the fields of the request *)

Lemma decode1_escape_char (c : ascii) (X : string) :
  decode1 (String.append (Json.escape_char c) X) = Some (c, X).
Proof.
  destruct c as [[] [] [] [] [] [] [] []]; reflexivity.
Qed.

Lemma escape_char_head (c : ascii) (X : string) :
  exists a Y,
    String.append (Json.escape_char c) X = String a Y /\ a <> PyStr.dquote.
Proof.
  destruct c as [[] [] [] [] [] [] [] []];
    (eexists; eexists; split; [reflexivity|intros H; discriminate H]).
Qed.

Lemma escape_inj (s : string) :
  forall s' X X',
    String.append (Json.escape s) (String PyStr.dquote X) =
    String.append (Json.escape s') (String PyStr.dquote X') ->
    s = s' /\ X = X'.
Proof.
  induction s as [|c s IH]; intros [|c' s'] X X' H.
  - simpl in H. injection H as ->. auto.
  - exfalso. cbn [Json.escape String.append] in H.
    rewrite append_assoc in H.
    destruct (escape_char_head c'
                (String.append (Json.escape s') (String PyStr.dquote X')))
      as (a & Y & E & Ha).
    rewrite E in H. injection H as H _. congruence.
  - exfalso. cbn [Json.escape String.append] in H.
    rewrite append_assoc in H.
    destruct (escape_char_head c
                (String.append (Json.escape s) (String PyStr.dquote X)))
      as (a & Y & E & Ha).
    rewrite E in H. injection H as H _. congruence.
  - cbn [Json.escape] in H. rewrite !append_assoc in H.
    apply (f_equal decode1) in H. rewrite !decode1_escape_char in H.
    injection H as -> H. destruct (IH _ _ _ H) as [-> ->]. auto.
Qed.

Lemma digits_fuel_suffix (fuel : nat) :
  forall n acc, exists ds,
    PyStr.digits_fuel fuel n acc = String.append ds acc.
Proof.
  induction fuel as [|k IH]; intros n acc; cbn [PyStr.digits_fuel].
  - exists EmptyString. reflexivity.
  - destruct (n <? 10).
    + exists (String (PyStr.chr (48 + n mod 10)) EmptyString). reflexivity.
    + destruct (IH (n / 10) (String (PyStr.chr (48 + n mod 10)) acc))
        as [ds E].
      exists (String.append ds
                (String (PyStr.chr (48 + n mod 10)) EmptyString)).
      rewrite E, append_assoc. reflexivity.
Qed.

Lemma digits_head (n : Z) :
  0 <= n ->
  exists a r, PyStr.digits n = String a r /\ Sql.is_digit a = true.
Proof.
  intros Hn. destruct (digits_spec n Hn) as [Ha _].
  destruct (PyStr.digits n) as [|a r] eqn:E.
  - exfalso. unfold PyStr.digits in E. cbn [PyStr.digits_fuel] in E.
    destruct (n <? 10); [discriminate|].
    destruct (digits_fuel_suffix (Z.to_nat (Z.log2 n)) (n / 10)
                (String (PyStr.chr (48 + n mod 10)) EmptyString))
      as [ds He].
    rewrite He in E. destruct ds; discriminate.
  - simpl in Ha. apply andb_true_iff in Ha as [Ha _]. eauto.
Qed.

Lemma all_digits_int_chars (s : string) :
  all_digits s = true -> all_int_chars s = true.
Proof.
  induction s as [|c s IH]; simpl; [reflexivity|].
  intros H. apply andb_true_iff in H as [Hc Hs].
  unfold int_char. rewrite Hc. simpl. auto.
Qed.

Lemma str_int_int_chars (n : Z) : all_int_chars (PyStr.str_int n) = true.
Proof.
  unfold PyStr.str_int. destruct (n <? 0) eqn:E.
  - apply Z.ltb_lt in E. cbn [all_int_chars].
    rewrite all_digits_int_chars by (apply digits_spec; lia). reflexivity.
  - apply Z.ltb_ge in E. apply all_digits_int_chars, digits_spec, E.
Qed.

Lemma str_int_inj (n m : Z) : PyStr.str_int n = PyStr.str_int m -> n = m.
Proof.
  unfold PyStr.str_int.
  destruct (n <? 0) eqn:En; destruct (m <? 0) eqn:Em; intros H.
  - apply Z.ltb_lt in En, Em. injection H as H.
    destruct (digits_spec (- n)) as [_ Hn]; [lia|].
    destruct (digits_spec (- m)) as [_ Hm]; [lia|].
    rewrite H in Hn. lia.
  - exfalso. apply Z.ltb_ge in Em.
    destruct (digits_head m Em) as (a & r & E & Ha).
    rewrite E in H. injection H as <- _. discriminate Ha.
  - exfalso. apply Z.ltb_ge in En.
    destruct (digits_head n En) as (a & r & E & Ha).
    rewrite E in H. injection H as -> _. discriminate Ha.
  - apply Z.ltb_ge in En, Em.
    destruct (digits_spec n En) as [_ Hn].
    destruct (digits_spec m Em) as [_ Hm].
    rewrite H in Hn. lia.
Qed.

Lemma int_chars_split (s : string) :
  forall s' c c' X X',
    all_int_chars s = true -> all_int_chars s' = true ->
    int_char c = false -> int_char c' = false ->
    String.append s (String c X) = String.append s' (String c' X') ->
    s = s' /\ c = c' /\ X = X'.
Proof.
  induction s as [|a s IH]; intros [|a' s'] c c' X X' Hs Hs' Hc Hc' H;
    simpl in *.
  - injection H as -> ->. auto.
  - injection H as -> _. apply andb_true_iff in Hs' as [Ha _]. congruence.
  - injection H as -> _. apply andb_true_iff in Hs as [Ha _]. congruence.
  - injection H as -> H.
    apply andb_true_iff in Hs as [_ Hs]. apply andb_true_iff in Hs' as [_ Hs'].
    destruct (IH _ _ _ _ _ Hs Hs' Hc Hc' H) as (-> & -> & ->). auto.
Qed.

Lemma canonical_reserve_inj (p p' : ReserveRequest) :
  _canonical_payload (reserve_payload p) =
  _canonical_payload (reserve_payload p') ->
  rr_sku p = rr_sku p' /\ rr_store_id p = rr_store_id p' /\
  rr_qty p = rr_qty p'.
Proof.
  unfold _canonical_payload, Json.dumps_sorted.
  replace (Json.sort_items (reserve_payload p))
    with [("qty", Json.JInt (rr_qty p)); ("sku", Json.JStr (rr_sku p));
          ("store_id", Json.JStr (rr_store_id p))] by reflexivity.
  replace (Json.sort_items (reserve_payload p'))
    with [("qty", Json.JInt (rr_qty p')); ("sku", Json.JStr (rr_sku p'));
          ("store_id", Json.JStr (rr_store_id p'))] by reflexivity.
  cbn [map Json.join Json.encode_item Json.encode_value Json.encode_str
         fst snd].
  rewrite !append_assoc. simpl. rewrite !append_assoc. simpl.
  intros H. injection H as H.
  apply int_chars_split in H as (Hq & _ & H);
    try apply str_int_int_chars; try reflexivity.
  apply str_int_inj in Hq.
  injection H as H. apply escape_inj in H as [Hsku H].
  injection H as H. apply escape_inj in H as [Hst _].
  auto.
Qed.

Lemma canonical_transfer_inj (p p' : TransferRequest) :
  _canonical_payload (transfer_payload p) =
  _canonical_payload (transfer_payload p') ->
  tq_from_store p = tq_from_store p' /\ tq_to_store p = tq_to_store p' /\
  tq_sku p = tq_sku p' /\ tq_qty p = tq_qty p'.
Proof.
  unfold _canonical_payload, Json.dumps_sorted.
  replace (Json.sort_items (transfer_payload p))
    with [("from_store", Json.JStr (tq_from_store p));
          ("qty", Json.JInt (tq_qty p)); ("sku", Json.JStr (tq_sku p));
          ("to_store", Json.JStr (tq_to_store p))] by reflexivity.
  replace (Json.sort_items (transfer_payload p'))
    with [("from_store", Json.JStr (tq_from_store p'));
          ("qty", Json.JInt (tq_qty p')); ("sku", Json.JStr (tq_sku p'));
          ("to_store", Json.JStr (tq_to_store p'))] by reflexivity.
  cbn [map Json.join Json.encode_item Json.encode_value Json.encode_str
         fst snd].
  rewrite !append_assoc. simpl. rewrite !append_assoc. simpl.
  intros H. injection H as H. apply escape_inj in H as [Hf H].
  injection H as H.
  apply int_chars_split in H as (Hq & _ & H);
    try apply str_int_int_chars; try reflexivity.
  apply str_int_inj in Hq.
  injection H as H. apply escape_inj in H as [Hsku H].
  injection H as H. apply escape_inj in H as [Hto _].
  auto.
Qed.


(** ** The life of a token *)

Lemma find_app_old (t : string) (l x : list TokenRow) (r : TokenRow) :
  find (token_is t) l = Some r -> find (token_is t) (l ++ x) = Some r.
Proof.
  induction l as [|y l IH]; simpl; [discriminate|].
  destruct (token_is t y); auto.
Qed.

Lemma find_app_fresh (t : string) (l : list TokenRow) (row : TokenRow) :
  existsb (token_is t) l = false ->
  find (token_is t) (l ++ [row]) = find (token_is t) [row].
Proof.
  induction l as [|y l IH]; simpl; [reflexivity|].
  destruct (token_is t y); simpl; [discriminate|auto].
Qed.

Lemma issue_general (db : DB) (env : Env) (action : string)
    (payload : Json.dict) (ttl : Z) (x : string * Z) (db1 : DB) :
  issue_confirmation_token db env action payload ttl = Some (x, db1) ->
  existsb (token_is (token_urlsafe env)) (confirm_tokens db) = false /\
  x = (token_urlsafe env, now_token env + ttl * usec) /\
  db1 = set_confirm_tokens db
          (confirm_tokens db ++
           [{| tok_token := token_urlsafe env; tok_action := action;
               tok_payload_json := _canonical_payload payload;
               tok_expires_at := now_token env + ttl * usec;
               tok_used := 0 |}]).
Proof.
  unfold issue_confirmation_token.
  destruct (existsb _ _); [discriminate|].
  intros [= <- <-]. auto.
Qed.

(** X7. A token that issue_confirmation_token has stored is redeemable
    for the action and payload it was issued for exactly while the clock
    is at or before its expiry, the time of issue plus the TTL; any
    redemption that succeeds was for that action and a payload with the
    same canonical form; and the tokens stored before are found as
    before. *)
Theorem issued_token_redeemable_until_expiry (db : DB) (env : Env)
    (action : string) (payload : Json.dict) (ttl : Z) (tok : string)
    (exp : Z) (db1 : DB) :
  issue_confirmation_token db env action payload ttl
    = Some ((tok, exp), db1) ->
  exp = now_token env + ttl * usec /\
  (forall env2,
      fst (validate_confirmation_token db1 env2 tok action payload) = true
      <-> now_token env2 <= exp) /\
  (forall env2 action' payload',
      fst (validate_confirmation_token db1 env2 tok action' payload') = true ->
      action' = action /\
      _canonical_payload payload' = _canonical_payload payload /\
      now_token env2 <= exp) /\
  (forall t row,
      find (token_is t) (confirm_tokens db) = Some row ->
      find (token_is t) (confirm_tokens db1) = Some row).
Proof.
  intros H. apply issue_general in H as (Hfresh & [= -> ->] & ->).
  set (row := {| tok_token := token_urlsafe env; tok_action := action;
                 tok_payload_json := _canonical_payload payload;
                 tok_expires_at := now_token env + ttl * usec;
                 tok_used := 0 |}).
  assert (Hfind : find (token_is (token_urlsafe env))
                    (confirm_tokens db ++ [row]) = Some row).
  { rewrite (find_app_fresh _ _ _ Hfresh). simpl.
    unfold token_is. simpl. now rewrite String.eqb_refl. }
  split; [reflexivity|]. split; [|split].
  - intros env2. split.
    + intros Hv. apply validate_true_inv in Hv
        as (r & Hf & _ & _ & _ & He & _).
      simpl in Hf. rewrite Hfind in Hf. injection Hf as <-. exact He.
    + intros He.
      rewrite (redeemable_validate
                 (set_confirm_tokens db (confirm_tokens db ++ [row]))
                 env2 (token_urlsafe env) action payload); [reflexivity|].
      exists row. simpl. auto.
  - intros env2 action' payload' Hv. apply validate_true_inv in Hv
      as (r & Hf & _ & Ha & Hp & He & _).
    simpl in Hf. rewrite Hfind in Hf. injection Hf as <-.
    simpl in Ha, Hp, He. auto.
  - intros t r Hf. simpl. now apply find_app_old.
Qed.

Lemma validate_needs_payload (db : DB) (env : Env) (t action : string)
    (payload : Json.dict) (row : TokenRow) :
  find (token_is t) (confirm_tokens db) = Some row ->
  tok_payload_json row <> _canonical_payload payload ->
  validate_confirmation_token db env t action payload = (false, db).
Proof.
  intros Hf Hne.
  destruct (fst (validate_confirmation_token db env t action payload)) eqn:E.
  - apply validate_true_inv in E as (r & Hf' & _ & _ & Hp & _).
    rewrite Hf in Hf'. injection Hf' as <-. contradiction.
  - pose proof (validate_false_unchanged _ _ _ _ _ E) as Hs.
    destruct (validate_confirmation_token db env t action payload).
    simpl in *. congruence.
Qed.

(** X8. A token is bound to the fields of the request it was issued for.
    When the stored payload of the presented token is the canonical
    payload of a reserve of (sku, store, qty), a /reserve request that
    presents it with another sku, store or quantity is answered with an
    error and changes nothing; likewise for /transfer and (from, to, sku,
    qty). *)
Theorem token_bound_to_request_fields (db : DB) (env : Env) (role t : string)
    (row : TokenRow) :
  find (token_is t) (confirm_tokens db) = Some row ->
  (forall p p' : ReserveRequest,
      tok_payload_json row = _canonical_payload (reserve_payload p) ->
      rr_confirm p' = false ->
      token_given (rr_confirm_token p') = Some t ->
      (rr_sku p' <> rr_sku p \/ rr_store_id p' <> rr_store_id p \/
       rr_qty p' <> rr_qty p) ->
      exists e, reserve_inventory db env role p' = (Raise e, db)) /\
  (forall p p' : TransferRequest,
      tok_payload_json row = _canonical_payload (transfer_payload p) ->
      tq_confirm p' = false ->
      token_given (tq_confirm_token p') = Some t ->
      (tq_from_store p' <> tq_from_store p \/
       tq_to_store p' <> tq_to_store p \/
       tq_sku p' <> tq_sku p \/ tq_qty p' <> tq_qty p) ->
      exists e, create_transfer db env role p' = (Raise e, db)).
Proof.
  intros Hf. split.
  - intros p p' Hp Hc Ht Hne.
    assert (Hv : validate_confirmation_token db env t "reserve"
                   (reserve_payload p') = (false, db)).
    { apply (validate_needs_payload db env t _ _ row Hf).
      rewrite Hp. intros Heq. apply canonical_reserve_inj in Heq.
      destruct Heq as (H1 & H2 & H3).
      destruct Hne as [N|[N|N]]; apply N; congruence. }
    unfold reserve_inventory, with_conn.
    destruct (find _ (inventory db)); [|eauto].
    rewrite Hc, Ht, Hv. simpl. eauto.
  - intros p p' Hp Hc Ht Hne.
    assert (Hv : validate_confirmation_token db env t "transfer"
                   (transfer_payload p') = (false, db)).
    { apply (validate_needs_payload db env t _ _ row Hf).
      rewrite Hp. intros Heq. apply canonical_transfer_inj in Heq.
      destruct Heq as (H1 & H2 & H3 & H4).
      destruct Hne as [N|[N|[N|N]]]; apply N; congruence. }
    unfold create_transfer, with_conn.
    destruct (negb (role =? "merch")%string); [eauto|].
    destruct (tq_from_store p' =? tq_to_store p')%string; [eauto|].
    destruct (find _ (inventory db)); [|eauto].
    destruct (find _ (inventory db)); [|eauto].
    rewrite Hc, Ht, Hv. simpl. eauto.
Qed.

Lemma effect_tokens (db db' : DB) (env : Env) (res : Result Body) :
  Effect db env res db' ->
  confirm_tokens db' = confirm_tokens db \/
  (exists a pl,
      confirm_tokens db' = confirm_tokens db ++ [issued_row env a pl]) \/
  (exists t, confirm_tokens db' = update_used t (confirm_tokens db)).
Proof.
  intros H. destruct H as [e|b a pl Hp Hf|role p row conn Hr Hf Hq
                           |p src tgt conn Hr Hne Hs Ht Hq|role p tk Hf Hk].
  - left. reflexivity.
  - right. left. exists a, pl. reflexivity.
  - destruct Hr as [->|(t & ->)]; [left|right; right; exists t];
      reflexivity.
  - rewrite transfer_apply_tokens.
    destruct Hr as [->|(t & ->)]; [left|right; right; exists t];
      reflexivity.
  - left. reflexivity.
Qed.

(** The row of a token after a step: itself, or itself marked used. *)
Lemma find_update_used_any (t t' : string) (rows : list TokenRow)
    (row : TokenRow) :
  find (token_is t) rows = Some row ->
  find (token_is t) (update_used t' rows) = Some row \/
  find (token_is t) (update_used t' rows) = Some (mark_used row).
Proof.
  intros Hf. destruct (String.eqb_spec t t') as [->|Hne].
  - right. now apply find_update_used.
  - left. rewrite find_update_used_other; assumption.
Qed.

Lemma token_step (db : DB) (env : Env) (h : option string) (r : Request)
    (t : string) (row : TokenRow) :
  find (token_is t) (confirm_tokens db) = Some row ->
  find (token_is t) (confirm_tokens (snd (app db env h r))) = Some row \/
  find (token_is t) (confirm_tokens (snd (app db env h r)))
    = Some (mark_used row).
Proof.
  intros Hf.
  destruct (effect_tokens _ _ _ _ (app_effect db env h r))
    as [->|[(a & pl & ->)|(t' & ->)]].
  - left. exact Hf.
  - left. now apply find_app_old.
  - now apply find_update_used_any.
Qed.

Lemma token_run (trace : list (Env * option string * Request)) :
  forall (db : DB) (t : string) (row : TokenRow),
    find (token_is t) (confirm_tokens db) = Some row ->
    find (token_is t) (confirm_tokens (run db trace)) = Some row \/
    find (token_is t) (confirm_tokens (run db trace)) = Some (mark_used row).
Proof.
  induction trace as [|[[env h] r] rest IH]; intros db t row Hf; simpl.
  - left. exact Hf.
  - destruct (token_step db env h r t row Hf) as [H|H].
    + now apply IH.
    + destruct (IH _ _ _ H) as [H'|H']; right; exact H'.
Qed.

(** X9. Tokens are never deleted or rebound, and used is written once:
    after any sequence of requests a token of the ledger is still found,
    with the action, payload and expiry it had, either as it was or marked
    used; a token that was used stays used, and every later attempt to
    redeem it fails and changes nothing, whatever the action, the payload
    and the time. *)
Theorem token_never_deleted_used_forever (db : DB)
    (trace : list (Env * option string * Request)) (t : string)
    (row : TokenRow) :
  find (token_is t) (confirm_tokens db) = Some row ->
  exists row',
    find (token_is t) (confirm_tokens (run db trace)) = Some row' /\
    (row' = row \/ row' = mark_used row) /\
    tok_action row' = tok_action row /\
    tok_payload_json row' = tok_payload_json row /\
    tok_expires_at row' = tok_expires_at row /\
    (tok_used row = 1 ->
     tok_used row' = 1 /\
     forall env action payload,
       validate_confirmation_token (run db trace) env t action payload
         = (false, run db trace)).
Proof.
  intros Hf.
  assert (Hrow : forall row', row' = row \/ row' = mark_used row ->
            tok_action row' = tok_action row /\
            tok_payload_json row' = tok_payload_json row /\
            tok_expires_at row' = tok_expires_at row /\
            (tok_used row = 1 -> tok_used row' = 1)).
  { intros row' [E | E]; subst row'; simpl; auto. }
  destruct (token_run trace db t row Hf) as [H|H].
  - exists row. split; [exact H|]. split; [auto|].
    destruct (Hrow row (or_introl eq_refl)) as (Ha & Hp & He & Hu).
    split; [exact Ha|]. split; [exact Hp|]. split; [exact He|].
    intros Hused. split; [exact Hused|].
    intros env action payload. unfold validate_confirmation_token.
    rewrite H, Hused. reflexivity.
  - exists (mark_used row). split; [exact H|]. split; [auto|].
    destruct (Hrow (mark_used row) (or_intror eq_refl))
      as (Ha & Hp & He & Hu).
    split; [exact Ha|]. split; [exact Hp|]. split; [exact He|].
    intros Hused. split; [reflexivity|].
    intros env action payload. unfold validate_confirmation_token.
    rewrite H. reflexivity.
Qed.


(** ** Preview, then confirm with the token *)

Lemma issued_row_found (db : DB) (env : Env) (action : string)
    (payload : Json.dict) :
  existsb (token_is (token_urlsafe env)) (confirm_tokens db) = false ->
  find (token_is (token_urlsafe env))
    (confirm_tokens db ++ [issued_row env action payload])
  = Some (issued_row env action payload).
Proof.
  intros Hfresh. rewrite (find_app_fresh _ _ _ Hfresh). simpl.
  unfold token_is. simpl. now rewrite String.eqb_refl.
Qed.

Lemma token_given_truthy (t : string) :
  PyStr.truthy t = true -> token_given (Some t) = Some t.
Proof. intros H. simpl. now rewrite H. Qed.




Lemma transfer_preview_eq (db : DB) (env : Env) (p : TransferRequest)
    (src tgt : InventoryRow) :
  tq_from_store p <> tq_to_store p ->
  find (inv_is (tq_from_store p) (tq_sku p)) (inventory db) = Some src ->
  find (inv_is (tq_to_store p) (tq_sku p)) (inventory db) = Some tgt ->
  tq_confirm p = false ->
  token_given (tq_confirm_token p) = None ->
  existsb (token_is (token_urlsafe env)) (confirm_tokens db) = false ->
  create_transfer db env "merch" p =
    (Return (TransferPreview (token_urlsafe env)
               (now_token env + confirm_token_ttl_seconds env * usec)
               (tq_qty p <=? inv_on_hand src) (inv_on_hand src)),
     set_confirm_tokens db
       (confirm_tokens db ++
        [issued_row env "transfer" (transfer_payload p)])).
Proof.
  intros Hne Hs Ht Hc Hg Hfresh. unfold create_transfer, with_conn.
  destruct (String.eqb_spec (tq_from_store p) (tq_to_store p));
    [contradiction|].
  cbn [String.eqb negb]. rewrite Hs, Ht, Hc, Hg. cbn [negb].
  unfold issue_confirmation_token. rewrite Hfresh. reflexivity.
Qed.

(** X11. The two-phase protocol of /transfer, for role merch, distinct
    stores and existing source and destination rows.  A request without
    confirm and without token returns a preview with a fresh token, the
    source on_hand and the flag can_transfer = (qty <= on_hand), and
    stores only the token.  When the same request then presents the token
    before it expires, with nothing in between, the transfer is created
    and the token marked used if can_transfer was true, and the request
    fails with 409 leaving everything as it was if it was false. *)
Theorem transfer_preview_then_confirm (db : DB) (env : Env)
    (p : TransferRequest) (src tgt : InventoryRow) :
  tq_from_store p <> tq_to_store p ->
  find (inv_is (tq_from_store p) (tq_sku p)) (inventory db) = Some src ->
  find (inv_is (tq_to_store p) (tq_sku p)) (inventory db) = Some tgt ->
  tq_confirm p = false ->
  token_given (tq_confirm_token p) = None ->
  existsb (token_is (token_urlsafe env)) (confirm_tokens db) = false ->
  PyStr.truthy (token_urlsafe env) = true ->
  let tok := token_urlsafe env in
  let exp := now_token env + confirm_token_ttl_seconds env * usec in
  let db1 :=
    set_confirm_tokens db
      (confirm_tokens db ++
       [issued_row env "transfer" (transfer_payload p)]) in
  let p2 :=
    {| tq_from_store := tq_from_store p; tq_to_store := tq_to_store p;
       tq_sku := tq_sku p; tq_qty := tq_qty p; tq_confirm := false;
       tq_confirm_token := Some tok |} in
  create_transfer db env "merch" p =
    (Return (TransferPreview tok exp (tq_qty p <=? inv_on_hand src)
               (inv_on_hand src)), db1) /\
  (forall env2,
      now_token env2 <= exp ->
      (tq_qty p <= inv_on_hand src ->
       exists db2 tr ib,
         create_transfer db1 env2 "merch" p2 =
           (Return (TransferCreated (tr_transfer_id tr) (tq_from_store p)
                      (tq_to_store p) (tq_sku p) (tq_qty p)
                      "inbound_pending" (ib_expected_date ib)), db2) /\
         transfers db2 = transfers db ++ [tr] /\
         inbound_transfers db2 = inbound_transfers db ++ [ib] /\
         inventory db2 = inventory db /\
         find (token_is tok) (confirm_tokens db2) =
           Some (mark_used
                   (issued_row env "transfer" (transfer_payload p)))) /\
      (inv_on_hand src < tq_qty p ->
       create_transfer db1 env2 "merch" p2 =
         (Raise (HTTPException 409
                   "Insufficient source on_hand inventory for transfer"),
          db1))).
Proof.
  intros Hne Hs Ht Hc Hg0 Hfresh Htruthy tok exp db1 p2.
  pose proof (issued_row_found db env "transfer" (transfer_payload p) Hfresh)
    as Hrow.
  assert (Hg : token_given (tq_confirm_token p2) = Some tok)
    by (apply token_given_truthy; exact Htruthy).
  split; [now apply (transfer_preview_eq db env p src tgt)|].
  intros env2 Hexp.
  assert (Hred : redeemable db1 env2 tok "transfer" (transfer_payload p2)).
  { exists (issued_row env "transfer" (transfer_payload p)).
    split; [exact Hrow|]. repeat split. exact Hexp. }
  assert (Ha : applied (tq_confirm p2) db1 env2 (tq_confirm_token p2)
                 "transfer" (transfer_payload p2)).
  { right. exists tok. split; [exact Hg|].
    now rewrite (redeemable_validate _ _ _ _ _ Hred). }
  assert (Heq : create_transfer db1 env2 "merch" p2 =
                with_conn db1 (fun _ =>
                  transfer_apply
                    (set_confirm_tokens db1
                       (update_used tok (confirm_tokens db1)))
                    env2 "merch" p2 (inv_on_hand src))).
  { rewrite (create_transfer_applied db1 env2 "merch" p2 src tgt
               eq_refl Hne Hs Ht Ha).
    unfold gate_conn. rewrite Hg. cbn [tq_confirm p2].
    now rewrite (redeemable_validate _ _ _ _ _ Hred). }
  rewrite Heq. unfold with_conn.
  set (conn := set_confirm_tokens db1 (update_used tok (confirm_tokens db1))).
  split.
  - intros Hq.
    rewrite (transfer_apply_ok conn env2 "merch" p2 (inv_on_hand src) Hq).
    eexists. exists (transfer_row conn env2 "merch" p2),
      (inbound_row conn env2 p2).
    split; [reflexivity|].
    cbn [log_audit set_audit_log set_inbound_transfers set_transfers
           set_confirm_tokens transfers inbound_transfers inventory
           confirm_tokens db1].
    repeat split. now apply find_update_used.
  - intros Hq. unfold transfer_apply.
    apply Z.ltb_lt in Hq. cbn [tq_qty p2]. now rewrite Hq.
Qed.

(** ** The action layer in front of RetailCore *)

Lemma validate_role_valid (role r : string) :
  Mcp._validate_role role = inr r -> PyStr.mem r VALID_ROLES = true.
Proof.
  unfold Mcp._validate_role.
  destruct (PyStr.mem (PyStr.strip (PyStr.lower role)) VALID_ROLES) eqn:E;
    simpl; [|discriminate].
  intros [= <-]. exact E.
Qed.

Lemma reserve_no_token_tokens (db : DB) (env : Env) (role : string)
    (p : ReserveRequest) :
  rr_confirm_token p = None ->
  confirm_tokens (snd (reserve_inventory db env role p)) = confirm_tokens db \/
  confirm_tokens (snd (reserve_inventory db env role p)) =
    confirm_tokens db ++ [issued_row env "reserve" (reserve_payload p)].
Proof.
  intros Hn. unfold reserve_inventory, with_conn.
  destruct (find _ _); [|left; reflexivity].
  rewrite Hn. cbn [token_given].
  destruct (rr_confirm p); cbn [negb].
  - left. pose proof (reserve_apply_tokens db env role p (inv_on_hand i)) as H.
    destruct (reserve_apply db env role p (inv_on_hand i)) as [[b|e] c];
      [exact H|reflexivity].
  - unfold issue_confirmation_token.
    destruct (existsb _ _); [left|right]; reflexivity.
Qed.

Lemma transfer_no_token_tokens (db : DB) (env : Env) (role : string)
    (p : TransferRequest) :
  tq_confirm_token p = None ->
  confirm_tokens (snd (create_transfer db env role p)) = confirm_tokens db \/
  confirm_tokens (snd (create_transfer db env role p)) =
    confirm_tokens db ++ [issued_row env "transfer" (transfer_payload p)].
Proof.
  intros Hn. unfold create_transfer, with_conn.
  destruct (negb (role =? "merch")%string); [left; reflexivity|].
  destruct (tq_from_store p =? tq_to_store p)%string; [left; reflexivity|].
  destruct (find _ _); [|left; reflexivity].
  destruct (find _ _); [|left; reflexivity].
  rewrite Hn. cbn [token_given].
  destruct (tq_confirm p); cbn [negb].
  - left.
    pose proof (transfer_apply_tokens db env role p (inv_on_hand i)) as H.
    destruct (transfer_apply db env role p (inv_on_hand i)) as [[b|e] c];
      [exact H|reflexivity].
  - unfold issue_confirmation_token.
    destruct (existsb _ _); [left|right]; reflexivity.
Qed.

Lemma reserve_unconfirmed_no_token (db : DB) (env : Env) (role : string)
    (p : ReserveRequest) :
  rr_confirm p = false -> rr_confirm_token p = None ->
  inventory (snd (reserve_inventory db env role p)) = inventory db /\
  audit_log (snd (reserve_inventory db env role p)) = audit_log db /\
  forall b, fst (reserve_inventory db env role p) = Return b ->
            is_preview b = true.
Proof.
  intros Hc Hn. unfold reserve_inventory, with_conn.
  destruct (find _ _); [|repeat split; discriminate].
  rewrite Hc, Hn. cbn [token_given negb].
  unfold issue_confirmation_token.
  destruct (existsb _ _); cbn [fst snd]; repeat split; try discriminate.
  intros b [= <-]. reflexivity.
Qed.

Lemma transfer_unconfirmed_no_token (db : DB) (env : Env) (role : string)
    (p : TransferRequest) :
  tq_confirm p = false -> tq_confirm_token p = None ->
  inventory (snd (create_transfer db env role p)) = inventory db /\
  audit_log (snd (create_transfer db env role p)) = audit_log db /\
  transfers (snd (create_transfer db env role p)) = transfers db /\
  forall b, fst (create_transfer db env role p) = Return b ->
            is_preview b = true.
Proof.
  intros Hc Hn. unfold create_transfer, with_conn.
  destruct (negb (role =? "merch")%string); [repeat split; discriminate|].
  destruct (tq_from_store p =? tq_to_store p)%string;
    [repeat split; discriminate|].
  destruct (find _ _); [|repeat split; discriminate].
  destruct (find _ _); [|repeat split; discriminate].
  rewrite Hc, Hn. cbn [token_given negb].
  unfold issue_confirmation_token.
  destruct (existsb _ _); cbn [fst snd]; repeat split; try discriminate.
  intros b [= <-]. reflexivity.
Qed.

Lemma http_json_shape (db : DB) (env : Env) (role : string) (r : Request) :
  snd (Mcp._http_json db env role r) = snd (app db env (Some role) r) /\
  (forall st b,
      fst (Mcp._http_json db env role r) = Mcp.ActionOk st b ->
      fst (app db env (Some role) r) = Return b) /\
  (forall c d,
      fst (Mcp._http_json db env role r)
        = Mcp.ActionRaise (Mcp.RuntimeError c d) ->
      (exists d', fst (app db env (Some role) r)
                  = Raise (HTTPException c d')) \/
      (c = 500 /\ exists n, fst (app db env (Some role) r)
                            = Raise (PyError n))) /\
  (forall m,
      fst (Mcp._http_json db env role r)
        <> Mcp.ActionRaise (Mcp.ValueError m)).
Proof.
  unfold Mcp._http_json.
  destruct (app db env (Some role) r) as [[b|[c d|n]] db']; cbn [fst snd].
  - repeat split; try discriminate. intros st b' [= _ <-]. reflexivity.
  - repeat split; try discriminate. intros c' d' [= <- <-]. left. eauto.
  - repeat split; try discriminate. intros c' d' [= <- <-]. right. eauto.
Qed.

Lemma app_not_401 (db : DB) (env : Env) (role : string) (r : Request) :
  PyStr.mem role VALID_ROLES = true ->
  forall d, fst (app db env (Some role) r) <> Raise (HTTPException 401 d).
Proof.
  intros Hm d. unfold app. rewrite Hm. cbn [negb].
  destruct (negb (request_valid r)); [discriminate|].
  destruct r as [b|b|b].
  - unfold reserve_inventory, with_conn.
    destruct (find _ _); [|discriminate].
    destruct (negb (rr_confirm b)).
    + destruct (token_given _).
      * destruct (validate_confirmation_token _ _ _ _ _) as [ok c].
        destruct (negb ok); [discriminate|].
        unfold reserve_apply. destruct (_ <? _); [discriminate|].
        destruct (find _ _); discriminate.
      * destruct (issue_confirmation_token _ _ _ _ _) as [[[tk ex] c]|];
          discriminate.
    + unfold reserve_apply. destruct (_ <? _); [discriminate|].
      destruct (find _ _); discriminate.
  - unfold create_transfer, with_conn.
    destruct (negb (role =? "merch")%string); [discriminate|].
    destruct (_ =? _)%string; [discriminate|].
    destruct (find _ _); [|discriminate].
    destruct (find _ _); [|discriminate].
    destruct (negb (tq_confirm b)).
    + destruct (token_given _).
      * destruct (validate_confirmation_token _ _ _ _ _) as [ok c].
        destruct (negb ok); [discriminate|].
        unfold transfer_apply. destruct (_ <? _); discriminate.
      * destruct (issue_confirmation_token _ _ _ _ _) as [[[tk ex] c]|];
          discriminate.
    + unfold transfer_apply. destruct (_ <? _); discriminate.
  - unfold create_ticket, with_conn.
    destruct (find _ _); [|discriminate].
    destruct (existsb _ _); discriminate.
Qed.

Lemma app_valid (db : DB) (env : Env) (role : string) (r : Request) :
  PyStr.mem role VALID_ROLES = true -> request_valid r = true ->
  app db env (Some role) r =
    match r with
    | PostReserve b => reserve_inventory db env role b
    | PostTransfer b => create_transfer db env role b
    | PostTickets b => create_ticket db env role b
    end.
Proof. intros Hm Hv. unfold app. now rewrite Hm, Hv. Qed.

Lemma http_json_ok_status (db : DB) (env : Env) (role : string)
    (r : Request) (st : Z) (b : Body) :
  fst (Mcp._http_json db env role r) = Mcp.ActionOk st b ->
  st = Mcp.status_of b.
Proof.
  unfold Mcp._http_json.
  destruct (app db env (Some role) r) as [[b0|[c d|n]] db']; cbn [fst];
    try discriminate.
  intros [= <- <-]. reflexivity.
Qed.

Lemma preview_status (b : Body) :
  is_preview b = true -> Mcp.status_of b = 202.
Proof. destruct b; simpl; try discriminate; reflexivity. Qed.

Lemma validate_role_error (role : string) (e : Mcp.ActionExn) :
  Mcp._validate_role role = inl e -> exists m, e = Mcp.ValueError m.
Proof.
  unfold Mcp._validate_role. destruct (negb _); [|discriminate].
  intros [= <-]. eauto.
Qed.

Lemma validate_sku_error (known_skus : list string) (sku : string)
    (e : Mcp.ActionExn) :
  Mcp._validate_sku known_skus sku = Some e -> exists m, e = Mcp.ValueError m.
Proof.
  unfold Mcp._validate_sku. destruct (negb _); [|discriminate].
  intros [= <-]. eauto.
Qed.

Lemma validate_qty_error (qty : Z) (e : Mcp.ActionExn) :
  Mcp._validate_qty qty = Some e -> exists m, e = Mcp.ValueError m.
Proof.
  unfold Mcp._validate_qty. destruct (_ || _); [|discriminate].
  intros [= <-]. eauto.
Qed.

(** X12. The action layer never redeems a token and is never refused for
    its role.  reserve_item_action and create_transfer_action send no
    confirm_token: whatever their arguments, the ledger afterwards is the
    ledger before, or that ledger with one new unused token appended; no
    used flag changes.  The answer is never RetailCore's 401.  With
    confirm=false nothing is applied: inventory, audit log and transfers
    are unchanged and a successful answer is a preview with status 202. *)
Theorem action_layer_never_redeems (known_skus : list string) (db : DB)
    (env : Env) :
  (forall sku store_id qty confirm role,
      let out := Mcp.reserve_item_action known_skus db env sku store_id qty
                   confirm role in
      (confirm_tokens (snd out) = confirm_tokens db \/
       exists row, confirm_tokens (snd out) = confirm_tokens db ++ [row] /\
                   tok_used row = 0) /\
      (forall d, fst out <> Mcp.ActionRaise (Mcp.RuntimeError 401 d)) /\
      (confirm = false ->
       inventory (snd out) = inventory db /\
       audit_log (snd out) = audit_log db /\
       forall st b, fst out = Mcp.ActionOk st b ->
                    st = 202 /\ is_preview b = true)) /\
  (forall from_store to_store sku qty confirm role,
      let out := Mcp.create_transfer_action known_skus db env from_store
                   to_store sku qty confirm role in
      (confirm_tokens (snd out) = confirm_tokens db \/
       exists row, confirm_tokens (snd out) = confirm_tokens db ++ [row] /\
                   tok_used row = 0) /\
      (forall d, fst out <> Mcp.ActionRaise (Mcp.RuntimeError 401 d)) /\
      (confirm = false ->
       inventory (snd out) = inventory db /\
       audit_log (snd out) = audit_log db /\
       transfers (snd out) = transfers db /\
       forall st b, fst out = Mcp.ActionOk st b ->
                    st = 202 /\ is_preview b = true)).
Proof.
  split.
  - intros sku store_id qty confirm role out. subst out.
    unfold Mcp.reserve_item_action.
    destruct (Mcp._validate_role role) as [e|r] eqn:Er.
    { apply validate_role_error in Er as [m ->].
      cbn [fst snd]. repeat split; auto; discriminate. }
    destruct (Mcp._validate_sku known_skus sku) as [e|] eqn:Es.
    { apply validate_sku_error in Es as [m ->].
      cbn [fst snd]. repeat split; auto; discriminate. }
    destruct (Mcp._validate_qty qty) as [e|] eqn:Eq.
    { apply validate_qty_error in Eq as [m ->].
      cbn [fst snd]. repeat split; auto; discriminate. }
    apply validate_role_valid in Er. apply validate_qty_in_range in Eq.
    set (b := {| rr_sku := sku; rr_store_id := store_id; rr_qty := qty;
                 rr_confirm := confirm; rr_confirm_token := None |}).
    assert (Hv : request_valid (PostReserve b) = true).
    { simpl. apply Z.ltb_lt. unfold Mcp.MIN_QTY in Eq. lia. }
    destruct (http_json_shape db env r (PostReserve b))
      as (Hs & Hok & Herr & _).
    pose proof (app_valid db env r (PostReserve b) Er Hv) as Happ.
    cbv beta iota in Happ.
    split; [|split].
    + rewrite Hs, Happ.
      destruct (reserve_no_token_tokens db env r b eq_refl) as [H|H];
        [left; exact H|right]. eexists. split; [exact H|reflexivity].
    + intros d Hd. apply Herr in Hd as [(d' & Hd)|(Hc & _)]; [|discriminate].
      exact (app_not_401 db env r (PostReserve b) Er d' Hd).
    + intros Hc.
      destruct (reserve_unconfirmed_no_token db env r b)
        as (Hi & Ha & Hp); [now subst confirm|reflexivity|].
      rewrite Hs, Happ. split; [exact Hi|]. split; [exact Ha|].
      intros st body Hb.
      pose proof (http_json_ok_status _ _ _ _ _ _ Hb) as Hst.
      apply Hok in Hb. rewrite Happ in Hb. apply Hp in Hb.
      split; [|exact Hb]. rewrite Hst. now apply preview_status.
  - intros from_store to_store sku qty confirm role out. subst out.
    unfold Mcp.create_transfer_action.
    destruct (Mcp._validate_role role) as [e|r] eqn:Er.
    { apply validate_role_error in Er as [m ->].
      cbn [fst snd]. repeat split; auto; discriminate. }
    destruct (negb (r =? "merch")%string).
    { cbn [fst snd]. repeat split; auto; discriminate. }
    destruct (Mcp._validate_sku known_skus sku) as [e|] eqn:Es.
    { apply validate_sku_error in Es as [m ->].
      cbn [fst snd]. repeat split; auto; discriminate. }
    destruct (Mcp._validate_qty qty) as [e|] eqn:Eq.
    { apply validate_qty_error in Eq as [m ->].
      cbn [fst snd]. repeat split; auto; discriminate. }
    apply validate_role_valid in Er. apply validate_qty_in_range in Eq.
    set (b := {| tq_from_store := from_store; tq_to_store := to_store;
                 tq_sku := sku; tq_qty := qty; tq_confirm := confirm;
                 tq_confirm_token := None |}).
    assert (Hv : request_valid (PostTransfer b) = true).
    { simpl. apply Z.ltb_lt. unfold Mcp.MIN_QTY in Eq. lia. }
    destruct (http_json_shape db env r (PostTransfer b))
      as (Hs & Hok & Herr & _).
    pose proof (app_valid db env r (PostTransfer b) Er Hv) as Happ.
    cbv beta iota in Happ.
    split; [|split].
    + rewrite Hs, Happ.
      destruct (transfer_no_token_tokens db env r b eq_refl) as [H|H];
        [left; exact H|right]. eexists. split; [exact H|reflexivity].
    + intros d Hd. apply Herr in Hd as [(d' & Hd)|(Hc & _)]; [|discriminate].
      exact (app_not_401 db env r (PostTransfer b) Er d' Hd).
    + intros Hc.
      destruct (transfer_unconfirmed_no_token db env r b)
        as (Hi & Ha & Ht & Hp); [now subst confirm|reflexivity|].
      rewrite Hs, Happ. split; [exact Hi|]. split; [exact Ha|].
      split; [exact Ht|].
      intros st body Hb.
      pose proof (http_json_ok_status _ _ _ _ _ _ Hb) as Hst.
      apply Hok in Hb. rewrite Happ in Hb. apply Hp in Hb.
      split; [|exact Hb]. rewrite Hst. now apply preview_status.
Qed.

(** ** Lookup: properties of the distance *)

Section LookupDistance.

#[local] Open Scope R_scope.

Import Lookup.










End LookupDistance.

(** ** Tickets and stores along a sequence of requests *)

Lemma take_length (n : nat) (s : string) :
  String.length (PyStr.take n s) = Nat.min n (String.length s).
Proof.
  revert s. induction n as [|k IH]; intros [|c r]; simpl; auto.
Qed.

Lemma take_all (n : nat) (s : string) :
  (String.length s <= n)%nat -> PyStr.take n s = s.
Proof.
  revert s. induction n as [|k IH]; intros [|c r]; simpl; intros H;
    try reflexivity; try lia.
  f_equal. apply IH. lia.
Qed.

Lemma take_prefix (n : nat) (s : string) :
  String.prefix (PyStr.take n s) s = true.
Proof.
  revert s. induction n as [|k IH]; intros [|c r]; simpl; auto.
  destruct (Ascii.ascii_dec c c) as [_|N]; [apply IH|contradiction].
Qed.

Lemma reserve_apply_frame (conn : DB) (env : Env) (role : string)
    (p : ReserveRequest) (n : Z) :
  stores (snd (reserve_apply conn env role p n)) = stores conn /\
  tickets (snd (reserve_apply conn env role p n)) = tickets conn.
Proof.
  unfold reserve_apply. destruct (n <? rr_qty p); [auto|].
  cbv zeta. destruct (find _ _); simpl; auto.
Qed.

Lemma transfer_apply_frame (conn : DB) (env : Env) (role : string)
    (p : TransferRequest) (n : Z) :
  stores (snd (transfer_apply conn env role p n)) = stores conn /\
  tickets (snd (transfer_apply conn env role p n)) = tickets conn.
Proof.
  unfold transfer_apply. destruct (n <? tq_qty p); simpl; auto.
Qed.

Lemma with_conn_frame {A B : Type} (f : DB -> B) (db : DB)
    (body : DB -> Result A * DB) :
  f (snd (body db)) = f db -> f (snd (with_conn db body)) = f db.
Proof.
  unfold with_conn. destruct (body db) as [[a|e] c]; simpl; auto.
Qed.

Lemma reserve_inventory_frame (db : DB) (env : Env) (role : string)
    (p : ReserveRequest) :
  stores (snd (reserve_inventory db env role p)) = stores db /\
  tickets (snd (reserve_inventory db env role p)) = tickets db.
Proof.
  assert (H : forall B (f : DB -> B),
             (forall c e r q n, f (snd (reserve_apply c e r q n)) = f c) ->
             (forall e t a pl,
                 f (snd (validate_confirmation_token db e t a pl)) = f db) ->
             (forall c x, f (set_confirm_tokens c x) = f c) ->
             f (snd (reserve_inventory db env role p)) = f db).
  { intros B f Ha Hv Hs. unfold reserve_inventory.
    apply with_conn_frame.
    destruct (find _ _); [|reflexivity].
    destruct (negb (rr_confirm p)); [|apply Ha].
    destruct (token_given _) as [t|].
    - specialize (Hv env t "reserve" (reserve_payload p)).
      destruct (validate_confirmation_token _ _ _ _ _) as [ok c].
      simpl in Hv. destruct (negb ok); [exact Hv|].
      now rewrite Ha.
    - destruct (issue_confirmation_token _ _ _ _ _) as [[[tk ex] c]|] eqn:E;
        [|reflexivity].
      apply issue_some in E as (_ & _ & ->). apply Hs. }
  split; apply H; intros; try reflexivity;
    try apply reserve_apply_frame; apply validate_frame.
Qed.

Lemma create_transfer_frame (db : DB) (env : Env) (role : string)
    (p : TransferRequest) :
  stores (snd (create_transfer db env role p)) = stores db /\
  tickets (snd (create_transfer db env role p)) = tickets db.
Proof.
  assert (H : forall B (f : DB -> B),
             (forall c e r q n, f (snd (transfer_apply c e r q n)) = f c) ->
             (forall e t a pl,
                 f (snd (validate_confirmation_token db e t a pl)) = f db) ->
             (forall c x, f (set_confirm_tokens c x) = f c) ->
             f (snd (create_transfer db env role p)) = f db).
  { intros B f Ha Hv Hs. unfold create_transfer.
    destruct (negb (role =? "merch")%string); [reflexivity|].
    destruct (_ =? _)%string; [reflexivity|].
    apply with_conn_frame.
    destruct (find _ _); [|reflexivity].
    destruct (find _ _); [|reflexivity].
    destruct (negb (tq_confirm p)); [|apply Ha].
    destruct (token_given _) as [t|].
    - specialize (Hv env t "transfer" (transfer_payload p)).
      destruct (validate_confirmation_token _ _ _ _ _) as [ok c].
      simpl in Hv. destruct (negb ok); [exact Hv|].
      now rewrite Ha.
    - destruct (issue_confirmation_token _ _ _ _ _) as [[[tk ex] c]|] eqn:E;
        [|reflexivity].
      apply issue_some in E as (_ & _ & ->). apply Hs. }
  split; apply H; intros; try reflexivity;
    try apply transfer_apply_frame; apply validate_frame.
Qed.

Lemma app_tickets (db : DB) (env : Env) (h : option string) (r : Request) :
  stores (snd (app db env h r)) = stores db /\
  (tickets (snd (app db env h r)) = tickets db \/
   exists tk,
     tickets (snd (app db env h r)) = tickets db ++ [tk] /\
     api_ticket (stores db) tk /\
     tk_ticket_id tk = next_ticket_id (tickets db) /\
     existsb (ticket_is (tk_ticket_id tk)) (tickets db) = false).
Proof.
  unfold app. destruct h as [role|]; [|auto].
  destruct (negb (PyStr.mem role VALID_ROLES)); [auto|].
  destruct (request_valid r) eqn:Hv; [|auto].
  cbn [negb]. destruct r as [b|b|b]; simpl in Hv.
  - destruct (reserve_inventory_frame db env role b). auto.
  - destruct (create_transfer_frame db env role b). auto.
  - unfold create_ticket, with_conn.
    destruct (find (store_is (tc_store_id b)) (stores db)) as [st|] eqn:Hs;
      [|auto].
    destruct (existsb _ (tickets db)) eqn:Hf; [auto|].
    cbn [snd log_audit set_audit_log set_tickets stores tickets].
    split; [reflexivity|]. right. eexists. split; [reflexivity|].
    cbn [tk_ticket_id]. split; [|split; [reflexivity|exact Hf]].
    unfold api_ticket.
    cbn [tk_store_id tk_status tk_channel tk_description tk_summary].
    repeat split.
    + apply existsb_exists. exists st. apply find_some in Hs. exact Hs.
    + now apply Z.leb_le.
Qed.

(** X15. No request changes the stores table or an existing ticket:
    tickets are only appended.  Every ticket a sequence of requests adds
    names a store of the table, is open, has channel api, a description
    of at least one character and as summary the first 80 characters of
    the description (the whole description when it is that short).  If
    the ticket ids were distinct before, they are distinct after. *)
Theorem tickets_append_only (db : DB)
    (trace : list (Env * option string * Request)) :
  stores (run db trace) = stores db /\
  exists new,
    tickets (run db trace) = tickets db ++ new /\
    Forall (fun tk =>
              api_ticket (stores db) tk /\
              (String.length (tk_summary tk) <= 80)%nat /\
              String.prefix (tk_summary tk) (tk_description tk) = true /\
              ((String.length (tk_description tk) <= 80)%nat ->
               tk_summary tk = tk_description tk)) new /\
    (NoDup (map tk_ticket_id (tickets db)) ->
     NoDup (map tk_ticket_id (tickets (run db trace)))).
Proof.
  revert db. induction trace as [|[[env h] r] rest IH]; intros db; simpl.
  - split; [reflexivity|]. exists []. rewrite app_nil_r. auto.
  - destruct (app_tickets db env h r) as [Hst Hstep].
    destruct (IH (snd (app db env h r))) as (Hs & new & Ht & Hall & Hnd).
    rewrite Hst in *. split; [exact Hs|].
    destruct Hstep as [E|(tk & E & Hapi & Hid & Hfresh)]; rewrite E in *.
    + exists new. auto.
    + exists (tk :: new). rewrite <- app_assoc in Ht. split; [exact Ht|].
      split.
      * constructor; [|exact Hall].
        split; [exact Hapi|]. destruct Hapi as (_ & _ & _ & _ & Hsum).
        rewrite Hsum. repeat split.
        -- rewrite take_length. lia.
        -- apply take_prefix.
        -- apply take_all.
      * intros H0. apply Hnd. rewrite map_app. simpl.
        apply NoDup_app_remove_l with (l := []). simpl.
        apply Permutation_NoDup with
          (l := tk_ticket_id tk :: map tk_ticket_id (tickets db)).
        -- apply Permutation_cons_append.
        -- constructor; [|exact H0]. intros Hin.
           apply in_map_iff in Hin as (t & Ht' & Hin).
           assert (Hex : existsb (ticket_is (tk_ticket_id tk)) (tickets db)
                         = true).
           { apply existsb_exists. exists t. split; [exact Hin|].
             unfold ticket_is. now apply String.eqb_eq. }
           congruence.
Qed.

(** ** The role of the action layer *)

Lemma lower_char_idem (c : ascii) :
  PyStr.lower_char (PyStr.lower_char c) = PyStr.lower_char c.
Proof. destruct c as [[] [] [] [] [] [] [] []]; reflexivity. Qed.

Lemma lower_idem (s : string) : PyStr.lower (PyStr.lower s) = PyStr.lower s.
Proof.
  induction s as [|c r IH]; simpl; [reflexivity|].
  now rewrite lower_char_idem, IH.
Qed.

Lemma lower_char_space (c : ascii) :
  PyStr.isspace c = true -> PyStr.lower_char c = c.
Proof.
  destruct c as [[] [] [] [] [] [] [] []]; intros H;
    solve [reflexivity | vm_compute in H; discriminate H].
Qed.

Lemma lower_blank (s : string) : blank s = true -> PyStr.lower s = s.
Proof.
  induction s as [|c r IH]; simpl; [reflexivity|].
  intros H. apply andb_true_iff in H as [Hc Hr].
  now rewrite (lower_char_space c Hc), IH.
Qed.

Lemma lower_append (a b : string) :
  PyStr.lower (String.append a b)
  = String.append (PyStr.lower a) (PyStr.lower b).
Proof. induction a as [|c r IH]; simpl; [reflexivity|]. now rewrite IH. Qed.

Lemma lstrip_append_blank (a b : string) :
  blank a = true -> PyStr.lstrip (String.append a b) = PyStr.lstrip b.
Proof.
  induction a as [|c r IH]; simpl; [reflexivity|].
  intros H. apply andb_true_iff in H as [Hc Hr]. rewrite Hc. auto.
Qed.

Lemma rstrip_blank (s : string) :
  blank s = true -> PyStr.rstrip s = EmptyString.
Proof.
  induction s as [|c r IH]; simpl; [reflexivity|].
  intros H. apply andb_true_iff in H as [Hc Hr].
  now rewrite (IH Hr), Hc.
Qed.

Lemma rstrip_append_blank (a b : string) :
  blank b = true -> PyStr.rstrip (String.append a b) = PyStr.rstrip a.
Proof.
  intros Hb. induction a as [|c r IH]; simpl.
  - now apply rstrip_blank.
  - now rewrite IH.
Qed.

Lemma valid_role_cases (r : string) :
  PyStr.mem r VALID_ROLES = true ->
  r = "associate" \/ r = "merch" \/ r = "support".
Proof.
  unfold VALID_ROLES. cbn [PyStr.mem].
  destruct (String.eqb_spec r "associate"); [auto|].
  destruct (String.eqb_spec r "merch"); [auto|].
  destruct (String.eqb_spec r "support"); [auto|discriminate].
Qed.

(** X16. _validate_role normalises.  An accepted role comes back as one
    of the three exact names, which _validate_role accepts unchanged.
    Letter case does not matter: a role is accepted, with the same
    result, exactly when its lower-case form is.  Whitespace around a
    valid name does not matter either. *)
Theorem validate_role_normalises :
  (forall role r,
      Mcp._validate_role role = inr r ->
      PyStr.mem r VALID_ROLES = true /\ Mcp._validate_role r = inr r) /\
  (forall role r,
      Mcp._validate_role role = inr r <->
      Mcp._validate_role (PyStr.lower role) = inr r) /\
  (forall r pre post,
      PyStr.mem r VALID_ROLES = true ->
      blank pre = true -> blank post = true ->
      Mcp._validate_role (String.append pre (String.append r post)) = inr r).
Proof.
  split; [|split].
  - intros role r H. pose proof (validate_role_valid role r H) as Hm.
    split; [exact Hm|].
    destruct (valid_role_cases r Hm) as [->|[->| ->]]; reflexivity.
  - intros role r. unfold Mcp._validate_role. rewrite lower_idem.
    destruct (negb (PyStr.mem _ VALID_ROLES)); split; intros H;
      solve [discriminate H | exact H].
  - intros r pre post Hm Hpre Hpost. unfold Mcp._validate_role.
    rewrite !lower_append, (lower_blank pre Hpre), (lower_blank post Hpost).
    unfold PyStr.strip.
    rewrite (lstrip_append_blank _ _ Hpre).
    destruct (valid_role_cases r Hm) as [->|[->| ->]].
    + change (PyStr.lower "associate") with "associate".
      change (PyStr.lstrip (String.append "associate" post))
        with (String.append "associate" post).
      now rewrite (rstrip_append_blank _ _ Hpost).
    + change (PyStr.lower "merch") with "merch".
      change (PyStr.lstrip (String.append "merch" post))
        with (String.append "merch" post).
      now rewrite (rstrip_append_blank _ _ Hpost).
    + change (PyStr.lower "support") with "support".
      change (PyStr.lstrip (String.append "support" post))
        with (String.append "support" post).
      now rewrite (rstrip_append_blank _ _ Hpost).
Qed.

(** ** The properties at the rows of the demo pack *)

Lemma demo_stock_ok : stock_ok Demo.db.
Proof.
  split.
  - cbv. repeat (constructor; [simpl; intuition discriminate|]). constructor.
  - repeat constructor; simpl; lia.
Qed.


Lemma stock_never_negative_witness :
  stock_ok Demo.db /\ stock_ok (run Demo.db demo_trace).
Proof.
  split; [exact demo_stock_ok|].
  exact (stock_never_negative Demo.db demo_trace demo_stock_ok).
Defined.

Lemma audit_log_listed_in_insertion_order_witness :
  audit_ids_ok Demo.db /\
  audit_ids_ok (run Demo.db demo_trace) /\
  get_audit_log (fun s : string => s) (run Demo.db demo_trace) =
    (Z.of_nat (List.length (audit_log (run Demo.db demo_trace))),
     map (audit_entry (fun s : string => s))
       (audit_log (run Demo.db demo_trace))).
Proof.
  assert (H : audit_ids_ok Demo.db) by constructor.
  split; [exact H|].
  exact (audit_log_listed_in_insertion_order string (fun s => s) Demo.db
           demo_trace H).
Defined.

Lemma issued_token_redeemable_until_expiry_witness :
  issue_confirmation_token Demo.db Demo.env "reserve"
    (reserve_payload (Demo.reserve_req "ST002" 1 false None)) 900 =
    Some ((Demo.token, 1901 * usec), Demo.db_preview_1) /\
  1901 * usec = now_token Demo.env + 900 * usec.
Proof.
  assert (H : issue_confirmation_token Demo.db Demo.env "reserve"
                (reserve_payload (Demo.reserve_req "ST002" 1 false None)) 900 =
              Some ((Demo.token, 1901 * usec), Demo.db_preview_1))
    by reflexivity.
  split; [exact H|].
  exact (proj1 (issued_token_redeemable_until_expiry Demo.db Demo.env
                  "reserve"
                  (reserve_payload (Demo.reserve_req "ST002" 1 false None))
                  900 Demo.token (1901 * usec) Demo.db_preview_1 H)).
Defined.

Lemma token_bound_to_request_fields_witness :
  find (token_is Demo.token) (confirm_tokens Demo.db_preview_1) =
    Some (issued_row Demo.env "reserve"
            (reserve_payload (Demo.reserve_req "ST002" 1 false None))) /\
  exists e,
    reserve_inventory Demo.db_preview_1 Demo.env2 "associate"
      (Demo.reserve_req "ST002" 2 false (Some Demo.token)) =
      (Raise e, Demo.db_preview_1).
Proof.
  assert (H : find (token_is Demo.token) (confirm_tokens Demo.db_preview_1) =
              Some (issued_row Demo.env "reserve"
                      (reserve_payload
                         (Demo.reserve_req "ST002" 1 false None))))
    by reflexivity.
  split; [exact H|].
  refine (proj1 (token_bound_to_request_fields Demo.db_preview_1 Demo.env2
                   "associate" Demo.token _ H)
            (Demo.reserve_req "ST002" 1 false None)
            (Demo.reserve_req "ST002" 2 false (Some Demo.token))
            eq_refl eq_refl eq_refl _).
  right. right. simpl. lia.
Defined.

Lemma token_never_deleted_used_forever_witness :
  find (token_is Demo.token) (confirm_tokens Demo.db_preview_1) =
    Some (issued_row Demo.env "reserve"
            (reserve_payload (Demo.reserve_req "ST002" 1 false None))) /\
  exists row',
    find (token_is Demo.token)
      (confirm_tokens (run Demo.db_preview_1 (tl demo_trace))) = Some row' /\
    tok_action row' = "reserve".
Proof.
  assert (H : find (token_is Demo.token) (confirm_tokens Demo.db_preview_1) =
              Some (issued_row Demo.env "reserve"
                      (reserve_payload
                         (Demo.reserve_req "ST002" 1 false None))))
    by reflexivity.
  split; [exact H|].
  destruct (token_never_deleted_used_forever Demo.db_preview_1
              (tl demo_trace) Demo.token _ H)
    as (row' & Hf & _ & Ha & _).
  exists row'. split; [exact Hf|exact Ha].
Defined.


Lemma transfer_preview_then_confirm_witness :
  fst (create_transfer Demo.db Demo.env "merch"
         (Demo.transfer_req 2 false None)) =
    Return (TransferPreview Demo.token (1901 * usec) true 4).
Proof.
  assert (Hne : tq_from_store (Demo.transfer_req 2 false None)
                <> tq_to_store (Demo.transfer_req 2 false None))
    by (simpl; discriminate).
  exact (f_equal fst
           (proj1 (transfer_preview_then_confirm Demo.db Demo.env
                     (Demo.transfer_req 2 false None)
                     (Demo.inv "ST002" Demo.sku 4 0)
                     (Demo.inv "ST001" Demo.sku 0 0)
                     Hne eq_refl eq_refl eq_refl eq_refl eq_refl eq_refl))).
Defined.
